(** * Hapuss: repository secret provisioning and collaborator bootstrap

    A shallow embedding of the two scripts of the repository,
    [setup_collaborators.py] and [auto_secrets.py], and the properties of
    their HTTP client, permission preflight, secret provisioning loop and
    invite/accept handshake.

    The scripts talk to the GitHub REST API.  The host is a black box: a
    function from the history of the run and the request being sent to a
    reply, which is either a response object or a transport failure.  Every
    function of the scripts that performs I/O is a computation that reads the
    history so far and returns its result together with the events it
    emitted, so that the observable behaviour of a run is its event list. *)

From Stdlib Require Import ZArith Lia Ascii String DecimalString.
From stdpp Require Import base strings list gmap.

Local Open Scope string_scope.
Local Open Scope Z_scope.
Local Open Scope list_scope.

Set Warnings "-register-all".

(** ** Python values and builtins *)

Module Py.

(** The values [resp.json()] can yield.  JSON numbers are integers here: no
    endpoint used by the scripts carries a fractional number. *)
Inductive value : Type :=
  | VNone
  | VBool (b : bool)
  | VInt (n : Z)
  | VStr (s : string)
  | VList (items : list value)
  | VDict (fields : list (string * value)).

(** [bool(v)], the truth value tested by [if v] and [not v]. *)
Definition truthy (v : value) : bool :=
  match v with
  | VNone => false
  | VBool b => b
  | VInt n => negb (n =? 0)
  | VStr s => negb (String.eqb s "")
  | VList items => match items with [] => false | _ => true end
  | VDict fields => match fields with [] => false | _ => true end
  end.

(** [bool(s)] for a [str]. *)
Definition nonempty (s : string) : bool := negb (String.eqb s "").

(** [isinstance(v, list)]. *)
Definition is_list (v : value) : bool :=
  match v with VList _ => true | _ => false end.

(** [v is not None]. *)
Definition is_not_None (v : value) : bool :=
  match v with VNone => false | _ => true end.

(** [v == s] for a [str] [s]. *)
Definition eq_str (v : value) (s : string) : bool :=
  match v with VStr s' => String.eqb s' s | _ => false end.

(** Lookup of a key in the fields of a [dict]. *)
Fixpoint assoc (k : string) (fields : list (string * value)) : option value :=
  match fields with
  | [] => None
  | (k', v) :: rest => if String.eqb k' k then Some v else assoc k rest
  end.

(** [c in s] for a one-character needle. *)
Fixpoint contains_char (c : ascii) (s : string) : bool :=
  match s with
  | EmptyString => false
  | String c' rest => if Ascii.eqb c' c then true else contains_char c rest
  end.

(** [s.split(", ")]: the pieces of [s] between the non-overlapping
    occurrences of the two-character separator, scanned left to right.
    [cur] is the piece being read. *)
Fixpoint split_comma_space_from (cur : string) (s : string) : list string :=
  match s with
  | EmptyString => [cur]
  | String c rest =>
      match rest with
      | String c2 rest2 =>
          if (Ascii.eqb c "," && Ascii.eqb c2 " ")%bool
          then cur :: split_comma_space_from "" rest2
          else split_comma_space_from (cur +:+ String c "") rest
      | EmptyString => [cur +:+ String c ""]
      end
  end.

Definition split_comma_space (s : string) : list string :=
  split_comma_space_from "" s.

(** [x in l] for a list of [str]. *)
Definition str_in (x : string) (l : list string) : bool :=
  existsb (String.eqb x) l.

(** [str(n)] for an [int]. *)
Definition str_of_int (n : Z) : string :=
  NilZero.string_of_int (Z.to_int n).

(** [str(i)] for the loop counters of [range(1, 21)]. *)
Definition str_of_nat (i : nat) : string :=
  NilZero.string_of_uint (Nat.to_uint i).

(** [l[1:]]. *)
Definition slice_from_1 {A} (l : list A) : list A := drop 1 l.

(** Exceptions a run can raise.  [SystemExit] is what [exit(1)] raises; it
    is the only one that is not an [Exception]. *)
Inductive exn : Type :=
  | SystemExit (code : Z)
  | RequestException
  | JSONDecodeError
  | KeyError (key : string)
  | TypeError
  | AttributeError
  | IndexError
  | ValueError.

(** Whether [except Exception] catches it. *)
Definition is_Exception (e : exn) : bool :=
  match e with SystemExit _ => false | _ => true end.

Inductive result (A : Type) : Type :=
  | Ret (a : A)
  | Raise (e : exn).
Arguments Ret {A} a.
Arguments Raise {A} e.

(** [v.get(k, d)]: an [AttributeError] unless [v] is a [dict]. *)
Definition get (v : value) (k : string) (d : value) : result value :=
  match v with
  | VDict fields => Ret (default d (assoc k fields))
  | _ => Raise AttributeError
  end.

(** [v[k]] for a [str] key. *)
Definition subscript (v : value) (k : string) : result value :=
  match v with
  | VDict fields =>
      match assoc k fields with Some x => Ret x | None => Raise (KeyError k) end
  | _ => Raise TypeError
  end.

End Py.
Export Py.

(** ** Requests, replies and the event history of a run *)

Inductive verb : Type := GET | POST | PUT | PATCH.

(** A request as handed to [requests]: the verb, the URL, the two headers
    the scripts set, the [json=] body and the [timeout=] in seconds. *)
Record request : Type := mkRequest {
  rq_verb : verb;
  rq_url : string;
  rq_authorization : string;
  rq_accept : string;
  rq_json : option value;
  rq_timeout : option Z
}.

(** A response object: [resp.status_code], [resp.text], what [resp.json()]
    yields ([None] when it raises) and the response headers, keyed by the
    name the scripts look up. *)
Record response : Type := mkResponse {
  status_code : Z;
  text : string;
  json : option value;
  headers : gmap string string
}.

(** What sending a request produces: a response, or an exception raised by
    [requests] (timeout, connection error). *)
Inductive reply : Type :=
  | Answer (resp : response)
  | Failure.

(** What the scripts print, one constructor per report, carrying the values
    interpolated into it. *)
Inductive message : Type :=
  (* setup_collaborators.py *)
  | MsgCollabBanner (repo : string) (users : nat)
  | MsgClientError (e : exn)
  | MsgStep1
  | MsgInvitationSent (u : string)
  | MsgInviteFailed (u : string)
  | MsgWaiting
  | MsgStep2
  | MsgNoInvitationsFound (u : string)
  | MsgAccepted (u : string)
  | MsgAcceptFailed (u : string)
  | MsgNoInvitationFor (u : string) (repo : string)
  | MsgCollabCompleted
  (* auto_secrets.py *)
  | MsgNoAdminToken
  | MsgNoTokens
  | MsgFound (repo : string) (tokens : nat)
  | MsgKeyFetchFailed (status : Z)
  | MsgResponse (body : string)
  | MsgSecretsBanner (repo : string) (tokens : nat)
  | MsgAdding (name : string)
  | MsgOk
  | MsgFail
  | MsgSummary (success_count : Z) (total : nat)
  | MsgFailedNames (failed : list string)
  | MsgAllAdded
  | MsgSomeFailed
  | MsgChecking
  | MsgInvalidToken
  | MsgScopes (scopes : list string)
  | MsgMissingScopes (missing : list string)
  | MsgHowToFix
  | MsgPermissionsOk
  | MsgAborted
  | MsgError (e : exn).

(** [time.sleep] is recorded in milliseconds. *)
Inductive event : Type :=
  | Http (rq : request) (rp : reply)
  | Sleep (ms : Z)
  | Print (m : message).

(** What the scripts use and do not define: the GitHub host, the [repr] of
    a container (reached only when an invitation id is not a scalar), and
    the base64 and sealed-box primitives of the standard library and PyNaCl.
    The sealed box is randomised: it reads the history as its entropy. *)
Record World : Type := mkWorld {
  host : list event -> request -> reply;
  repr : value -> string;
  b64decode : value -> result string;
  sealed_box_encrypt : list event -> string -> string -> result string;
  b64encode : string -> string
}.

(** A computation reads the history of the run and returns its outcome and
    the events it added.  An exception keeps the events emitted before it. *)
Definition M (A : Type) : Type := list event -> result A * list event.

Definition ret {A} (a : A) : M A := fun _ => (Ret a, []).

Definition raise {A} (e : exn) : M A := fun _ => (Raise e, []).

Definition bind {A B} (m : M A) (k : A -> M B) : M B :=
  fun hist =>
    match m hist with
    | (Ret a, evs) =>
        match k a (hist ++ evs) with
        | (r, evs') => (r, evs ++ evs')
        end
    | (Raise e, evs) => (Raise e, evs)
    end.

Declare Scope py_scope.
Delimit Scope py_scope with py.
Notation "x <- m ;; k" := (bind m (fun x => k))
  (at level 100, m at next level, right associativity) : py_scope.
Notation "m ;;; k" := (bind m (fun _ => k))
  (at level 100, right associativity) : py_scope.
Local Open Scope py_scope.

(** Lifting a pure operation that may raise. *)
Definition lift {A} (r : result A) : M A := fun _ => (r, []).

Definition emit (e : event) : M unit := fun _ => (Ret tt, [e]).

Definition print (m : message) : M unit := emit (Print m).

Definition sleep (ms : Z) : M unit := emit (Sleep ms).

(** [try: body except Exception as e: handler(e)]. *)
Definition try_except {A} (body : M A) (handler : exn -> M A) : M A :=
  fun hist =>
    match body hist with
    | (Ret a, evs) => (Ret a, evs)
    | (Raise e, evs) =>
        if is_Exception e
        then match handler e (hist ++ evs) with
             | (r, evs') => (r, evs ++ evs')
             end
        else (Raise e, evs)
    end.

(** Sending one request to the host. *)
Definition send (w : World) (rq : request) : M response :=
  fun hist =>
    match host w hist rq with
    | Answer resp => (Ret resp, [Http rq (Answer resp)])
    | Failure => (Raise RequestException, [Http rq Failure])
    end.

(** [resp.json()]. *)
Definition json_of (resp : response) : M value :=
  lift (match json resp with Some v => Ret v | None => Raise JSONDecodeError end).

(** [x in [a, b, ...]] for status codes. *)
Definition status_in (x : Z) (l : list Z) : bool := existsb (Z.eqb x) l.

(** [str(v)] as an f-string interpolates it. *)
Definition str (w : World) (v : value) : string :=
  match v with
  | VNone => "None"
  | VBool true => "True"
  | VBool false => "False"
  | VInt n => str_of_int n
  | VStr s => s
  | VList _ | VDict _ => repr w v
  end.

(** The events of a run that are requests, in order. *)
Definition requests (evs : list event) : list request :=
  omap (fun e => match e with Http rq _ => Some rq | _ => None end) evs.

(** ** setup_collaborators.py *)

Module Collab.

(** The module-level configuration, read from the environment once. *)
Record Config : Type := mkConfig {
  ADMIN_USERNAME : string;
  TARGET_REPO : string;
  TOKENS : list string;
  USERS : list string
}.

(** [[os.getenv(f"{prefix}{i}") for i in range(1, 21) if os.getenv(...)]]. *)
Definition collect (env : gmap string string) (prefix : string) : list string :=
  omap (fun i : nat =>
          match env !! (prefix +:+ str_of_nat i) with
          | Some v => if nonempty v then Some v else None
          | None => None
          end)
       (seq 1 20).

Definition load (env : gmap string string) : Config :=
  let admin := default "" (env !! "ADMIN_USERNAME") in
  let repo := default "" (env !! "TARGET_REPO") in
  {| ADMIN_USERNAME := admin;
     TARGET_REPO :=
       if (negb (nonempty repo) || negb (contains_char "/" repo))%bool
       then admin +:+ "/hapus" else repo;
     TOKENS := collect env "PAT";
     USERS := collect env "USERNAME" |}.

(** A client is its session, that is its two headers. *)
Record GitHubClient : Type := mkClient {
  authorization : string;
  accept : string
}.

Definition GitHubClient_init (token : string) : GitHubClient :=
  {| authorization := "token " +:+ token;
     accept := "application/vnd.github.v3+json" |}.

Section Run.
Variable w : World.
Variable cfg : Config.

Definition session_request (self : GitHubClient) (v : verb) (url : string)
    (data : option value) : M response :=
  send w {| rq_verb := v; rq_url := url;
            rq_authorization := authorization self; rq_accept := accept self;
            rq_json := data; rq_timeout := Some 10 |}.

(** [GitHubClient.call]. *)
Definition call (self : GitHubClient) (endpoint : string) (method : string)
    (data : option value) : M value :=
  let url := "https://api.github.com" +:+ endpoint in
  try_except
    (resp <- (if String.eqb method "POST" then session_request self POST url data
              else if String.eqb method "PUT" then session_request self PUT url data
              else if String.eqb method "PATCH" then session_request self PATCH url data
              else session_request self GET url None) ;;
     if status_in (status_code resp) [200; 201; 204]
     then (if nonempty (text resp) then json_of resp else ret (VDict []))
     else ret VNone)
    (fun e => print (MsgClientError e) ;;; ret VNone).

(** The body of the invite loop, for one entry [u] of [USERS[1:]]. *)
Definition invite_member (admin_client : GitHubClient) (u : string) : M unit :=
  if negb (nonempty u) then ret tt
  else
    result <- call admin_client
                ("/repos/" +:+ TARGET_REPO cfg +:+ "/collaborators/" +:+ u)
                "PUT" (Some (VDict [("permission", VStr "push")])) ;;
    (if is_not_None result
     then print (MsgInvitationSent u)
     else print (MsgInviteFailed u)) ;;;
    sleep 800.

(** [for u in USERS[1:]: ...]. *)
Fixpoint invite_phase (admin_client : GitHubClient) (users : list string) : M unit :=
  match users with
  | [] => ret tt
  | u :: rest => invite_member admin_client u ;;; invite_phase admin_client rest
  end.

(** [for invite in invitations: ...]: the scan stops at the first entry whose
    repository full name is the target, which it tries to accept.  The
    result is the flag [accepted]. *)
Fixpoint scan_invitations (client : GitHubClient) (u : string)
    (invitations : list value) : M bool :=
  match invitations with
  | [] => ret false
  | invite :: rest =>
      repository <- lift (get invite "repository" (VDict [])) ;;
      repo_name <- lift (get repository "full_name" VNone) ;;
      if eq_str repo_name (TARGET_REPO cfg)
      then
        invite_id <- lift (get invite "id" VNone) ;;
        result <- call client
                    ("/user/repository_invitations/" +:+ str w invite_id)
                    "PATCH" None ;;
        if is_not_None result
        then print (MsgAccepted u) ;;; ret true
        else print (MsgAcceptFailed u) ;;; ret false
      else scan_invitations client u rest
  end.

(** The body of the accept loop, for one pair [(u, t)]. *)
Definition accept_member (u t : string) : M unit :=
  if (negb (nonempty u) || negb (nonempty t))%bool then ret tt
  else
    let client := GitHubClient_init t in
    invitations <- call client "/user/repository_invitations" "GET" None ;;
    if (negb (truthy invitations) || negb (is_list invitations))%bool
    then print (MsgNoInvitationsFound u)
    else
      accepted <- scan_invitations client u
                    (match invitations with VList items => items | _ => [] end) ;;
      (if negb accepted
       then print (MsgNoInvitationFor u (TARGET_REPO cfg))
       else ret tt) ;;;
      sleep 800.

(** [for u, t in zip(USERS[1:], TOKENS[1:]): ...]. *)
Fixpoint accept_phase (members : list (string * string)) : M unit :=
  match members with
  | [] => ret tt
  | (u, t) :: rest => accept_member u t ;;; accept_phase rest
  end.

Definition setup_collaborators : M unit :=
  print (MsgCollabBanner (TARGET_REPO cfg) (length (USERS cfg))) ;;;
  token0 <- lift (match TOKENS cfg !! 0%nat with
                  | Some t => Ret t
                  | None => Raise IndexError
                  end) ;;
  let admin_client := GitHubClient_init token0 in
  print MsgStep1 ;;;
  invite_phase admin_client (slice_from_1 (USERS cfg)) ;;;
  print MsgWaiting ;;;
  sleep 5000 ;;;
  print MsgStep2 ;;;
  accept_phase (zip (slice_from_1 (USERS cfg)) (slice_from_1 (TOKENS cfg))) ;;;
  print MsgCollabCompleted.

End Run.

(** The script run as a program. *)
Definition main (w : World) (env : gmap string string) : M unit :=
  setup_collaborators w (load env).

End Collab.

(** ** auto_secrets.py *)

Module Secrets.

Record Config : Type := mkConfig {
  ADMIN_USERNAME : string;
  TARGET_REPO : string;
  ADMIN_TOKEN : string;
  TOKENS : list (string * string)
}.

(** The dictionary [TOKENS], in insertion order: the names [PAT1] to
    [PAT20] that are set and not empty. *)
Definition collect_tokens (env : gmap string string) : list (string * string) :=
  omap (fun i : nat =>
          let name := "PAT" +:+ str_of_nat i in
          match env !! name with
          | Some v => if nonempty v then Some (name, v) else None
          | None => None
          end)
       (seq 1 20).

(** The module-level statements: they end the run with [exit(1)] when the
    admin token or every token is missing. *)
Definition load (env : gmap string string) : M Config :=
  let admin := default "" (env !! "ADMIN_USERNAME") in
  let repo := default "" (env !! "TARGET_REPO") in
  let admin_token := default "" (env !! "PAT1") in
  if negb (nonempty admin_token)
  then print MsgNoAdminToken ;;; raise (SystemExit 1)
  else
    let repo := if (negb (nonempty repo) || negb (contains_char "/" repo))%bool
                then admin +:+ "/hapus" else repo in
    let tokens := collect_tokens env in
    match tokens with
    | [] => print MsgNoTokens ;;; raise (SystemExit 1)
    | _ =>
        print (MsgFound repo (length tokens)) ;;;
        ret {| ADMIN_USERNAME := admin; TARGET_REPO := repo;
               ADMIN_TOKEN := admin_token; TOKENS := tokens |}
    end.

Section Run.
Variable w : World.
Variable cfg : Config.

Definition api_request (v : verb) (url token : string) (data : option value)
    : request :=
  {| rq_verb := v; rq_url := url;
     rq_authorization := "token " +:+ token;
     rq_accept := "application/vnd.github.v3+json";
     rq_json := data; rq_timeout := None |}.

Definition get_public_key (repo token : string) : M value :=
  let url := "https://api.github.com/repos/" +:+ repo
             +:+ "/actions/secrets/public-key" in
  resp <- send w (api_request GET url token None) ;;
  if status_code resp =? 200
  then json_of resp
  else
    print (MsgKeyFetchFailed (status_code resp)) ;;;
    print (MsgResponse (text resp)) ;;;
    ret VNone.

(** [secret_value.encode("utf-8")] is the identity on the byte string that
    represents the text. *)
Definition encrypt_secret (public_key : value) (secret_value : string) : M string :=
  fun hist =>
    match b64decode w public_key with
    | Raise e => (Raise e, [])
    | Ret public_key_bytes =>
        match sealed_box_encrypt w hist public_key_bytes secret_value with
        | Raise e => (Raise e, [])
        | Ret encrypted => (Ret (b64encode w encrypted), [])
        end
    end.

Definition create_or_update_secret (repo token secret_name secret_value : string)
    : M bool :=
  key_data <- get_public_key repo token ;;
  if negb (truthy key_data) then ret false
  else
    key <- lift (subscript key_data "key") ;;
    encrypted_value <- encrypt_secret key secret_value ;;
    let url := "https://api.github.com/repos/" +:+ repo
               +:+ "/actions/secrets/" +:+ secret_name in
    key_id <- lift (subscript key_data "key_id") ;;
    let data := VDict [("encrypted_value", VStr encrypted_value);
                       ("key_id", key_id)] in
    resp <- send w (api_request PUT url token (Some data)) ;;
    ret (status_in (status_code resp) [201; 204]).

(** [for secret_name, secret_value in TOKENS.items(): ...], with the locals
    [success_count] and [failed] it updates. *)
Fixpoint setup_secrets_loop (entries : list (string * string)) (success_count : Z)
    (failed : list string) : M (Z * list string) :=
  match entries with
  | [] => ret (success_count, failed)
  | (secret_name, secret_value) :: rest =>
      print (MsgAdding secret_name) ;;;
      ok <- create_or_update_secret (TARGET_REPO cfg) (ADMIN_TOKEN cfg)
              secret_name secret_value ;;
      if ok : bool
      then print MsgOk ;;; setup_secrets_loop rest (success_count + 1) failed
      else print MsgFail ;;;
           setup_secrets_loop rest success_count (failed ++ [secret_name])
  end.

Definition setup_secrets : M unit :=
  print (MsgSecretsBanner (TARGET_REPO cfg) (length (TOKENS cfg))) ;;;
  totals <- setup_secrets_loop (TOKENS cfg) 0 [] ;;
  let success_count := fst totals in
  let failed := snd totals in
  print (MsgSummary success_count (length (TOKENS cfg))) ;;;
  (match failed with
   | [] => ret tt
   | _ => print (MsgFailedNames failed)
   end) ;;;
  if success_count =? Z.of_nat (length (TOKENS cfg))
  then print MsgAllAdded
  else print MsgSomeFailed.

Definition check_permissions : M bool :=
  print MsgChecking ;;;
  resp <- send w (api_request GET "https://api.github.com/user"
                    (ADMIN_TOKEN cfg) None) ;;
  if negb (status_code resp =? 200)
  then print MsgInvalidToken ;;; ret false
  else
    let scopes :=
      split_comma_space (default "" (headers resp !! "X-OAuth-Scopes")) in
    print (MsgScopes scopes) ;;;
    let required := ["repo"; "workflow"] in
    let missing := List.filter (fun s => negb (str_in s scopes)) required in
    match missing with
    | [] => print MsgPermissionsOk ;;; ret true
    | _ => print (MsgMissingScopes missing) ;;; print MsgHowToFix ;;; ret false
    end.

(** The [__main__] block.  [exit(1)] raises [SystemExit], which
    [except Exception] lets through.  [KeyboardInterrupt] comes from outside
    the program and has no counterpart here. *)
Definition run : M unit :=
  try_except
    (ok <- check_permissions ;;
     (if negb ok
      then print MsgAborted ;;; raise (SystemExit 1)
      else ret tt) ;;;
     setup_secrets)
    (fun e => print (MsgError e)).

End Run.

(** The script run as a program. *)
Definition main (w : World) (env : gmap string string) : M unit :=
  cfg <- load env ;;
  run w cfg.

End Secrets.

(** ** Observations on runs *)

(** The request [GitHubClient.call] sends for its arguments. *)
Definition call_request (self : Collab.GitHubClient) (endpoint method : string)
    (data : option value) : request :=
  let url := "https://api.github.com" +:+ endpoint in
  let (v, body) :=
    if String.eqb method "POST" then (POST, data)
    else if String.eqb method "PUT" then (PUT, data)
    else if String.eqb method "PATCH" then (PATCH, data)
    else (GET, None) in
  {| rq_verb := v; rq_url := url;
     rq_authorization := Collab.authorization self;
     rq_accept := Collab.accept self;
     rq_json := body; rq_timeout := Some 10 |}.

(** What [GitHubClient.call] returns and prints for a reply. *)
Definition call_outcome (rp : reply) : value * list event :=
  match rp with
  | Failure => (VNone, [Print (MsgClientError RequestException)])
  | Answer resp =>
      if status_in (status_code resp) [200; 201; 204]
      then if nonempty (text resp)
           then match json resp with
                | Some v => (v, [])
                | None => (VNone, [Print (MsgClientError JSONDecodeError)])
                end
           else (VDict [], [])
      else (VNone, [])
  end.

(** The GET of the repository public key. *)
Definition key_request (repo token : string) : request :=
  Secrets.api_request GET
    ("https://api.github.com/repos/" +:+ repo +:+ "/actions/secrets/public-key")
    token None.

(** The PUT that creates or updates the secret [name]. *)
Definition upsert_request (repo token name encrypted_value : string)
    (key_id : value) : request :=
  Secrets.api_request PUT
    ("https://api.github.com/repos/" +:+ repo +:+ "/actions/secrets/" +:+ name)
    token
    (Some (VDict [("encrypted_value", VStr encrypted_value); ("key_id", key_id)])).

(** The GET of the identity endpoint. *)
Definition identity_request (token : string) : request :=
  Secrets.api_request GET "https://api.github.com/user" token None.

(** The lines of a run that report on the entries of the batch. *)
Definition entry_reports (evs : list event) : list message :=
  omap (fun e => match e with
                 | Print (MsgAdding name) => Some (MsgAdding name)
                 | Print MsgOk => Some MsgOk
                 | Print MsgFail => Some MsgFail
                 | _ => None
                 end) evs.

(** The PUT that invites [u]. *)
Definition invite_request (cfg : Collab.Config) (client : Collab.GitHubClient)
    (u : string) : request :=
  call_request client
    ("/repos/" +:+ Collab.TARGET_REPO cfg +:+ "/collaborators/" +:+ u)
    "PUT" (Some (VDict [("permission", VStr "push")])).

(** The GET that lists the invitations of the client's principal. *)
Definition list_request (client : Collab.GitHubClient) : request :=
  call_request client "/user/repository_invitations" "GET" None.

(** The PATCH that accepts the invitation [id]. *)
Definition accept_request (w : World) (client : Collab.GitHubClient)
    (id : value) : request :=
  call_request client ("/user/repository_invitations/" +:+ str w id) "PATCH" None.

(** An invitation entry the scan can read: an object whose [repository],
    when present, is an object. *)
Definition well_formed_invite (invite : value) : bool :=
  match invite with
  | VDict fields =>
      match assoc "repository" fields with
      | None | Some (VDict _) => true
      | Some _ => false
      end
  | _ => false
  end.

(** The repository full name of an entry is the target. *)
Definition names_repo (target : string) (invite : value) : bool :=
  match invite with
  | VDict fields =>
      match assoc "repository" fields with
      | Some (VDict rfields) => eq_str (default VNone (assoc "full_name" rfields)) target
      | _ => false
      end
  | _ => false
  end.

(** [invite.get("id")]. *)
Definition invite_id (invite : value) : value :=
  match invite with
  | VDict fields => default VNone (assoc "id" fields)
  | _ => VNone
  end.

(** The scopes granted by a response: the entries of its header. *)
Definition granted_scopes (resp : response) : list string :=
  split_comma_space (default "" (headers resp !! "X-OAuth-Scopes")).

(** [os.getenv(name)] is set and not empty. *)
Definition is_set (env : gmap string string) (name : string) : bool :=
  match env !! name with
  | Some v => nonempty v
  | None => false
  end.

(** The accounts of the environment are complete: every number from 1 to
    20 has both a username and a token, or neither. *)
Definition accounts_complete (env : gmap string string) : bool :=
  forallb (fun i : nat =>
             Bool.eqb (is_set env ("USERNAME" +:+ str_of_nat i))
                      (is_set env ("PAT" +:+ str_of_nat i)))
          (seq 1 20).

(** What every request of [auto_secrets.py] has. *)
Definition admin_api_request (cfg : Secrets.Config) (rq : request) : Prop :=
  rq_authorization rq = "token " +:+ Secrets.ADMIN_TOKEN cfg
  /\ rq_accept rq = "application/vnd.github.v3+json"
  /\ String.prefix "https://api.github.com/" (rq_url rq) = true
  /\ (rq_verb rq = GET \/ rq_verb rq = PUT)
  /\ rq_timeout rq = None.

(** What every request of [setup_collaborators.py] has. *)
Definition configured_api_request (cfg : Collab.Config) (rq : request) : Prop :=
  (exists t, t ∈ Collab.TOKENS cfg /\ rq_authorization rq = "token " +:+ t)
  /\ rq_accept rq = "application/vnd.github.v3+json"
  /\ String.prefix "https://api.github.com/" (rq_url rq) = true
  /\ rq_timeout rq = Some 10.

(** Every exception the computation raises is one of [S]. *)
Definition raises_within {A} (S : exn -> Prop) (m : M A) : Prop :=
  forall hist e, (m hist).1 = Raise e -> S e.

(** The primitives of the libraries raise only [Exception]s: none of them
    ends the process. *)
Definition library_raises_exceptions (w : World) : Prop :=
  (forall v e, b64decode w v = Raise e -> is_Exception e = true)
  /\ (forall h key_bytes plaintext e,
        sealed_box_encrypt w h key_bytes plaintext = Raise e ->
        is_Exception e = true).

(** The request is a GET. *)
Definition is_get (rq : request) : bool :=
  match rq_verb rq with GET => true | _ => false end.

(** The pairs the accept loop does not skip. *)
Definition attempted (members : list (string * string)) : list (string * string) :=
  List.filter (fun p => (nonempty p.1 && nonempty p.2)%bool) members.

(** The request is a PUT. *)
Definition is_put (rq : request) : bool :=
  match rq_verb rq with PUT => true | _ => false end.

(** The endpoint of the secret [name]. *)
Definition secret_url (repo name : string) : string :=
  "https://api.github.com/repos/" +:+ repo +:+ "/actions/secrets/" +:+ name.

(** The events [evs] of a batch started at [hist] are, entry after entry
    and in the order of [entries], the line that names the entry, the
    events of one call of [create_or_update_secret] for that entry, which
    returns the outcome listed for it, and the line of that outcome; and
    nothing else. *)
Fixpoint each_uploaded_once (w : World) (cfg : Secrets.Config)
    (entries : list (string * string)) (hist : list event)
    (outcomes : list bool) (evs : list event) : Prop :=
  match entries, outcomes with
  | [], [] => evs = []
  | (name, value) :: rest, ok :: oks =>
      exists uevs revs,
        Secrets.create_or_update_secret w (Secrets.TARGET_REPO cfg)
          (Secrets.ADMIN_TOKEN cfg) name value
          (hist ++ [Print (MsgAdding name)]) = (Ret ok, uevs)
        /\ evs = Print (MsgAdding name) :: uevs
                 ++ Print (if ok then MsgOk else MsgFail) :: revs
        /\ each_uploaded_once w cfg rest
             (hist ++ Print (MsgAdding name) :: uevs
                   ++ [Print (if ok then MsgOk else MsgFail)])
             oks revs
  | _, _ => False
  end.

(** The requests of the upload of the secret [name]: the key fetch, alone
    or followed by one PUT to the secret. *)
Definition upload_requests (repo token name : string) (rqs : list request) : Prop :=
  rqs = [key_request repo token]
  \/ exists enc kid,
       rqs = [key_request repo token; upsert_request repo token name enc kid].

(** The requests of the accept loop body for a pair with the token [t]:
    none when the pair is skipped, and else the list fetch, alone or
    followed by one PATCH. *)
Definition member_requests (w : World) (t : string) (rqs : list request) : Prop :=
  rqs = []
  \/ rqs = [list_request (Collab.GitHubClient_init t)]
  \/ exists id,
       rqs = [list_request (Collab.GitHubClient_init t);
              accept_request w (Collab.GitHubClient_init t) id].

(** ** Scenarios *)

Module Scenarios.

Definition plain (status : Z) (body : string) (parsed : option value) : response :=
  {| status_code := status; text := body; json := parsed; headers := ∅ |}.

(** Base64 with the standard alphabet and padding, on byte strings. *)
Definition base64_alphabet : string :=
  "ABCDEFGHIJKLMNOPQRSTUVWXYZabcdefghijklmnopqrstuvwxyz0123456789+/".

Definition base64_char (n : N) : ascii :=
  match String.get (N.to_nat n) base64_alphabet with
  | Some c => c
  | None => "="%char
  end.

Fixpoint base64_index_from (i : N) (alphabet : string) (c : ascii) : option N :=
  match alphabet with
  | EmptyString => None
  | String a rest =>
      if Ascii.eqb a c then Some i else base64_index_from (i + 1) rest c
  end.

Definition base64_index (c : ascii) : option N :=
  base64_index_from 0 base64_alphabet c.

Definition byte_of (n : N) : ascii := ascii_of_N (n mod 256).

Fixpoint base64_encode (bytes : string) : string :=
  match bytes with
  | EmptyString => EmptyString
  | String a EmptyString =>
      let n := (N_of_ascii a * 65536)%N in
      String (base64_char (n / 262144))
        (String (base64_char ((n / 4096) mod 64)) "==")
  | String a (String b EmptyString) =>
      let n := (N_of_ascii a * 65536 + N_of_ascii b * 256)%N in
      String (base64_char (n / 262144))
        (String (base64_char ((n / 4096) mod 64))
           (String (base64_char ((n / 64) mod 64)) "="))
  | String a (String b (String c rest)) =>
      let n := (N_of_ascii a * 65536 + N_of_ascii b * 256 + N_of_ascii c)%N in
      String (base64_char (n / 262144))
        (String (base64_char ((n / 4096) mod 64))
           (String (base64_char ((n / 64) mod 64))
              (String (base64_char (n mod 64)) (base64_encode rest))))
  end.

(** Decodes a text made of groups of four characters of the alphabet, the
    last one padded with [=]; anything else is refused.  (Python drops the
    characters outside the alphabet before it looks at the padding; no
    scenario sends such a text.) *)
Fixpoint base64_decode (s : string) : option string :=
  match s with
  | EmptyString => Some EmptyString
  | String c1 (String c2 (String c3 (String c4 rest))) =>
      match base64_index c1, base64_index c2 with
      | Some n1, Some n2 =>
          if Ascii.eqb c4 "="
          then
            match rest with
            | EmptyString =>
                if Ascii.eqb c3 "="
                then Some (String (byte_of (n1 * 4 + n2 / 16)) EmptyString)
                else
                  match base64_index c3 with
                  | Some n3 =>
                      Some (String (byte_of (n1 * 4 + n2 / 16))
                              (String (byte_of (n2 * 16 + n3 / 4)) EmptyString))
                  | None => None
                  end
            | _ => None
            end
          else
            match base64_index c3, base64_index c4, base64_decode rest with
            | Some n3, Some n4, Some tail =>
                Some (String (byte_of (n1 * 4 + n2 / 16))
                        (String (byte_of (n2 * 16 + n3 / 4))
                           (String (byte_of (n3 * 64 + n4)) tail)))
            | _, _, _ => None
            end
      | _, _ => None
      end
  | _ => None
  end.

Fixpoint fill (n : nat) (c : ascii) : string :=
  match n with
  | O => EmptyString
  | S n' => String c (fill n' c)
  end.

Fixpoint mask (k : N) (s : string) : string :=
  match s with
  | EmptyString => EmptyString
  | String c rest => String (byte_of (N.lxor (N_of_ascii c) k)) (mask k rest)
  end.

(** A stand-in for the sealed box.  As the library does, it refuses a public
    key that is not 32 bytes long with a [ValueError], and its output is 48
    bytes longer than the plaintext (the ephemeral key and the
    authenticator) and depends on the entropy, here the length of the
    history.  The bytes themselves are not those of the real cipher. *)
Definition stand_in_seal (hist : list event) (public_key_bytes plaintext : string)
    : result string :=
  if (String.length public_key_bytes =? 32)%nat
  then
    let e := byte_of (N.of_nat (length hist)) in
    let k := match public_key_bytes with
             | String c _ => N.lxor (N_of_ascii c) (N_of_ascii e)
             | EmptyString => N_of_ascii e
             end in
    Ret (fill 32 e +:+ fill 16 (byte_of k) +:+ mask k plaintext)
  else Raise ValueError.

(** A world around a host.  Base64 is the real one on well-formed texts and
    raises on the others ([TypeError] for what is not a text); the sealed
    box is the stand-in above. *)
Definition world_of (h : list event -> request -> reply) : World :=
  {| host := h;
     repr := fun _ => "[...]";
     b64decode := fun v =>
       match v with
       | VStr s =>
           match base64_decode s with
           | Some bytes => Ret bytes
           | None => Raise ValueError
           end
       | _ => Raise TypeError
       end;
     sealed_box_encrypt := stand_in_seal;
     b64encode := base64_encode |}.

(** The public key of a repository, 32 bytes in base64. *)
Definition public_key : string :=
  "AAECAwQFBgcICQoLDA0ODxAREhMUFRYXGBkaGxwdHh8=".

(** The text the upload sends for [plaintext] when it seals it under that
    key at the history [hist]. *)
Definition sealed_text (hist : list event) (plaintext : string) : string :=
  match base64_decode public_key with
  | Some key_bytes =>
      match stand_in_seal hist key_bytes plaintext with
      | Ret sealed => base64_encode sealed
      | Raise _ => EmptyString
      end
  | None => EmptyString
  end.

(** The key object GitHub returns for a repository. *)
Definition key_data : value :=
  VDict [("key_id", VStr "568250167242549743"); ("key", VStr public_key)].

Definition key_response : response :=
  plain 200 "{...}" (Some key_data).

(** A host that serves the public key and answers every PUT with the given
    status and an empty body. *)
Definition upsert_host (status : Z) : list event -> request -> reply :=
  fun _ rq =>
    match rq_verb rq with
    | GET => Answer key_response
    | _ => Answer (plain status "" None)
    end.

(** A host whose connection drops on every PUT. *)
Definition upsert_drops_host : list event -> request -> reply :=
  fun _ rq =>
    match rq_verb rq with
    | GET => Answer key_response
    | _ => Failure
    end.

(** A host whose first request of the run times out and that serves every
    later one. *)
Definition first_times_out_host : list event -> request -> reply :=
  fun hist rq =>
    match requests hist with
    | [] => Failure
    | _ => upsert_host 204 hist rq
    end.

(** A host that rejects the first public-key fetch of the run with a 404
    and serves every later request. *)
Definition first_key_404_host : list event -> request -> reply :=
  fun hist rq =>
    match requests hist with
    | [] => Answer (plain 404 "Not Found" None)
    | _ => upsert_host 204 hist rq
    end.

Definition two_secrets : Secrets.Config :=
  {| Secrets.ADMIN_USERNAME := "octo";
     Secrets.TARGET_REPO := "octo/hapus";
     Secrets.ADMIN_TOKEN := "ghp_admin";
     Secrets.TOKENS := [("PAT1", "ghp_admin"); ("PAT2", "ghp_member")] |}.

(** A host that grants the token the given scopes on the identity call and
    rejects everything else with a 403. *)
Definition scopes_host (scopes : string) : list event -> request -> reply :=
  fun _ rq =>
    if String.eqb (rq_url rq) "https://api.github.com/user"
    then Answer {| status_code := 200; text := "{...}";
                   json := Some (VDict [("login", VStr "octo")]);
                   headers := {[ "X-OAuth-Scopes" := scopes ]} |}
    else Answer (plain 403 "Forbidden" None).

(** A host that grants both scopes on the identity call and whose
    connection is down for everything else. *)
Definition granted_then_down_host : list event -> request -> reply :=
  fun hist rq =>
    if String.eqb (rq_url rq) "https://api.github.com/user"
    then scopes_host "repo, workflow" hist rq
    else Failure.

(** A host that rejects every request with a 401. *)
Definition unauthorized_host : list event -> request -> reply :=
  fun _ _ => Answer (plain 401 "Bad credentials" None).

(** An environment with an admin and one member. *)
Definition two_accounts : gmap string string :=
  list_to_map [("ADMIN_USERNAME", "octo"); ("TARGET_REPO", "octo/hapus");
               ("PAT1", "ghp_admin"); ("USERNAME1", "octo");
               ("PAT2", "ghp_member"); ("USERNAME2", "mona")].

(** An environment in which the second account has a username and no
    token. *)
Definition second_token_missing : gmap string string :=
  list_to_map [("ADMIN_USERNAME", "octo");
               ("PAT1", "ghp_admin"); ("USERNAME1", "octo");
               ("USERNAME2", "mona");
               ("PAT3", "ghp_hubot"); ("USERNAME3", "hubot")].

(** An environment that names neither the target repository nor the
    admin. *)
Definition owner_missing : gmap string string :=
  list_to_map [("PAT1", "ghp_admin"); ("USERNAME1", "octo");
               ("PAT2", "ghp_member"); ("USERNAME2", "mona")].


(** An invitation to [repo] as the host lists it. *)
Definition invitation (id : Z) (repo : string) : value :=
  VDict [("id", VInt id);
         ("repository", VDict [("full_name", VStr repo)]);
         ("permissions", VStr "write")].

(** A host that lists two pending invitations, the second one to the
    target repository, and accepts what is PATCHed. *)
Definition invitations_host : list event -> request -> reply :=
  fun _ rq =>
    match rq_verb rq with
    | GET => Answer (plain 200 "[...]"
                       (Some (VList [invitation 41 "else/where";
                                     invitation 42 "octo/hapus"])))
    | _ => Answer (plain 204 "" None)
    end.

Definition collaborators : Collab.Config :=
  {| Collab.ADMIN_USERNAME := "octo";
     Collab.TARGET_REPO := "octo/hapus";
     Collab.TOKENS := ["ghp_admin"; "ghp_member"];
     Collab.USERS := ["octo"; "mona"] |}.

(** A host that answers the key fetch with a 200 whose body parses to the
    given value, and every PUT with a 204. *)
Definition key_data_host (parsed : option value) : list event -> request -> reply :=
  fun _ rq =>
    match rq_verb rq with
    | GET => Answer (plain 200 "{...}" parsed)
    | _ => Answer (plain 204 "" None)
    end.

(** A host that lists an invitation whose repository is null before the
    invitation to the target repository. *)
Definition null_repository_host : list event -> request -> reply :=
  fun _ rq =>
    match rq_verb rq with
    | GET => Answer (plain 200 "[...]"
                       (Some (VList [VDict [("id", VInt 7); ("repository", VNone)];
                                     invitation 42 "octo/hapus"])))
    | _ => Answer (plain 204 "" None)
    end.

(** A host whose connection is down. *)
Definition down_host : list event -> request -> reply :=
  fun _ _ => Failure.

(** A host that answers everything with [204 No Content]. *)
Definition no_content_host : list event -> request -> reply :=
  fun _ _ => Answer (plain 204 "" None).

End Scenarios.

(** ** The builtins on examples *)

Example split_scopes :
  split_comma_space "repo, workflow, read:org" = ["repo"; "workflow"; "read:org"].
Proof. reflexivity. Qed.

Example split_empty_header : split_comma_space "" = [""].
Proof. reflexivity. Qed.

Example split_needs_the_space :
  split_comma_space "repo,workflow, gist, " = ["repo,workflow"; "gist"; ""].
Proof. reflexivity. Qed.

Example str_of_numbers :
  (str_of_int 0, str_of_int 42, str_of_int (-7), str_of_nat 20)
  = ("0", "42", "-7", "20").
Proof. reflexivity. Qed.

Example base64_of_key :
  Scenarios.base64_encode "key" = "a2V5"
  /\ Scenarios.base64_decode "a2V5" = Some "key"
  /\ Scenarios.base64_encode "hapus" = "aGFwdXM="
  /\ Scenarios.base64_decode "aGFwdXM=" = Some "hapus"
  /\ Scenarios.base64_decode "a2V" = None.
Proof. repeat split; reflexivity. Qed.

Example public_key_is_32_bytes :
  option_map String.length (Scenarios.base64_decode Scenarios.public_key)
  = Some 32%nat
  /\ option_map Scenarios.base64_encode
       (Scenarios.base64_decode Scenarios.public_key)
     = Some Scenarios.public_key.
Proof. split; reflexivity. Qed.

(** The stand-in sealed box refuses a key of three bytes and seals under a
    key of 32 bytes, adding 48 bytes. *)
Example stand_in_seal_key_size :
  Scenarios.stand_in_seal [] "key" "ghp_member" = Raise ValueError
  /\ (exists sealed,
        Scenarios.stand_in_seal [] (Scenarios.fill 32 "k") "ghp_member"
        = Ret sealed
        /\ String.length sealed = (48 + String.length "ghp_member")%nat).
Proof. split; [reflexivity|]. eexists. split; reflexivity. Qed.

Example truthy_values :
  map truthy [VNone; VList []; VDict []; VStr ""; VInt 0; VList [VNone]; VInt 3]
  = [false; false; false; false; false; true; true].
Proof. reflexivity. Qed.

(** ** The monad *)

Lemma bind_Ret {A B} (m : M A) (k : A -> M B) hist a evs :
  m hist = (Ret a, evs) ->
  bind m k hist = ((k a (hist ++ evs)).1, evs ++ (k a (hist ++ evs)).2).
Proof. intros H. unfold bind. rewrite H. by destruct (k a (hist ++ evs)). Qed.

Lemma bind_Raise {A B} (m : M A) (k : A -> M B) hist e evs :
  m hist = (Raise e, evs) -> bind m k hist = (Raise e, evs).
Proof. intros H. unfold bind. by rewrite H. Qed.

Lemma bind_emit {B} (e : event) (k : unit -> M B) hist :
  bind (emit e) k hist = ((k tt (hist ++ [e])).1, e :: (k tt (hist ++ [e])).2).
Proof. by rewrite (bind_Ret _ _ _ tt [e]). Qed.

Lemma bind_print {B} (m : message) (k : unit -> M B) hist :
  bind (print m) k hist
  = ((k tt (hist ++ [Print m])).1, Print m :: (k tt (hist ++ [Print m])).2).
Proof. apply bind_emit. Qed.

Lemma bind_lift_Ret {A B} (a : A) (k : A -> M B) hist :
  bind (lift (Ret a)) k hist = k a hist.
Proof.
  rewrite (bind_Ret _ _ _ a []); [| done].
  rewrite app_nil_r. by destruct (k a hist).
Qed.

Lemma bind_ret {A B} (a : A) (k : A -> M B) hist :
  bind (ret a) k hist = k a hist.
Proof. apply bind_lift_Ret. Qed.

Lemma bind_send {B} (w : World) (rq : request) (k : response -> M B) hist :
  bind (send w rq) k hist
  = match host w hist rq with
    | Answer resp =>
        ((k resp (hist ++ [Http rq (Answer resp)])).1,
         Http rq (Answer resp) :: (k resp (hist ++ [Http rq (Answer resp)])).2)
    | Failure => (Raise RequestException, [Http rq Failure])
    end.
Proof.
  unfold bind, send. destruct (host w hist rq) as [resp|]; [|reflexivity].
  by destruct (k resp _).
Qed.

Lemma requests_app evs1 evs2 :
  requests (evs1 ++ evs2) = requests evs1 ++ requests evs2.
Proof. unfold requests. apply omap_app. Qed.

Lemma requests_Http rq rp evs : requests (Http rq rp :: evs) = rq :: requests evs.
Proof. reflexivity. Qed.

Lemma requests_Print m evs : requests (Print m :: evs) = requests evs.
Proof. reflexivity. Qed.

Lemma requests_Sleep ms evs : requests (Sleep ms :: evs) = requests evs.
Proof. reflexivity. Qed.

Lemma requests_nil : requests [] = [].
Proof. reflexivity. Qed.

Create Rewrite HintDb trace.
#[local] Hint Rewrite requests_Http requests_Print requests_Sleep requests_nil
  requests_app : trace.

(** ** The HTTP client *)

(** [call] sends exactly the request [call_request], and turns every reply
    into a value: it never raises. *)
Lemma call_eq w self endpoint method data hist :
  let rq := call_request self endpoint method data in
  let rp := host w hist rq in
  Collab.call w self endpoint method data hist
  = (Ret (call_outcome rp).1, Http rq rp :: (call_outcome rp).2).
Proof.
  cbv zeta. unfold Collab.call, call_request, Collab.session_request.
  destruct (String.eqb method "POST"); [|destruct (String.eqb method "PUT");
    [|destruct (String.eqb method "PATCH")]].
  all: unfold try_except, bind, send, call_outcome;
    match goal with |- context [host ?w0 ?h0 ?rq] =>
      destruct (host w0 h0 rq) as [resp|] end;
    [|reflexivity];
    destruct (status_in (status_code resp) [200; 201; 204]); [|reflexivity];
    destruct (nonempty (text resp)); [|reflexivity];
    unfold json_of, lift; by destruct (json resp).
Qed.

Lemma bind_call {B} w self endpoint method data (k : value -> M B) hist :
  let rq := call_request self endpoint method data in
  let rp := host w hist rq in
  let evs := Http rq rp :: (call_outcome rp).2 in
  bind (Collab.call w self endpoint method data) k hist
  = ((k (call_outcome rp).1 (hist ++ evs)).1,
     evs ++ (k (call_outcome rp).1 (hist ++ evs)).2).
Proof. intros rq rp evs. apply bind_Ret, call_eq. Qed.

Lemma call_outcome_quiet rp : requests (call_outcome rp).2 = [].
Proof. unfold call_outcome. by repeat case_match. Qed.
#[local] Hint Rewrite call_outcome_quiet : trace.

Lemma call_outcome_no_sleep rp ms : Sleep ms ∉ (call_outcome rp).2.
Proof.
  unfold call_outcome.
  repeat case_match; simpl; rewrite ?elem_of_cons, ?elem_of_nil;
    intuition discriminate.
Qed.

(** Closes a goal [e ∉ evs] for an explicit event list. *)
Ltac no_such_event :=
  repeat (rewrite not_elem_of_app || rewrite not_elem_of_cons);
  repeat split;
  try discriminate; try apply not_elem_of_nil; try apply call_outcome_no_sleep;
  try assumption.

(** ** The invite phase *)

Lemma invite_member_skip w cfg client hist :
  Collab.invite_member w cfg client "" hist = (Ret tt, []).
Proof. reflexivity. Qed.

Lemma invite_member_eq w cfg client u hist :
  nonempty u = true ->
  let rq := invite_request cfg client u in
  let rp := host w hist rq in
  Collab.invite_member w cfg client u hist
  = (Ret tt,
     Http rq rp :: (call_outcome rp).2
       ++ [Print (if is_not_None (call_outcome rp).1
                  then MsgInvitationSent u else MsgInviteFailed u);
           Sleep 800]).
Proof.
  intros Hu. unfold invite_request, Collab.invite_member. cbv zeta.
  rewrite Hu. cbn [negb]. rewrite bind_call. cbv beta zeta.
  destruct (is_not_None _); rewrite bind_print; reflexivity.
Qed.

(** The invite phase never raises, and sends one PUT per member, in order. *)
Lemma invite_phase_eq w cfg client users : forall hist,
  exists evs,
    Collab.invite_phase w cfg client users hist = (Ret tt, evs)
    /\ requests evs = map (invite_request cfg client) (List.filter nonempty users)
    /\ Sleep 5000 ∉ evs.
Proof.
  induction users as [|u rest IH]; intros hist.
  - exists []. repeat split; [set_solver].
  - simpl Collab.invite_phase. destruct (nonempty u) eqn:Hu.
    + pose proof (invite_member_eq w cfg client u hist Hu) as Hm. simpl in Hm.
      rewrite (bind_Ret _ _ _ _ _ Hm).
      match goal with |- context [Collab.invite_phase _ _ _ _ ?h] =>
        destruct (IH h) as (evs & -> & Hrq & Hsl) end.
      eexists. split; [reflexivity|]. simpl List.filter. rewrite Hu. split.
      * autorewrite with trace. simpl. by rewrite Hrq.
      * no_such_event.
    + assert (u = "") as ->.
      { unfold nonempty in Hu. apply negb_false_iff, String.eqb_eq in Hu. done. }
      rewrite (bind_Ret _ _ _ _ _ (invite_member_skip w cfg client hist)).
      rewrite app_nil_r. destruct (IH hist) as (evs & -> & Hrq & Hsl).
      exists evs. simpl. by rewrite Hrq.
Qed.

(** ** The accept phase *)

Lemma scan_invitations_skip w cfg client u invite rest hist :
  well_formed_invite invite = true ->
  names_repo (Collab.TARGET_REPO cfg) invite = false ->
  Collab.scan_invitations w cfg client u (invite :: rest) hist
  = Collab.scan_invitations w cfg client u rest hist.
Proof.
  intros Hwf Hno. cbn [Collab.scan_invitations].
  destruct invite as [| | | |?|fields]; try discriminate.
  cbn [get well_formed_invite names_repo] in *. rewrite bind_lift_Ret.
  destruct (assoc "repository" fields) as [[| | | |?|rfields]|];
    try discriminate; cbn [default from_option id get] in *;
    rewrite bind_lift_Ret.
  - by rewrite Hno.
  - reflexivity.
Qed.

Lemma scan_invitations_hit w cfg client u invite rest hist :
  names_repo (Collab.TARGET_REPO cfg) invite = true ->
  let rq := accept_request w client (invite_id invite) in
  let rp := host w hist rq in
  Collab.scan_invitations w cfg client u (invite :: rest) hist
  = (Ret (is_not_None (call_outcome rp).1),
     Http rq rp :: (call_outcome rp).2
       ++ [Print (if is_not_None (call_outcome rp).1
                  then MsgAccepted u else MsgAcceptFailed u)]).
Proof.
  intros Hyes. cbv zeta. cbn [Collab.scan_invitations].
  destruct invite as [| | | |?|fields]; try discriminate.
  cbn [get names_repo invite_id] in *. rewrite bind_lift_Ret.
  destruct (assoc "repository" fields) as [[| | | |?|rfields]|];
    try discriminate; cbn [default from_option id get] in *;
    rewrite bind_lift_Ret.
  rewrite Hyes, bind_lift_Ret, bind_call. cbv beta zeta.
  unfold accept_request.
  destruct (is_not_None _); rewrite bind_print; reflexivity.
Qed.

Lemma scan_invitations_none w cfg client u items : forall hist,
  Forall (fun invite => well_formed_invite invite = true) items ->
  Forall (fun invite => names_repo (Collab.TARGET_REPO cfg) invite = false) items ->
  Collab.scan_invitations w cfg client u items hist = (Ret false, []).
Proof.
  induction items as [|invite rest IH]; intros hist Hwf Hno; [reflexivity|].
  inversion Hwf; inversion Hno; subst.
  rewrite scan_invitations_skip by done. by apply IH.
Qed.

Lemma scan_invitations_first w cfg client u before invite after : forall hist,
  Forall (fun invite => well_formed_invite invite = true) before ->
  Forall (fun invite => names_repo (Collab.TARGET_REPO cfg) invite = false) before ->
  Collab.scan_invitations w cfg client u (before ++ invite :: after) hist
  = Collab.scan_invitations w cfg client u (invite :: after) hist.
Proof.
  induction before as [|other rest IH]; intros hist Hwf Hno; [reflexivity|].
  inversion Hwf; inversion Hno; subst. cbn [app].
  rewrite scan_invitations_skip by done. by apply IH.
Qed.

Lemma scan_invitations_malformed w cfg client u invite rest hist :
  well_formed_invite invite = false ->
  Collab.scan_invitations w cfg client u (invite :: rest) hist
  = (Raise AttributeError, []).
Proof.
  intros Hwf. cbn [Collab.scan_invitations].
  destruct invite as [| | | |?|fields]; try reflexivity.
  cbn [get well_formed_invite] in *. rewrite bind_lift_Ret.
  destruct (assoc "repository" fields) as [[| | | |?|rfields]|];
    try discriminate; reflexivity.
Qed.

(** The scan sends at most one request: the PATCH that accepts an entry of
    the list that names the target repository. *)
Lemma scan_invitations_requests w cfg client u items : forall hist,
  let evs := (Collab.scan_invitations w cfg client u items hist).2 in
  (requests evs = []
   \/ exists invite,
        invite ∈ items
        /\ names_repo (Collab.TARGET_REPO cfg) invite = true
        /\ requests evs = [accept_request w client (invite_id invite)])
  /\ (forall ms, Sleep ms ∉ evs).
Proof.
  induction items as [|invite rest IH]; intros hist; cbv zeta.
  - split; [by left | intros ms; apply not_elem_of_nil].
  - destruct (names_repo (Collab.TARGET_REPO cfg) invite) eqn:Hname.
    + rewrite scan_invitations_hit by done. cbn [snd]. split.
      * right. exists invite. split; [apply list_elem_of_here|].
        split; [done|]. autorewrite with trace. reflexivity.
      * intros ms. no_such_event.
    + destruct (well_formed_invite invite) eqn:Hwf.
      * rewrite scan_invitations_skip by done.
        destruct (IH hist) as [[Hnone | (found & Hin & Hyes & Hrq)] Hsl].
        -- split; [by left | done].
        -- split; [|done]. right. exists found.
           split; [by apply list_elem_of_further | done].
      * rewrite scan_invitations_malformed by done.
        split; [by left | intros ms; apply not_elem_of_nil].
Qed.

Lemma bind_events {A B} (m : M A) (k : A -> M B) hist :
  (bind m k hist).2
  = (m hist).2 ++ match (m hist).1 with
                  | Ret a => (k a (hist ++ (m hist).2)).2
                  | Raise _ => []
                  end.
Proof.
  unfold bind. destruct (m hist) as [[a|e] evs]; simpl.
  - by destruct (k a (hist ++ evs)).
  - by rewrite app_nil_r.
Qed.

Lemma call_request_authorization self endpoint method data :
  rq_authorization (call_request self endpoint method data)
  = Collab.authorization self.
Proof. unfold call_request. by repeat case_match. Qed.

(** Every request of the loop body for [(u, t)] is sent with the token [t]:
    the GET that lists the invitations and the PATCH that accepts one. *)
Lemma accept_member_requests w cfg u t hist :
  let evs := (Collab.accept_member w cfg u t hist).2 in
  Forall (fun rq => rq_authorization rq = "token " +:+ t
                    /\ (rq_verb rq = GET \/ rq_verb rq = PATCH))
         (requests evs)
  /\ Sleep 5000 ∉ evs.
Proof.
  cbv zeta. unfold Collab.accept_member.
  destruct (negb (nonempty u) || negb (nonempty t))%bool.
  { split; [constructor | apply not_elem_of_nil]. }
  cbv zeta. rewrite bind_call. cbv beta zeta. cbn [snd].
  set (client := Collab.GitHubClient_init t).
  set (rp := host w hist _). set (h1 := hist ++ _).
  assert (Hlist : rq_authorization (list_request client) = "token " +:+ t
                  /\ (rq_verb (list_request client) = GET
                      \/ rq_verb (list_request client) = PATCH)).
  { split; [reflexivity | by left]. }
  destruct (negb (truthy _) || negb (is_list _))%bool.
  - split.
    + autorewrite with trace. simpl. by constructor.
    + unfold print, emit. cbn [snd]. no_such_event.
  - rewrite bind_events.
    pose proof (scan_invitations_requests w cfg client u
                  (match (call_outcome rp).1 with VList items => items | _ => [] end)
                  h1) as [Hrq Hsl].
    cbv zeta in Hrq, Hsl.
    set (scan := Collab.scan_invitations _ _ _ _ _ _) in *.
    assert (Hscan : Forall (fun rq => rq_authorization rq = "token " +:+ t
                              /\ (rq_verb rq = GET \/ rq_verb rq = PATCH))
                      (requests scan.2)).
    { destruct Hrq as [-> | (invite & _ & _ & ->)]; [constructor|].
      constructor; [|constructor]. split; [reflexivity | by right]. }
    destruct scan.1 as [accepted|e].
    + destruct accepted; cbn [negb]; rewrite ?bind_ret, ?bind_print;
        unfold sleep, emit; cbn [snd]; split.
      all: try (autorewrite with trace; simpl; constructor; [done|];
                by rewrite ?app_nil_r).
      all: no_such_event; apply Hsl.
    + rewrite app_nil_r. split.
      * autorewrite with trace. simpl. by constructor.
      * no_such_event. apply Hsl.
Qed.


(** Every request of the accept phase is sent by the loop body of one of
    the pairs it iterates over. *)
Lemma accept_phase_requests w cfg members : forall hist,
  let evs := (Collab.accept_phase w cfg members hist).2 in
  (forall rq, rq ∈ requests evs ->
     exists (k : nat) u t h,
       members !! k = Some (u, t)
       /\ rq ∈ requests (Collab.accept_member w cfg u t h).2)
  /\ Sleep 5000 ∉ evs.
Proof.
  induction members as [|[u t] rest IH]; intros hist; cbv zeta.
  - split; [intros rq H; by apply elem_of_nil in H | apply not_elem_of_nil].
  - cbn [Collab.accept_phase]. rewrite bind_events.
    pose proof (accept_member_requests w cfg u t hist) as [_ Hsl0].
    cbv zeta in Hsl0. split.
    + intros rq. autorewrite with trace. rewrite elem_of_app. intros [Hin|Hin].
      * exists 0%nat, u, t, hist. by split.
      * destruct (Collab.accept_member w cfg u t hist).1; [|by apply elem_of_nil in Hin].
        destruct (IH (hist ++ (Collab.accept_member w cfg u t hist).2)) as [Hrest _].
        destruct (Hrest rq Hin) as (k & u' & t' & h & Hk & Hrq).
        exists (S k), u', t', h. by split.
    + rewrite not_elem_of_app. split; [done|].
      destruct (Collab.accept_member w cfg u t hist).1; [|apply not_elem_of_nil].
      apply IH.
Qed.

(** ** The whole bootstrap *)

(** With no token configured the run stops at [TOKENS[0]], before any
    request. *)
Lemma setup_collaborators_no_token w cfg hist :
  Collab.TOKENS cfg = [] ->
  Collab.setup_collaborators w cfg hist
  = (Raise IndexError,
     [Print (MsgCollabBanner (Collab.TARGET_REPO cfg) (length (Collab.USERS cfg)))]).
Proof.
  intros H. unfold Collab.setup_collaborators. rewrite bind_print, H. reflexivity.
Qed.

(** With a first token, the run is the invite phase in full, the settling
    wait, and then the accept phase, as far as it gets. *)
Lemma setup_collaborators_phases w cfg hist token0 :
  Collab.TOKENS cfg !! 0%nat = Some token0 ->
  let banner := Print (MsgCollabBanner (Collab.TARGET_REPO cfg)
                         (length (Collab.USERS cfg))) in
  let members := zip (slice_from_1 (Collab.USERS cfg))
                     (slice_from_1 (Collab.TOKENS cfg)) in
  exists invite_evs h tail,
    (Collab.setup_collaborators w cfg hist).2
    = [banner; Print MsgStep1] ++ invite_evs
      ++ [Print MsgWaiting; Sleep 5000; Print MsgStep2]
      ++ (Collab.accept_phase w cfg members h).2 ++ tail
    /\ Collab.invite_phase w cfg (Collab.GitHubClient_init token0)
         (slice_from_1 (Collab.USERS cfg)) (hist ++ [banner; Print MsgStep1])
       = (Ret tt, invite_evs)
    /\ (tail = [] \/ tail = [Print MsgCollabCompleted]).
Proof.
  intros H0. cbv zeta. unfold Collab.setup_collaborators.
  rewrite bind_print, H0, bind_lift_Ret, bind_print. cbn [fst snd].
  rewrite <- app_assoc. cbn [app].
  destruct (invite_phase_eq w cfg (Collab.GitHubClient_init token0)
              (slice_from_1 (Collab.USERS cfg))
              (hist ++ [Print (MsgCollabBanner (Collab.TARGET_REPO cfg)
                                 (length (Collab.USERS cfg))); Print MsgStep1]))
    as (invite_evs & Hinv & _ & _).
  rewrite (bind_Ret _ _ _ _ _ Hinv). cbn [snd].
  rewrite !bind_print. cbn [snd]. unfold sleep at 1. rewrite bind_emit. cbn [snd].
  rewrite bind_print. cbn [snd]. rewrite bind_events.
  eexists invite_evs, _, _. split; [|split; [exact Hinv|]].
  - reflexivity.
  - destruct (Collab.accept_phase _ _ _ _).1; [right | left]; reflexivity.
Qed.

Lemma invite_request_verb cfg client u : rq_verb (invite_request cfg client u) = PUT.
Proof. reflexivity. Qed.

Lemma invite_request_authorization cfg token u :
  rq_authorization (invite_request cfg (Collab.GitHubClient_init token) u)
  = "token " +:+ token.
Proof. reflexivity. Qed.

Lemma accept_phase_verbs w cfg members hist rq :
  rq ∈ requests (Collab.accept_phase w cfg members hist).2 ->
  rq_verb rq = GET \/ rq_verb rq = PATCH.
Proof.
  intros Hin.
  destruct (accept_phase_requests w cfg members hist) as [Hreq _].
  destruct (Hreq rq Hin) as (k & u & t & h & _ & Hrq).
  destruct (accept_member_requests w cfg u t h) as [Hall _].
  rewrite Forall_forall in Hall. by destruct (Hall rq Hrq).
Qed.

Lemma zip_tail_lookup {A B} (l1 : list A) (l2 : list B) (k : nat) x y :
  zip (slice_from_1 l1) (slice_from_1 l2) !! k = Some (x, y) ->
  l1 !! S k = Some x /\ l2 !! S k = Some y.
Proof.
  unfold slice_from_1. rewrite lookup_zip_with, !lookup_drop. simpl.
  destruct (l1 !! S k); simpl; [|done].
  destruct (l2 !! S k); simpl; [|done].
  by intros [= -> ->].
Qed.

(** The shape of every run of the bootstrap. *)
Lemma setup_collaborators_shape w cfg hist :
  let evs := (Collab.setup_collaborators w cfg hist).2 in
  let banner := Print (MsgCollabBanner (Collab.TARGET_REPO cfg)
                         (length (Collab.USERS cfg))) in
  let members := zip (slice_from_1 (Collab.USERS cfg))
                     (slice_from_1 (Collab.TOKENS cfg)) in
  (Collab.TOKENS cfg = [] /\ evs = [banner])
  \/ exists token0 invite_evs h tail,
       Collab.TOKENS cfg !! 0%nat = Some token0
       /\ evs = [banner; Print MsgStep1] ++ invite_evs
                ++ [Print MsgWaiting; Sleep 5000; Print MsgStep2]
                ++ (Collab.accept_phase w cfg members h).2 ++ tail
       /\ requests invite_evs
          = map (invite_request cfg (Collab.GitHubClient_init token0))
                (List.filter nonempty (slice_from_1 (Collab.USERS cfg)))
       /\ (Sleep 5000 ∉ invite_evs)
       /\ (tail = [] \/ tail = [Print MsgCollabCompleted]).
Proof.
  cbv zeta. destruct (Collab.TOKENS cfg) as [|token0 others] eqn:Htok.
  - left. split; [done|]. by rewrite setup_collaborators_no_token.
  - right.
    destruct (setup_collaborators_phases w cfg hist token0) as
      (invite_evs & h & tail & Hevs & Hinv & Htail); [by rewrite Htok|].
    cbv zeta in Hevs, Hinv. rewrite Htok in Hevs.
    destruct (invite_phase_eq w cfg (Collab.GitHubClient_init token0)
                (slice_from_1 (Collab.USERS cfg))
                (hist ++ [Print (MsgCollabBanner (Collab.TARGET_REPO cfg)
                                   (length (Collab.USERS cfg))); Print MsgStep1]))
      as (evs' & Hinv' & Hrq & Hsl).
    rewrite Hinv in Hinv'. injection Hinv' as <-.
    by exists token0, invite_evs, h, tail.
Qed.

(** C7.  In every run of the collaborator bootstrap the events are, in this
    order: the invite phase, complete (one PUT per member username), the
    fixed settling wait of five seconds, and the accept phase.  Every
    request before the wait is an invite PUT and every request after it is
    an accept-phase GET or PATCH, so that no accept-phase call precedes an
    invite-phase call.  A run with no token at all sends nothing. *)
Theorem accept_phase_follows_invite_phase w cfg hist :
  let evs := (Collab.setup_collaborators w cfg hist).2 in
  let banner := Print (MsgCollabBanner (Collab.TARGET_REPO cfg)
                         (length (Collab.USERS cfg))) in
  (Collab.TOKENS cfg = [] /\ evs = [banner])
  \/ exists token0 invite_evs accept_evs,
       Collab.TOKENS cfg !! 0%nat = Some token0
       /\ evs = [banner; Print MsgStep1] ++ invite_evs
                ++ [Print MsgWaiting; Sleep 5000; Print MsgStep2] ++ accept_evs
       /\ requests invite_evs
          = map (invite_request cfg (Collab.GitHubClient_init token0))
                (List.filter nonempty (slice_from_1 (Collab.USERS cfg)))
       /\ Forall (fun rq => rq_verb rq = PUT) (requests invite_evs)
       /\ Forall (fun rq => rq_verb rq = GET \/ rq_verb rq = PATCH)
                 (requests accept_evs)
       /\ (Sleep 5000 ∉ invite_evs)
       /\ (Sleep 5000 ∉ accept_evs).
Proof.
  cbv zeta.
  destruct (setup_collaborators_shape w cfg hist) as
    [? | (token0 & invite_evs & h & tail & Htok & Hevs & Hrq & Hsl & Htail)];
    [by left | right].
  eexists token0, invite_evs, _. split; [done|]. split; [exact Hevs|].
  split; [exact Hrq|]. split; [|split; [|split; [exact Hsl|]]].
  - rewrite Hrq. apply Forall_forall. intros rq Hin.
    apply list_elem_of_In, in_map_iff in Hin as (u & <- & _).
    apply invite_request_verb.
  - apply Forall_forall. intros rq. autorewrite with trace.
    rewrite elem_of_app. intros [Hin|Hin].
    + by apply accept_phase_verbs in Hin.
    + destruct Htail as [-> | ->]; by apply elem_of_nil in Hin.
  - rewrite not_elem_of_app. split.
    + apply accept_phase_requests.
    + destruct Htail as [-> | ->]; no_such_event.
Qed.


(** ** Claims on the HTTP client *)

(** C10.  A method string other than POST, PUT and PATCH, whatever it is,
    makes [call] send a GET to the endpoint, without the body, and the call
    goes on as any GET does: it is the same run as [call(endpoint)]. *)
Theorem call_other_method_sends_get w self endpoint method data hist :
  method <> "POST" -> method <> "PUT" -> method <> "PATCH" ->
  let rq := {| rq_verb := GET;
               rq_url := "https://api.github.com" +:+ endpoint;
               rq_authorization := Collab.authorization self;
               rq_accept := Collab.accept self;
               rq_json := None;
               rq_timeout := Some 10 |} in
  (exists v msgs,
     Collab.call w self endpoint method data hist
     = (Ret v, Http rq (host w hist rq) :: msgs)
     /\ requests msgs = [])
  /\ Collab.call w self endpoint method data hist
     = Collab.call w self endpoint "GET" None hist.
Proof.
  intros H1 H2 H3 rq.
  assert (Hrq : call_request self endpoint method data = rq).
  { unfold call_request.
    apply String.eqb_neq in H1, H2, H3. by rewrite H1, H2, H3. }
  split.
  - eexists _, _. rewrite call_eq. cbv zeta. rewrite Hrq.
    split; [reflexivity | apply call_outcome_quiet].
  - rewrite !call_eq. cbv zeta. by rewrite Hrq.
Qed.

Lemma call_other_method_sends_get_witness :
  Collab.call (Scenarios.world_of Scenarios.no_content_host)
    (Collab.GitHubClient_init "ghp_admin") "/user" "DELETE"
    (Some (VInt 1)) []
  = Collab.call (Scenarios.world_of Scenarios.no_content_host)
      (Collab.GitHubClient_init "ghp_admin") "/user" "GET" None [].
Proof.
  apply (call_other_method_sends_get
           (Scenarios.world_of Scenarios.no_content_host)
           (Collab.GitHubClient_init "ghp_admin") "/user" "DELETE"
           (Some (VInt 1)) []); discriminate.
Defined.

(** ** The secret upload *)

Lemma get_public_key_eq w repo token hist :
  Secrets.get_public_key w repo token hist
  = let rq := key_request repo token in
    match host w hist rq with
    | Failure => (Raise RequestException, [Http rq Failure])
    | Answer resp =>
        if status_code resp =? 200
        then (match json resp with
              | Some v => Ret v
              | None => Raise JSONDecodeError
              end, [Http rq (Answer resp)])
        else (Ret VNone, [Http rq (Answer resp);
                          Print (MsgKeyFetchFailed (status_code resp));
                          Print (MsgResponse (text resp))])
    end.
Proof.
  unfold Secrets.get_public_key, key_request, bind, send, json_of, lift, ret,
    print, emit.
  cbv zeta. destruct (host w hist _) as [resp|]; [|reflexivity].
  destruct (status_code resp =? 200); [|reflexivity].
  by destruct (json resp).
Qed.

(** A key fetch answered with a status other than 200 fails the entry,
    without an exception and without any further request. *)
Lemma create_or_update_secret_key_rejected w repo token name value hist resp :
  host w hist (key_request repo token) = Answer resp ->
  status_code resp <> 200 ->
  Secrets.create_or_update_secret w repo token name value hist
  = (Ret false, [Http (key_request repo token) (Answer resp);
                 Print (MsgKeyFetchFailed (status_code resp));
                 Print (MsgResponse (text resp))]).
Proof.
  intros Hh Hs. unfold Secrets.create_or_update_secret.
  pose proof (get_public_key_eq w repo token hist) as Hk. cbv zeta in Hk.
  rewrite Hh in Hk. apply Z.eqb_neq in Hs. rewrite Hs in Hk.
  rewrite (bind_Ret _ _ _ _ _ Hk). cbn [truthy negb]. cbv [ret]. cbn [fst snd].
  by rewrite app_nil_r.
Qed.

(** A transport failure of the key fetch leaves the function as an
    exception. *)
Lemma create_or_update_secret_key_dropped w repo token name value hist :
  host w hist (key_request repo token) = Failure ->
  Secrets.create_or_update_secret w repo token name value hist
  = (Raise RequestException, [Http (key_request repo token) Failure]).
Proof.
  intros Hh. unfold Secrets.create_or_update_secret.
  pose proof (get_public_key_eq w repo token hist) as Hk. cbv zeta in Hk.
  rewrite Hh in Hk. by rewrite (bind_Raise _ _ _ _ _ Hk).
Qed.

(** The upload proper: with a usable key, the entry is the key fetch, the
    encryption and the PUT, whose reply decides. *)
Lemma create_or_update_secret_upsert w repo token name value hist
    kresp kd key kid enc :
  host w hist (key_request repo token) = Answer kresp ->
  status_code kresp = 200 ->
  json kresp = Some kd ->
  truthy kd = true ->
  subscript kd "key" = Ret key ->
  subscript kd "key_id" = Ret kid ->
  Secrets.encrypt_secret w key value
    (hist ++ [Http (key_request repo token) (Answer kresp)]) = (Ret enc, []) ->
  let h1 := hist ++ [Http (key_request repo token) (Answer kresp)] in
  let rq := upsert_request repo token name enc kid in
  Secrets.create_or_update_secret w repo token name value hist
  = match host w h1 rq with
    | Answer presp =>
        (Ret (status_in (status_code presp) [201; 204]),
         [Http (key_request repo token) (Answer kresp); Http rq (Answer presp)])
    | Failure =>
        (Raise RequestException,
         [Http (key_request repo token) (Answer kresp); Http rq Failure])
    end.
Proof.
  intros Hh Hs Hj Ht Hkey Hkid Henc h1 rq. unfold Secrets.create_or_update_secret.
  pose proof (get_public_key_eq w repo token hist) as Hk. cbv zeta in Hk.
  rewrite Hh, Hs, Hj in Hk. cbn [Z.eqb Pos.eqb] in Hk.
  rewrite (bind_Ret _ _ _ _ _ Hk). rewrite Ht. cbn [negb].
  rewrite Hkey, bind_lift_Ret. fold h1.
  rewrite (bind_Ret _ _ _ _ _ Henc). rewrite Hkid, bind_lift_Ret.
  rewrite app_nil_r. fold h1. cbn [fst snd app].
  unfold bind, send. fold (upsert_request repo token name enc kid). fold rq.
  by destruct (host w h1 rq).
Qed.

(** ** Claims on success and failure of one operation *)

(** C4, as the code has it.  [GitHubClient.call] takes the statuses 200,
    201 and 204 as success: on such a status it returns the parsed body,
    the empty mapping when the body is empty, and [None] when the body does
    not parse; on any other status it returns [None].  The functions of
    [auto_secrets.py] have their own tests: the public-key fetch succeeds on
    status 200 only, where it returns the parsed body and raises when the
    body does not parse, and on any other status it returns [None] without
    parsing the body; the secret upsert PUT reports success, as a boolean,
    on status 201 or 204 only. *)
Theorem success_statuses_per_operation :
  (forall w self endpoint method data hist resp,
     host w hist (call_request self endpoint method data) = Answer resp ->
     (Collab.call w self endpoint method data hist).1
     = Ret (if status_in (status_code resp) [200; 201; 204]
            then if nonempty (text resp)
                 then default VNone (json resp)
                 else VDict []
            else VNone))
  /\ (forall w repo token hist resp,
        host w hist (key_request repo token) = Answer resp ->
        (Secrets.get_public_key w repo token hist).1
        = if status_code resp =? 200
          then match json resp with
               | Some parsed => Ret parsed
               | None => Raise JSONDecodeError
               end
          else Ret VNone)
  /\ (forall w repo token name value hist kresp kd key kid enc presp,
        host w hist (key_request repo token) = Answer kresp ->
        status_code kresp = 200 ->
        json kresp = Some kd ->
        truthy kd = true ->
        subscript kd "key" = Ret key ->
        subscript kd "key_id" = Ret kid ->
        Secrets.encrypt_secret w key value
          (hist ++ [Http (key_request repo token) (Answer kresp)])
        = (Ret enc, []) ->
        host w (hist ++ [Http (key_request repo token) (Answer kresp)])
          (upsert_request repo token name enc kid) = Answer presp ->
        (Secrets.create_or_update_secret w repo token name value hist).1
        = Ret (status_in (status_code presp) [201; 204])).
Proof.
  split; [|split].
  - intros w self endpoint method data hist resp Hh.
    rewrite call_eq. cbv zeta. rewrite Hh. unfold call_outcome.
    by repeat case_match.
  - intros w repo token hist resp Hh.
    rewrite get_public_key_eq. cbv zeta. rewrite Hh.
    by destruct (status_code resp =? 200).
  - intros w repo token name value hist kresp kd key kid enc presp
      Hh Hs Hj Ht Hkey Hkid Henc Hp.
    rewrite (create_or_update_secret_upsert w repo token name value hist
               kresp kd key kid enc Hh Hs Hj Ht Hkey Hkid Henc).
    cbv zeta. by rewrite Hp.
Qed.

Lemma success_statuses_per_operation_witness :
  (Collab.call (Scenarios.world_of Scenarios.no_content_host)
     (Collab.GitHubClient_init "ghp_admin")
     "/repos/octo/hapus/collaborators/mona" "PUT"
     (Some (VDict [("permission", VStr "push")])) []).1
  = Ret (VDict [])
  /\ (Secrets.get_public_key
        (Scenarios.world_of Scenarios.first_key_404_host)
        "octo/hapus" "ghp_admin" []).1
     = Ret VNone
  /\ (Secrets.create_or_update_secret
        (Scenarios.world_of (Scenarios.upsert_host 201))
        "octo/hapus" "ghp_admin" "PAT2" "ghp_member" []).1
     = Ret true.
Proof.
  destruct success_statuses_per_operation as (Hcall & Hkey & Hput).
  split; [|split].
  - exact (Hcall (Scenarios.world_of Scenarios.no_content_host)
             (Collab.GitHubClient_init "ghp_admin")
             "/repos/octo/hapus/collaborators/mona" "PUT"
             (Some (VDict [("permission", VStr "push")])) []
             (Scenarios.plain 204 "" None) eq_refl).
  - exact (Hkey (Scenarios.world_of Scenarios.first_key_404_host)
             "octo/hapus" "ghp_admin" []
             (Scenarios.plain 404 "Not Found" None) eq_refl).
  - refine (Hput (Scenarios.world_of (Scenarios.upsert_host 201))
              "octo/hapus" "ghp_admin" "PAT2" "ghp_member" []
              Scenarios.key_response Scenarios.key_data
              (VStr Scenarios.public_key) (VStr "568250167242549743") _
              (Scenarios.plain 201 "" None)
              eq_refl eq_refl eq_refl eq_refl eq_refl eq_refl _ _);
      reflexivity.
Defined.

(** C4 fails for the secret upsert: with a 32-byte public key served and
    the secret sealed, a PUT answered with status 200, one of 200, 201 and
    204, is reported as a failure. *)
Lemma upsert_answered_200_is_reported_failed :
  exists evs rq resp,
    Secrets.create_or_update_secret
      (Scenarios.world_of (Scenarios.upsert_host 200))
      "octo/hapus" "ghp_admin" "PAT2" "ghp_member" []
    = (Ret false, evs)
    /\ map rq_verb (requests evs) = [GET; PUT]
    /\ last evs = Some (Http rq (Answer resp))
    /\ rq_verb rq = PUT
    /\ status_in (status_code resp) [200; 201; 204] = true.
Proof. eexists _, _, _. repeat split; reflexivity. Qed.

(** ** The provisioning loop *)

Lemma entry_reports_app evs1 evs2 :
  entry_reports (evs1 ++ evs2) = entry_reports evs1 ++ entry_reports evs2.
Proof. unfold entry_reports. apply omap_app. Qed.

(** The upload of one entry prints none of the lines of the loop. *)
Lemma create_or_update_secret_reports w repo token name value hist :
  entry_reports (Secrets.create_or_update_secret w repo token name value hist).2 = [].
Proof.
  unfold Secrets.create_or_update_secret. rewrite bind_events.
  rewrite get_public_key_eq. cbv zeta.
  destruct (host w hist _) as [resp|]; [|reflexivity].
  destruct (status_code resp =? 200); cbn [fst snd]; [|reflexivity].
  destruct (json resp) as [kd|]; [|reflexivity].
  destruct (negb (truthy kd)); [reflexivity|].
  unfold bind, lift, send, ret, Secrets.encrypt_secret.
  repeat case_match; simplify_eq/=; reflexivity.
Qed.

(** The requests of one upload: the key fetch, and the PUT when it gets
    that far. *)
Lemma create_or_update_secret_requests w repo token name value hist :
  let evs := (Secrets.create_or_update_secret w repo token name value hist).2 in
  requests evs = [key_request repo token]
  \/ exists enc kid,
       requests evs = [key_request repo token;
                       upsert_request repo token name enc kid].
Proof.
  cbv zeta. unfold Secrets.create_or_update_secret. rewrite bind_events.
  rewrite get_public_key_eq. cbv zeta.
  destruct (host w hist _) as [resp|]; [|by left].
  destruct (status_code resp =? 200); cbn [fst snd]; [|by left].
  destruct (json resp) as [kd|]; [|by left].
  destruct (negb (truthy kd)); [by left|].
  destruct (subscript kd "key") as [key|e]; [|by left].
  rewrite bind_lift_Ret.
  match goal with |- context [bind (Secrets.encrypt_secret w key value) _ ?h] =>
    destruct (Secrets.encrypt_secret w key value h) as [[enc|e] eevs] eqn:Henc
  end.
  - assert (eevs = []) as ->.
    { unfold Secrets.encrypt_secret in Henc. repeat case_match; by simplify_eq. }
    rewrite (bind_Ret _ _ _ _ _ Henc). cbn [fst snd app].
    destruct (subscript kd "key_id") as [kid|e]; [|by left].
    rewrite bind_lift_Ret, bind_send.
    fold (upsert_request repo token name enc kid).
    right. exists enc, kid. by destruct (host w _ _).
  - assert (eevs = []) as ->.
    { unfold Secrets.encrypt_secret in Henc. repeat case_match; by simplify_eq. }
    rewrite (bind_Raise _ _ _ _ _ Henc). by left.
Qed.

(** An entry whose upload raises ends the loop: the entries after it are
    not attempted. *)
Lemma provision_raise w cfg name value rest n failed hist e evs :
  Secrets.create_or_update_secret w (Secrets.TARGET_REPO cfg)
    (Secrets.ADMIN_TOKEN cfg) name value (hist ++ [Print (MsgAdding name)])
  = (Raise e, evs) ->
  Secrets.setup_secrets_loop w cfg ((name, value) :: rest) n failed hist
  = (Raise e, Print (MsgAdding name) :: evs).
Proof.
  intros H. cbn [Secrets.setup_secrets_loop]. rewrite bind_print.
  by rewrite (bind_Raise _ _ _ _ _ H).
Qed.

(** An entry whose upload returns is reported, counted, and followed by the
    rest of the batch. *)
Lemma provision_step w cfg name value rest n failed hist ok evs :
  Secrets.create_or_update_secret w (Secrets.TARGET_REPO cfg)
    (Secrets.ADMIN_TOKEN cfg) name value (hist ++ [Print (MsgAdding name)])
  = (Ret ok, evs) ->
  let report := Print (if ok then MsgOk else MsgFail) in
  let h := hist ++ Print (MsgAdding name) :: evs ++ [report] in
  let next := Secrets.setup_secrets_loop w cfg rest
                (if ok then n + 1 else n)
                (if ok then failed else failed ++ [name]) h in
  Secrets.setup_secrets_loop w cfg ((name, value) :: rest) n failed hist
  = (next.1, Print (MsgAdding name) :: evs ++ report :: next.2).
Proof.
  intros H. cbv zeta. cbn [Secrets.setup_secrets_loop]. rewrite bind_print.
  rewrite (bind_Ret _ _ _ _ _ H). cbn [fst snd].
  destruct ok; rewrite bind_print; cbn [fst snd];
    rewrite <- !app_assoc; reflexivity.
Qed.

(** The loop over a batch, when it returns. *)
Lemma provision_returns w cfg entries : forall n failed hist n' failed',
  (Secrets.setup_secrets_loop w cfg entries n failed hist).1 = Ret (n', failed') ->
  exists outcomes,
    length outcomes = length entries
    /\ each_uploaded_once w cfg entries hist outcomes
         (Secrets.setup_secrets_loop w cfg entries n failed hist).2
    /\ n' = n + Z.of_nat (length (List.filter id outcomes))
    /\ failed' = failed ++ map fst (List.filter (fun p => negb p.2)
                                      (zip (map fst entries) outcomes)).
Proof.
  induction entries as [|[name value] rest IH]; intros n failed hist n' failed' Hrun.
  - cbn in Hrun. injection Hrun as <- <-. exists []. cbn.
    rewrite Z.add_0_r, app_nil_r. by repeat split.
  - destruct (Secrets.create_or_update_secret w (Secrets.TARGET_REPO cfg)
                (Secrets.ADMIN_TOKEN cfg) name value
                (hist ++ [Print (MsgAdding name)])) as [[ok|e] uevs] eqn:Hup.
    + rewrite (provision_step _ _ _ _ _ _ _ _ _ _ Hup) in Hrun |- *.
      cbv zeta in Hrun |- *. cbn [fst snd] in Hrun |- *.
      apply IH in Hrun as (outcomes & Hlen & Honce & -> & ->).
      exists (ok :: outcomes). split; [cbn; by rewrite Hlen|].
      split; [|split].
      * cbn [each_uploaded_once]. eexists _, _. split; [exact Hup|].
        split; [reflexivity|]. exact Honce.
      * destruct ok; cbn [List.filter id length]; lia.
      * destruct ok; cbn [map fst zip zip_with List.filter negb snd];
          [done|]. by rewrite <- app_assoc.
    + by rewrite (provision_raise _ _ _ _ _ _ _ _ _ _ Hup) in Hrun.
Qed.

(** What a batch whose every entry was uploaded once has printed. *)
Lemma each_uploaded_once_reports w cfg entries : forall hist outcomes evs,
  each_uploaded_once w cfg entries hist outcomes evs ->
  entry_reports evs
  = flat_map (fun p : string * bool =>
                [MsgAdding p.1; if p.2 then MsgOk else MsgFail])
      (zip (map fst entries) outcomes).
Proof.
  induction entries as [|[name value] rest IH]; intros hist [|ok oks] evs H;
    cbn [each_uploaded_once] in H; try done.
  - by subst evs.
  - destruct H as (uevs & revs & Hup & -> & Hrest).
    change (Print (MsgAdding name) :: uevs ++ ?x :: revs)
      with ([Print (MsgAdding name)] ++ uevs ++ [x] ++ revs).
    rewrite !entry_reports_app.
    pose proof (create_or_update_secret_reports w (Secrets.TARGET_REPO cfg)
                  (Secrets.ADMIN_TOKEN cfg) name value
                  (hist ++ [Print (MsgAdding name)])) as Hq.
    rewrite Hup in Hq. cbn [snd] in Hq. rewrite Hq, (IH _ _ _ Hrest).
    by destruct ok.
Qed.

(** And what it has sent. *)
Lemma each_uploaded_once_requests w cfg entries : forall hist outcomes evs,
  each_uploaded_once w cfg entries hist outcomes evs ->
  exists per_entry,
    requests evs = concat per_entry
    /\ Forall2 (fun (entry : string * string) rqs =>
                  upload_requests (Secrets.TARGET_REPO cfg)
                    (Secrets.ADMIN_TOKEN cfg) entry.1 rqs)
         entries per_entry.
Proof.
  induction entries as [|[name value] rest IH]; intros hist [|ok oks] evs H;
    cbn [each_uploaded_once] in H; try done.
  - subst evs. by exists [].
  - destruct H as (uevs & revs & Hup & -> & Hrest).
    destruct (IH _ _ _ Hrest) as (per_entry & Hreq & Hall).
    exists (requests uevs :: per_entry). split.
    + change (Print (MsgAdding name) :: uevs ++ ?x :: revs)
        with ([Print (MsgAdding name)] ++ uevs ++ [x] ++ revs).
      rewrite !requests_app, Hreq. by destruct ok.
    + constructor; [|exact Hall].
      pose proof (create_or_update_secret_requests w (Secrets.TARGET_REPO cfg)
                    (Secrets.ADMIN_TOKEN cfg) name value
                    (hist ++ [Print (MsgAdding name)])) as Hq.
      cbv zeta in Hq. rewrite Hup in Hq. exact Hq.
Qed.

(** ** Claims on the secret provisioning batch *)

(** C5, as the code has it.  An entry whose public-key fetch is answered
    with a status other than 200 is failed without an exception.  And when
    no exception is raised while an entry is uploaded, so that the loop
    returns, it has attempted every entry of the mapping exactly once and in
    order: for each entry the line that names it, one upload of that entry,
    which sends one key fetch and at most one PUT to the secret of that
    name, and the line of its outcome, each outcome being the result of
    that entry's upload alone; it counts the successes and lists the failed
    names. *)
Theorem provision_attempts_every_entry w cfg :
  (forall name value h resp,
     host w h (key_request (Secrets.TARGET_REPO cfg) (Secrets.ADMIN_TOKEN cfg))
     = Answer resp ->
     status_code resp <> 200 ->
     (Secrets.create_or_update_secret w (Secrets.TARGET_REPO cfg)
        (Secrets.ADMIN_TOKEN cfg) name value h).1 = Ret false)
  /\ (forall hist count failed,
        (Secrets.setup_secrets_loop w cfg (Secrets.TOKENS cfg) 0 [] hist).1
        = Ret (count, failed) ->
        let evs :=
          (Secrets.setup_secrets_loop w cfg (Secrets.TOKENS cfg) 0 [] hist).2 in
        exists outcomes per_entry,
          length outcomes = length (Secrets.TOKENS cfg)
          /\ each_uploaded_once w cfg (Secrets.TOKENS cfg) hist outcomes evs
          /\ count = Z.of_nat (length (List.filter id outcomes))
          /\ failed = map fst (List.filter (fun p => negb p.2)
                                 (zip (map fst (Secrets.TOKENS cfg)) outcomes))
          /\ entry_reports evs
             = flat_map (fun p : string * bool =>
                           [MsgAdding p.1; if p.2 then MsgOk else MsgFail])
                 (zip (map fst (Secrets.TOKENS cfg)) outcomes)
          /\ requests evs = concat per_entry
          /\ Forall2 (fun (entry : string * string) rqs =>
                        upload_requests (Secrets.TARGET_REPO cfg)
                          (Secrets.ADMIN_TOKEN cfg) entry.1 rqs)
               (Secrets.TOKENS cfg) per_entry).
Proof.
  split.
  - intros name value h resp Hh Hs.
    by rewrite (create_or_update_secret_key_rejected _ _ _ _ _ _ _ Hh Hs).
  - intros hist count failed Hrun evs.
    destruct (provision_returns _ _ _ _ _ _ _ _ Hrun)
      as (outcomes & Hlen & Honce & Hcount & Hfailed).
    destruct (each_uploaded_once_requests _ _ _ _ _ _ Honce)
      as (per_entry & Hreq & Hall).
    exists outcomes, per_entry.
    split; [exact Hlen|]. split; [exact Honce|].
    split; [by rewrite Hcount, Z.add_0_l|]. split; [exact Hfailed|].
    split; [exact (each_uploaded_once_reports _ _ _ _ _ _ Honce)|].
    split; [exact Hreq | exact Hall].
Qed.

Lemma provision_attempts_every_entry_witness :
  let w := Scenarios.world_of Scenarios.first_key_404_host in
  let cfg := Scenarios.two_secrets in
  let evs := (Secrets.setup_secrets_loop w cfg (Secrets.TOKENS cfg) 0 [] []).2 in
  (Secrets.create_or_update_secret w "octo/hapus" "ghp_admin"
     "PAT1" "ghp_admin" []).1 = Ret false
  /\ (Secrets.setup_secrets_loop w cfg (Secrets.TOKENS cfg) 0 [] []).1
     = Ret (1, ["PAT1"])
  /\ exists outcomes per_entry,
       length outcomes = length (Secrets.TOKENS cfg)
       /\ each_uploaded_once w cfg (Secrets.TOKENS cfg) [] outcomes evs
       /\ 1 = Z.of_nat (length (List.filter id outcomes))
       /\ ["PAT1"] = map fst (List.filter (fun p => negb p.2)
                                (zip (map fst (Secrets.TOKENS cfg)) outcomes))
       /\ entry_reports evs
          = flat_map (fun p : string * bool =>
                        [MsgAdding p.1; if p.2 then MsgOk else MsgFail])
              (zip (map fst (Secrets.TOKENS cfg)) outcomes)
       /\ requests evs = concat per_entry
       /\ Forall2 (fun (entry : string * string) rqs =>
                     upload_requests (Secrets.TARGET_REPO cfg)
                       (Secrets.ADMIN_TOKEN cfg) entry.1 rqs)
            (Secrets.TOKENS cfg) per_entry.
Proof.
  intros w cfg evs.
  destruct (provision_attempts_every_entry w cfg) as [Hrej Hall].
  split; [|split].
  - apply (Hrej "PAT1" "ghp_admin" [] (Scenarios.plain 404 "Not Found" None));
      [reflexivity | discriminate].
  - reflexivity.
  - exact (Hall [] 1 ["PAT1"] eq_refl).
Defined.

(** The batch of the witness, run: [PAT1] is failed by its rejected key
    fetch, and [PAT2] is still uploaded. *)
Example provision_first_key_404 :
  exists evs,
    Secrets.setup_secrets_loop (Scenarios.world_of Scenarios.first_key_404_host)
      Scenarios.two_secrets (Secrets.TOKENS Scenarios.two_secrets) 0 [] []
    = (Ret (1, ["PAT1"]), evs)
    /\ entry_reports evs = [MsgAdding "PAT1"; MsgFail; MsgAdding "PAT2"; MsgOk]
    /\ map rq_verb (requests evs) = [GET; GET; PUT].
Proof. eexists. repeat split; reflexivity. Qed.

(** C5 fails when an upload raises: the first key fetch of the batch times
    out, the exception leaves the loop, and [PAT2] is never attempted, on a
    host that would have served it. *)
Lemma provision_stops_at_first_exception :
  exists evs,
    Secrets.setup_secrets_loop (Scenarios.world_of Scenarios.first_times_out_host)
      Scenarios.two_secrets (Secrets.TOKENS Scenarios.two_secrets) 0 [] []
    = (Raise RequestException, evs)
    /\ entry_reports evs = [MsgAdding "PAT1"]
    /\ Print (MsgAdding "PAT2") ∉ evs.
Proof.
  eexists. split; [reflexivity|]. split; [reflexivity|]. no_such_event.
Qed.

(** An exception that leaves the loop leaves [setup_secrets]. *)
Lemma setup_secrets_raise w cfg hist e evs :
  Secrets.setup_secrets_loop w cfg (Secrets.TOKENS cfg) 0 []
    (hist ++ [Print (MsgSecretsBanner (Secrets.TARGET_REPO cfg)
                       (length (Secrets.TOKENS cfg)))])
  = (Raise e, evs) ->
  Secrets.setup_secrets w cfg hist
  = (Raise e,
     Print (MsgSecretsBanner (Secrets.TARGET_REPO cfg)
              (length (Secrets.TOKENS cfg))) :: evs).
Proof.
  intros H. unfold Secrets.setup_secrets. rewrite bind_print.
  by rewrite (bind_Raise _ _ _ _ _ H).
Qed.

(** After a passed preflight, an [Exception] that leaves [setup_secrets] is
    caught and printed by the handler of the [__main__] block. *)
Lemma run_catches w cfg hist cevs e sevs :
  Secrets.check_permissions w cfg hist = (Ret true, cevs) ->
  Secrets.setup_secrets w cfg (hist ++ cevs) = (Raise e, sevs) ->
  is_Exception e = true ->
  Secrets.run w cfg hist = (Ret tt, cevs ++ sevs ++ [Print (MsgError e)]).
Proof.
  intros Hc Hs He. unfold Secrets.run, try_except.
  rewrite (bind_Ret _ _ _ _ _ Hc). cbn [negb]. rewrite bind_ret, Hs.
  cbn [fst snd]. rewrite He. unfold print, emit. by rewrite <- app_assoc.
Qed.

(** ** Claims on transport failures *)

(** C3, as the code has it.  [GitHubClient.call] never raises: a transport
    failure of its request is caught, printed, and turned into [None].  The
    requests of [auto_secrets.py] are not guarded: a transport failure of
    the public-key fetch or of the upsert PUT leaves
    [create_or_update_secret] as an exception, and an exception raised by an
    entry ends the loop of [setup_secrets] without attempting the entries
    after it; the handler around the [__main__] block is the one that
    catches it. *)
Theorem transport_failure_handling :
  (forall w self endpoint method data hist,
     exists v evs, Collab.call w self endpoint method data hist = (Ret v, evs))
  /\ (forall w self endpoint method data hist,
        host w hist (call_request self endpoint method data) = Failure ->
        Collab.call w self endpoint method data hist
        = (Ret VNone,
           [Http (call_request self endpoint method data) Failure;
            Print (MsgClientError RequestException)]))
  /\ (forall w repo token name value hist,
        host w hist (key_request repo token) = Failure ->
        Secrets.create_or_update_secret w repo token name value hist
        = (Raise RequestException, [Http (key_request repo token) Failure]))
  /\ (forall w repo token name value hist kresp kd key kid enc,
        host w hist (key_request repo token) = Answer kresp ->
        status_code kresp = 200 ->
        json kresp = Some kd ->
        truthy kd = true ->
        subscript kd "key" = Ret key ->
        subscript kd "key_id" = Ret kid ->
        Secrets.encrypt_secret w key value
          (hist ++ [Http (key_request repo token) (Answer kresp)])
        = (Ret enc, []) ->
        host w (hist ++ [Http (key_request repo token) (Answer kresp)])
          (upsert_request repo token name enc kid) = Failure ->
        (Secrets.create_or_update_secret w repo token name value hist).1
        = Raise RequestException)
  /\ (forall w cfg name value rest n failed hist e evs,
        Secrets.create_or_update_secret w (Secrets.TARGET_REPO cfg)
          (Secrets.ADMIN_TOKEN cfg) name value
          (hist ++ [Print (MsgAdding name)])
        = (Raise e, evs) ->
        Secrets.setup_secrets_loop w cfg ((name, value) :: rest) n failed hist
        = (Raise e, Print (MsgAdding name) :: evs))
  /\ (forall w cfg hist cevs e sevs,
        Secrets.check_permissions w cfg hist = (Ret true, cevs) ->
        Secrets.setup_secrets w cfg (hist ++ cevs) = (Raise e, sevs) ->
        is_Exception e = true ->
        Secrets.run w cfg hist = (Ret tt, cevs ++ sevs ++ [Print (MsgError e)])).
Proof.
  split; [|split; [|split; [|split; [|split]]]]; [| | | | |apply run_catches].
  - intros. eexists _, _. apply call_eq.
  - intros w self endpoint method data hist Hh.
    rewrite call_eq. cbv zeta. by rewrite Hh.
  - intros. by apply create_or_update_secret_key_dropped.
  - intros w repo token name value hist kresp kd key kid enc
      Hh Hs Hj Ht Hkey Hkid Henc Hp.
    rewrite (create_or_update_secret_upsert w repo token name value hist
               kresp kd key kid enc Hh Hs Hj Ht Hkey Hkid Henc).
    cbv zeta. by rewrite Hp.
  - intros. by apply provision_raise.
Qed.

Lemma transport_failure_handling_witness :
  Collab.call (Scenarios.world_of Scenarios.upsert_drops_host)
    (Collab.GitHubClient_init "ghp_admin")
    "/repos/octo/hapus/collaborators/mona" "PUT"
    (Some (VDict [("permission", VStr "push")])) []
  = (Ret VNone,
     [Http (call_request (Collab.GitHubClient_init "ghp_admin")
              "/repos/octo/hapus/collaborators/mona" "PUT"
              (Some (VDict [("permission", VStr "push")]))) Failure;
      Print (MsgClientError RequestException)])
  /\ Secrets.create_or_update_secret
       (Scenarios.world_of Scenarios.first_times_out_host)
       "octo/hapus" "ghp_admin" "PAT1" "ghp_admin" []
     = (Raise RequestException,
        [Http (key_request "octo/hapus" "ghp_admin") Failure])
  /\ (Secrets.create_or_update_secret
        (Scenarios.world_of Scenarios.upsert_drops_host)
        "octo/hapus" "ghp_admin" "PAT1" "ghp_admin" []).1
     = Raise RequestException
  /\ Secrets.setup_secrets_loop (Scenarios.world_of Scenarios.first_times_out_host)
       Scenarios.two_secrets
       [("PAT1", "ghp_admin"); ("PAT2", "ghp_member")] 0 [] []
     = (Raise RequestException,
        [Print (MsgAdding "PAT1");
         Http (key_request "octo/hapus" "ghp_admin") Failure])
  /\ exists evs,
       Secrets.run (Scenarios.world_of Scenarios.granted_then_down_host)
         Scenarios.two_secrets []
       = (Ret tt, evs ++ [Print (MsgError RequestException)])
       /\ entry_reports evs = [MsgAdding "PAT1"].
Proof.
  destruct transport_failure_handling
    as (_ & Hcall & Hkey & Hput & Hloop & Hrun).
  split; [|split; [|split; [|split]]].
  - apply Hcall. reflexivity.
  - apply Hkey. reflexivity.
  - refine (Hput (Scenarios.world_of Scenarios.upsert_drops_host)
              "octo/hapus" "ghp_admin" "PAT1" "ghp_admin" []
              Scenarios.key_response Scenarios.key_data
              (VStr Scenarios.public_key) (VStr "568250167242549743") _
              eq_refl eq_refl eq_refl eq_refl eq_refl eq_refl _ _);
      reflexivity.
  - apply (Hloop (Scenarios.world_of Scenarios.first_times_out_host)
             Scenarios.two_secrets "PAT1" "ghp_admin"
             [("PAT2", "ghp_member")] 0 [] [] RequestException).
    reflexivity.
  - eexists. split.
    + rewrite (Hrun (Scenarios.world_of Scenarios.granted_then_down_host)
                 Scenarios.two_secrets [] _ RequestException _
                 eq_refl eq_refl eq_refl).
      rewrite app_assoc. reflexivity.
    + reflexivity.
Defined.

(** C3 fails for the secret provisioning: the host serves a 32-byte public
    key, the secret is sealed, and the connection drops during the upsert
    PUT of [PAT1]; the exception reaches [setup_secrets] and leaves it, and
    [PAT2] is not attempted. *)
Lemma upsert_transport_failure_aborts_batch :
  exists evs rq,
    Secrets.setup_secrets (Scenarios.world_of Scenarios.upsert_drops_host)
      Scenarios.two_secrets []
    = (Raise RequestException, evs)
    /\ map rq_verb (requests evs) = [GET; PUT]
    /\ last evs = Some (Http rq Failure)
    /\ rq_url rq = secret_url "octo/hapus" "PAT1"
    /\ entry_reports evs = [MsgAdding "PAT1"]
    /\ Print (MsgAdding "PAT2") ∉ evs.
Proof.
  eexists _, _. split; [reflexivity|]. split; [reflexivity|].
  split; [reflexivity|]. split; [reflexivity|]. split; [reflexivity|].
  no_such_event.
Qed.

Example load_two_accounts :
  Collab.load Scenarios.two_accounts
  = {| Collab.ADMIN_USERNAME := "octo"; Collab.TARGET_REPO := "octo/hapus";
       Collab.TOKENS := ["ghp_admin"; "ghp_member"];
       Collab.USERS := ["octo"; "mona"] |}.
Proof. vm_compute. reflexivity. Qed.

Example load_secrets_two_accounts :
  Secrets.load Scenarios.two_accounts []
  = (Ret Scenarios.two_secrets, [Print (MsgFound "octo/hapus" 2)]).
Proof. vm_compute. reflexivity. Qed.

(** ** The permission preflight *)

Lemma str_in_elem_of x l : str_in x l = true <-> x ∈ l.
Proof.
  unfold str_in. rewrite existsb_exists, list_elem_of_In. split.
  - intros (y & Hin & Heq). apply String.eqb_eq in Heq. by subst.
  - intros Hin. exists x. split; [done | apply String.eqb_refl].
Qed.

Lemma check_permissions_eq w cfg hist :
  Secrets.check_permissions w cfg hist
  = let rq := identity_request (Secrets.ADMIN_TOKEN cfg) in
    match host w (hist ++ [Print MsgChecking]) rq with
    | Failure => (Raise RequestException, [Print MsgChecking; Http rq Failure])
    | Answer resp =>
        let scopes := granted_scopes resp in
        if status_code resp =? 200
        then
          if (str_in "repo" scopes && str_in "workflow" scopes)%bool
          then (Ret true, [Print MsgChecking; Http rq (Answer resp);
                           Print (MsgScopes scopes); Print MsgPermissionsOk])
          else (Ret false,
                [Print MsgChecking; Http rq (Answer resp);
                 Print (MsgScopes scopes);
                 Print (MsgMissingScopes
                          (List.filter (fun s => negb (str_in s scopes))
                             ["repo"; "workflow"]));
                 Print MsgHowToFix])
        else (Ret false, [Print MsgChecking; Http rq (Answer resp);
                          Print MsgInvalidToken])
    end.
Proof.
  unfold Secrets.check_permissions. rewrite bind_print, bind_send. cbv zeta.
  fold (identity_request (Secrets.ADMIN_TOKEN cfg)).
  destruct (host w _ _) as [resp|]; [|reflexivity].
  destruct (status_code resp =? 200); cbn [negb fst snd]; [|reflexivity].
  fold (granted_scopes resp). rewrite bind_print. cbn [List.filter].
  destruct (str_in "repo" (granted_scopes resp));
    destruct (str_in "workflow" (granted_scopes resp)); reflexivity.
Qed.

(** C6.  For every response of the identity call: the preflight returns
    false when the status is not 200, returns false when [workflow] is not
    among the scopes of the header, whether [repo] is or not, and returns
    true only when both [repo] and [workflow] are among them; with status
    200 and both scopes it does return true. *)
Theorem check_permissions_needs_both_scopes w cfg hist resp :
  host w (hist ++ [Print MsgChecking]) (identity_request (Secrets.ADMIN_TOKEN cfg))
  = Answer resp ->
  let outcome := (Secrets.check_permissions w cfg hist).1 in
  let scopes := granted_scopes resp in
  (status_code resp <> 200 -> outcome = Ret false)
  /\ ("workflow" ∉ scopes -> outcome = Ret false)
  /\ (outcome = Ret true -> "repo" ∈ scopes /\ "workflow" ∈ scopes)
  /\ (status_code resp = 200 -> "repo" ∈ scopes -> "workflow" ∈ scopes ->
      outcome = Ret true).
Proof.
  intros Hh. cbv zeta. rewrite check_permissions_eq. cbv zeta. rewrite Hh.
  rewrite <- !str_in_elem_of.
  destruct (Z.eqb_spec (status_code resp) 200) as [Hs|Hs];
    destruct (str_in "repo" (granted_scopes resp));
    destruct (str_in "workflow" (granted_scopes resp));
    cbn [andb fst]; repeat split; intros; try done; try congruence.
Qed.

Lemma check_permissions_needs_both_scopes_witness :
  (* the header grants [repo] and not [workflow] *)
  (Secrets.check_permissions
     (Scenarios.world_of (Scenarios.scopes_host "repo, gist"))
     Scenarios.two_secrets []).1 = Ret false
  /\ (Secrets.check_permissions
        (Scenarios.world_of (Scenarios.scopes_host "repo, workflow"))
        Scenarios.two_secrets []).1 = Ret true.
Proof.
  split.
  - refine (proj1 (proj2 (check_permissions_needs_both_scopes
                            (Scenarios.world_of (Scenarios.scopes_host "repo, gist"))
                            Scenarios.two_secrets [] _ eq_refl)) _).
    vm_compute. intros H.
    repeat (apply elem_of_cons in H as [H|H]; [discriminate|]).
    by apply elem_of_nil in H.
  - refine (proj2 (proj2 (proj2 (check_permissions_needs_both_scopes
                            (Scenarios.world_of (Scenarios.scopes_host "repo, workflow"))
                            Scenarios.two_secrets [] _ eq_refl))) _ _ _).
    + reflexivity.
    + vm_compute. apply list_elem_of_here.
    + vm_compute. apply list_elem_of_further, list_elem_of_here.
Defined.

(** ** The runs of the two scripts *)

Lemma check_permissions_false_requests w cfg hist :
  (Secrets.check_permissions w cfg hist).1 = Ret false ->
  requests (Secrets.check_permissions w cfg hist).2
  = [identity_request (Secrets.ADMIN_TOKEN cfg)].
Proof.
  rewrite check_permissions_eq. cbv zeta.
  destruct (host w _ _) as [resp|]; [|discriminate].
  destruct (status_code resp =? 200); [|reflexivity].
  by destruct (str_in "repo" _ && str_in "workflow" _)%bool.
Qed.

(** What the module-level statements leave when they do not exit. *)
Lemma load_Ret env hist cfg evs :
  Secrets.load env hist = (Ret cfg, evs) ->
  requests evs = []
  /\ nonempty (Secrets.ADMIN_TOKEN cfg) = true
  /\ Secrets.ADMIN_TOKEN cfg = default "" (env !! "PAT1")
  /\ Secrets.TOKENS cfg = Secrets.collect_tokens env
  /\ Secrets.TOKENS cfg <> [].
Proof.
  unfold Secrets.load. cbv zeta.
  destruct (nonempty (default "" (env !! "PAT1"))) eqn:Hadmin; cbn [negb].
  - destruct (Secrets.collect_tokens env) as [|entry rest] eqn:Htok.
    + rewrite bind_print. discriminate.
    + rewrite bind_print. cbv [ret]. cbn [fst snd].
      intros [= <- <-]. by repeat split.
  - rewrite bind_print. discriminate.
Qed.

(** A failed preflight ends the run of [auto_secrets.py] with [exit(1)]. *)
Lemma run_preflight_false w cfg hist :
  (Secrets.check_permissions w cfg hist).1 = Ret false ->
  Secrets.run w cfg hist
  = (Raise (SystemExit 1),
     (Secrets.check_permissions w cfg hist).2 ++ [Print MsgAborted]).
Proof.
  intros Hcheck. unfold Secrets.run, try_except.
  destruct (Secrets.check_permissions w cfg hist) as [r cevs] eqn:Hc.
  cbn [fst snd] in *. subst r.
  rewrite (bind_Ret _ _ _ _ _ Hc). cbn [negb].
  rewrite (bind_Raise _ _ _ (SystemExit 1) [Print MsgAborted]); [reflexivity|].
  by rewrite bind_print.
Qed.

(** ** The accept phase, member by member *)

Lemma nonempty_true s : s <> "" -> nonempty s = true.
Proof.
  intros H. unfold nonempty. apply negb_true_iff. by apply String.eqb_neq.
Qed.

(** The loop body for a pair [(u, t)], by what the list fetch yields.  The
    body fetches the invitation list once, with the token of the pair.
    When the fetch fails, or yields nothing or something that is not a list,
    the member is reported as having no invitations.  When no entry of the
    list names the target repository, the member is reported as having no
    invitation for it.  When an entry does, the first such entry, and it
    alone, is PATCHed, with the same token; the member is reported accepted
    when the PATCH succeeds and failed when it does not.  And when the scan
    meets, before any entry that names the target, an entry it cannot read,
    the body raises and nothing is PATCHed. *)
Lemma accept_member_cases w cfg u t hist :
  u <> "" -> t <> "" ->
  let client := Collab.GitHubClient_init t in
  let target := Collab.TARGET_REPO cfg in
  let rp := host w hist (list_request client) in
  let invitations := (call_outcome rp).1 in
  let fetched := Http (list_request client) rp :: (call_outcome rp).2 in
  ((truthy invitations && is_list invitations)%bool = false ->
     Collab.accept_member w cfg u t hist
     = (Ret tt, fetched ++ [Print (MsgNoInvitationsFound u)]))
  /\ (forall items,
        invitations = VList items -> items <> [] ->
        Forall (fun invite => well_formed_invite invite = true) items ->
        Forall (fun invite => names_repo target invite = false) items ->
        Collab.accept_member w cfg u t hist
        = (Ret tt, fetched ++ [Print (MsgNoInvitationFor u target); Sleep 800]))
  /\ (forall before invite after,
        invitations = VList (before ++ invite :: after) ->
        Forall (fun invite => well_formed_invite invite = true) before ->
        Forall (fun invite => names_repo target invite = false) before ->
        names_repo target invite = true ->
        let rq := accept_request w client (invite_id invite) in
        let rp' := host w (hist ++ fetched) rq in
        Collab.accept_member w cfg u t hist
        = (Ret tt,
           fetched ++ Http rq rp' :: (call_outcome rp').2
             ++ (if is_not_None (call_outcome rp').1
                 then [Print (MsgAccepted u)]
                 else [Print (MsgAcceptFailed u);
                       Print (MsgNoInvitationFor u target)])
             ++ [Sleep 800]))
  /\ (forall before bad after,
        invitations = VList (before ++ bad :: after) ->
        Forall (fun invite => well_formed_invite invite = true) before ->
        Forall (fun invite => names_repo target invite = false) before ->
        well_formed_invite bad = false ->
        Collab.accept_member w cfg u t hist = (Raise AttributeError, fetched)).
Proof.
  intros Hu Ht. cbv zeta.
  assert (Hbody : forall k : value -> M unit,
            Collab.accept_member w cfg u t hist
            = bind (Collab.call w (Collab.GitHubClient_init t)
                      "/user/repository_invitations" "GET" None)
                (fun invitations =>
                   if (negb (truthy invitations) || negb (is_list invitations))%bool
                   then print (MsgNoInvitationsFound u)
                   else
                     accepted <- Collab.scan_invitations w cfg
                                   (Collab.GitHubClient_init t) u
                                   (match invitations with
                                    | VList items => items
                                    | _ => []
                                    end) ;;
                     (if negb accepted
                      then print (MsgNoInvitationFor u (Collab.TARGET_REPO cfg))
                      else ret tt) ;;;
                     sleep 800) hist).
  { intros _. unfold Collab.accept_member.
    by rewrite (nonempty_true u Hu), (nonempty_true t Ht). }
  rewrite (Hbody (fun _ => ret tt)). clear Hbody.
  rewrite bind_call. cbv beta zeta. fold (list_request (Collab.GitHubClient_init t)).
  set (client := Collab.GitHubClient_init t).
  set (rp := host w hist (list_request client)).
  set (fetched := Http (list_request client) rp :: (call_outcome rp).2).
  split; [|split; [|split]].
  - intros Hnot. rewrite <- negb_andb, Hnot. reflexivity.
  - intros items Hitems Hne Hwf Hno. rewrite Hitems.
    destruct items as [|first others]; [done|]. cbn [truthy is_list negb orb].
    rewrite (bind_Ret _ _ _ false []);
      [|by apply scan_invitations_none].
    cbn [negb]. rewrite bind_print. reflexivity.
  - intros before invite after Hitems Hwf Hno Hyes. cbv zeta. rewrite Hitems.
    assert ((negb (truthy (VList (before ++ invite :: after)))
             || negb (is_list (VList (before ++ invite :: after))))%bool = false)
      as -> by (by destruct before).
    pose proof (scan_invitations_hit w cfg client u invite after
                  (hist ++ fetched) Hyes) as Hscan.
    cbv zeta in Hscan.
    rewrite <- (scan_invitations_first w cfg client u before invite after
                  (hist ++ fetched) Hwf Hno) in Hscan.
    rewrite (bind_Ret _ _ _ _ _ Hscan). cbn [fst snd].
    destruct (is_not_None _); cbn [negb];
      rewrite ?bind_ret, ?bind_print; unfold sleep, emit; cbn [fst snd];
      do 2 f_equal; rewrite <- ?app_assoc; cbn [app];
      rewrite <- ?app_assoc; reflexivity.
  - intros before bad after Hitems Hwf Hno Hbad. rewrite Hitems.
    assert ((negb (truthy (VList (before ++ bad :: after)))
             || negb (is_list (VList (before ++ bad :: after))))%bool = false)
      as -> by (by destruct before).
    pose proof (scan_invitations_malformed w cfg client u bad after
                  (hist ++ fetched) Hbad) as Hscan.
    rewrite <- (scan_invitations_first w cfg client u before bad after
                  (hist ++ fetched) Hwf Hno) in Hscan.
    rewrite (bind_Raise _ _ _ _ _ Hscan). cbn [fst snd].
    by rewrite app_nil_r.
Qed.

(** The accept loop over two lists of pairs in a row. *)
Lemma accept_phase_app w cfg earlier later : forall hist bevs,
  Collab.accept_phase w cfg earlier hist = (Ret tt, bevs) ->
  Collab.accept_phase w cfg (earlier ++ later) hist
  = ((Collab.accept_phase w cfg later (hist ++ bevs)).1,
     bevs ++ (Collab.accept_phase w cfg later (hist ++ bevs)).2).
Proof.
  induction earlier as [|[u t] rest IH]; intros hist bevs Hrun.
  - cbn in Hrun. injection Hrun as <-. rewrite app_nil_r. cbn [app].
    by destruct (Collab.accept_phase w cfg later hist).
  - cbn [Collab.accept_phase app] in Hrun |- *.
    destruct (Collab.accept_member w cfg u t hist) as [[[]|e] mevs] eqn:Hm.
    + rewrite (bind_Ret _ _ _ _ _ Hm) in Hrun. rewrite (bind_Ret _ _ _ _ _ Hm).
      cbn [fst snd] in Hrun.
      destruct (Collab.accept_phase w cfg rest (hist ++ mevs))
        as [r revs] eqn:Hrest.
      cbn [fst snd] in Hrun. injection Hrun as -> <-.
      rewrite (IH _ _ Hrest). cbn [fst snd].
      by rewrite <- !app_assoc.
    + by rewrite (bind_Raise _ _ _ _ _ Hm) in Hrun.
Qed.

(** C8, as the code has it.  For every member [(u, t)] of the accept phase
    whose turn comes, the iterations before it having returned, the loop
    fetches the member's invitation list once, with the member's token.
    When the fetch fails, or yields nothing or something that is not a list,
    the member is reported as having no invitations; when every entry is an
    object the scan can read and none names the target repository, the
    member is reported as having no invitation for it; when the first entry
    that names the target comes after entries the scan can read, that
    entry, and it alone, is PATCHed, with the same token, and the member is
    reported accepted when the PATCH succeeds and failed when it does not.
    In each of these cases there is no second fetch and no second PATCH, and
    the phase moves on to the members after it.  When the scan meets an
    entry it cannot read before any entry that names the target, the phase
    ends there with [AttributeError]: nothing is PATCHed, the member is not
    reported, and no later member is visited. *)
Theorem accept_member_single_attempt w cfg earlier u t later hist bevs :
  u <> "" -> t <> "" ->
  Collab.accept_phase w cfg earlier hist = (Ret tt, bevs) ->
  let h := hist ++ bevs in
  let client := Collab.GitHubClient_init t in
  let target := Collab.TARGET_REPO cfg in
  let rp := host w h (list_request client) in
  let invitations := (call_outcome rp).1 in
  let fetched := Http (list_request client) rp :: (call_outcome rp).2 in
  let phase := Collab.accept_phase w cfg (earlier ++ (u, t) :: later) hist in
  let moves_on (mevs : list event) :=
    phase = ((Collab.accept_phase w cfg later (h ++ mevs)).1,
             bevs ++ mevs ++ (Collab.accept_phase w cfg later (h ++ mevs)).2) in
  ((truthy invitations && is_list invitations)%bool = false ->
     moves_on (fetched ++ [Print (MsgNoInvitationsFound u)]))
  /\ (forall items,
        invitations = VList items -> items <> [] ->
        Forall (fun invite => well_formed_invite invite = true) items ->
        Forall (fun invite => names_repo target invite = false) items ->
        moves_on (fetched ++ [Print (MsgNoInvitationFor u target); Sleep 800]))
  /\ (forall before invite after,
        invitations = VList (before ++ invite :: after) ->
        Forall (fun invite => well_formed_invite invite = true) before ->
        Forall (fun invite => names_repo target invite = false) before ->
        names_repo target invite = true ->
        let rq := accept_request w client (invite_id invite) in
        let rp' := host w (h ++ fetched) rq in
        moves_on (fetched ++ Http rq rp' :: (call_outcome rp').2
                    ++ (if is_not_None (call_outcome rp').1
                        then [Print (MsgAccepted u)]
                        else [Print (MsgAcceptFailed u);
                              Print (MsgNoInvitationFor u target)])
                    ++ [Sleep 800]))
  /\ (forall before bad after,
        invitations = VList (before ++ bad :: after) ->
        Forall (fun invite => well_formed_invite invite = true) before ->
        Forall (fun invite => names_repo target invite = false) before ->
        well_formed_invite bad = false ->
        phase = (Raise AttributeError, bevs ++ fetched)).
Proof.
  intros Hu Ht Hearlier. cbv zeta.
  rewrite (accept_phase_app w cfg earlier ((u, t) :: later) hist bevs Hearlier).
  cbn [Collab.accept_phase].
  destruct (accept_member_cases w cfg u t (hist ++ bevs) Hu Ht)
    as (Hnone & Hnomatch & Hfound & Hbad).
  cbv zeta in Hnone, Hnomatch, Hfound, Hbad.
  assert (Hon : forall mevs,
            Collab.accept_member w cfg u t (hist ++ bevs) = (Ret tt, mevs) ->
            ((bind (Collab.accept_member w cfg u t)
                (fun _ => Collab.accept_phase w cfg later) (hist ++ bevs)).1,
             bevs ++ (bind (Collab.accept_member w cfg u t)
                        (fun _ => Collab.accept_phase w cfg later)
                        (hist ++ bevs)).2)
            = ((Collab.accept_phase w cfg later ((hist ++ bevs) ++ mevs)).1,
               bevs ++ mevs
                 ++ (Collab.accept_phase w cfg later ((hist ++ bevs) ++ mevs)).2)).
  { intros mevs Hm. by rewrite (bind_Ret _ _ _ _ _ Hm). }
  split; [|split; [|split]].
  - intros Hcase. apply Hon. by apply Hnone.
  - intros items Hitems Hne Hwf Hno. apply Hon. by apply (Hnomatch items).
  - intros before invite after Hitems Hwf Hno Hyes. apply Hon.
    by apply (Hfound before invite after).
  - intros before bad after Hitems Hwf Hno Hunreadable.
    by rewrite (bind_Raise _ _ _ _ _ (Hbad before bad after Hitems Hwf Hno
                                        Hunreadable)).
Qed.

Lemma accept_member_single_attempt_witness :
  let w := Scenarios.world_of Scenarios.invitations_host in
  let cfg := Scenarios.collaborators in
  let listing := Answer (Scenarios.plain 200 "[...]"
                           (Some (VList [Scenarios.invitation 41 "else/where";
                                         Scenarios.invitation 42 "octo/hapus"]))) in
  let accept token :=
    Http {| rq_verb := PATCH;
            rq_url := "https://api.github.com/user/repository_invitations/42";
            rq_authorization := "token " +:+ token;
            rq_accept := "application/vnd.github.v3+json";
            rq_json := None;
            rq_timeout := Some 10 |}
      (Answer (Scenarios.plain 204 "" None)) in
  let mona := [Http (list_request (Collab.GitHubClient_init "ghp_member")) listing;
               accept "ghp_member"; Print (MsgAccepted "mona"); Sleep 800] in
  let hubot := [Http (list_request (Collab.GitHubClient_init "ghp_hubot")) listing;
                accept "ghp_hubot"; Print (MsgAccepted "hubot"); Sleep 800] in
  Collab.accept_phase w cfg [("mona", "ghp_member")] [] = (Ret tt, mona)
  /\ Collab.accept_phase w cfg
       ([("mona", "ghp_member")] ++ [("hubot", "ghp_hubot")]) []
     = (Ret tt, mona ++ hubot ++ []).
Proof.
  intros w cfg listing accept mona hubot.
  assert (Hmona : Collab.accept_phase w cfg [("mona", "ghp_member")] []
                  = (Ret tt, mona)) by reflexivity.
  split; [exact Hmona|].
  destruct (accept_member_single_attempt w cfg [("mona", "ghp_member")]
              "hubot" "ghp_hubot" [] [] mona)
    as (_ & _ & Hfound & _); [discriminate | discriminate | exact Hmona |].
  apply (Hfound [Scenarios.invitation 41 "else/where"]
           (Scenarios.invitation 42 "octo/hapus") []).
  - reflexivity.
  - repeat constructor.
  - repeat constructor.
  - reflexivity.
Defined.

(** C8 fails on a listing the scan cannot read.  The host lists the
    invitation to the target repository behind an entry whose repository is
    null: the loop body of [mona] raises [AttributeError] right after the
    fetch, the listed invitation is not PATCHed, [mona] is not reported, and
    the phase does not move on to [hubot]. *)
Lemma listed_invitation_behind_unreadable_entry :
  let w := Scenarios.world_of Scenarios.null_repository_host in
  let rq := list_request (Collab.GitHubClient_init "ghp_member") in
  exists items,
    (call_outcome (host w [] rq)).1 = VList items
    /\ Scenarios.invitation 42 "octo/hapus" ∈ items
    /\ names_repo "octo/hapus" (Scenarios.invitation 42 "octo/hapus") = true
    /\ Collab.accept_phase w Scenarios.collaborators
         [("mona", "ghp_member"); ("hubot", "ghp_hubot")] []
       = (Raise AttributeError, [Http rq (host w [] rq)]).
Proof.
  eexists. split; [reflexivity|]. split; [|split; reflexivity].
  apply list_elem_of_further, list_elem_of_here.
Qed.

(** ** The configuration read from the environment *)


(** When every number that has a username has a token and conversely, the
    pairs the accept phase iterates over are the pairs of the environment:
    [USERNAMEi] goes with [PATi]. *)
Lemma collect_pairs_aligned (env : gmap string string) :
  (forall i : nat,
     is_Some (mbind (fun v => if nonempty v then Some v else None)
                (env !! ("USERNAME" +:+ str_of_nat i)))
     <-> is_Some (mbind (fun v => if nonempty v then Some v else None)
                    (env !! ("PAT" +:+ str_of_nat i)))) ->
  zip (Collab.collect env "USERNAME") (Collab.collect env "PAT")
  = omap (fun i : nat =>
            match env !! ("USERNAME" +:+ str_of_nat i),
                  env !! ("PAT" +:+ str_of_nat i) with
            | Some u, Some t =>
                if (nonempty u && nonempty t)%bool then Some (u, t) else None
            | _, _ => None
            end)
         (seq 1 20).
Proof.
  intros Hpair. unfold Collab.collect.
  induction (seq 1 20) as [|i rest IH]; [reflexivity|].
  cbn [omap list_omap]. specialize (Hpair i).
  destruct (env !! ("USERNAME" +:+ str_of_nat i)) as [u|];
    destruct (env !! ("PAT" +:+ str_of_nat i)) as [t|]; cbn in Hpair.
  - destruct (nonempty u), (nonempty t); cbn [andb].
    + cbn. by rewrite IH.
    + destruct Hpair as [Hp _]. by destruct Hp as [? ?].
    + destruct Hpair as [_ Hp]. by destruct Hp as [? ?].
    + exact IH.
  - destruct (nonempty u); [|exact IH].
    destruct Hpair as [Hp _]. by destruct Hp as [? ?].
  - destruct (nonempty t); [|exact IH].
    destruct Hpair as [_ Hp]. by destruct Hp as [? ?].
  - exact IH.
Qed.

(** ** Runs of the bootstrap on a host that lists the invitation *)

(** An admin and one member: one invite with the admin token, then the
    member's own list and accept. *)
Example bootstrap_run :
  map (fun rq => (rq_verb rq, rq_url rq, rq_authorization rq))
    (requests (Collab.setup_collaborators
                 (Scenarios.world_of Scenarios.invitations_host)
                 Scenarios.collaborators []).2)
  = [(PUT, "https://api.github.com/repos/octo/hapus/collaborators/mona",
      "token ghp_admin");
     (GET, "https://api.github.com/user/repository_invitations",
      "token ghp_member");
     (PATCH, "https://api.github.com/user/repository_invitations/42",
      "token ghp_member")].
Proof. vm_compute. reflexivity. Qed.

Lemma accept_phase_follows_invite_phase_witness :
  exists invite_evs accept_evs,
    (Collab.setup_collaborators (Scenarios.world_of Scenarios.invitations_host)
       Scenarios.collaborators []).2
    = [Print (MsgCollabBanner "octo/hapus" 2); Print MsgStep1] ++ invite_evs
      ++ [Print MsgWaiting; Sleep 5000; Print MsgStep2] ++ accept_evs
    /\ map rq_verb (requests invite_evs) = [PUT]
    /\ Forall (fun rq => rq_verb rq = GET \/ rq_verb rq = PATCH)
         (requests accept_evs).
Proof.
  destruct (accept_phase_follows_invite_phase
              (Scenarios.world_of Scenarios.invitations_host)
              Scenarios.collaborators [])
    as [[Hnone _] | (token0 & invite_evs & accept_evs & _ & Hevs & Hrq & _
                     & Haccept & _)].
  - discriminate Hnone.
  - exists invite_evs, accept_evs. split; [exact Hevs|].
    split; [|exact Haccept]. rewrite Hrq. reflexivity.
Defined.

(** The lists are filled independently: a username without a token shifts
    the positions, and the pairs follow the positions. *)
Example collect_second_token_missing :
  let cfg := Collab.load Scenarios.second_token_missing in
  Collab.TARGET_REPO cfg = "octo/hapus"
  /\ Collab.USERS cfg = ["octo"; "mona"; "hubot"]
  /\ Collab.TOKENS cfg = ["ghp_admin"; "ghp_hubot"]
  /\ zip (slice_from_1 (Collab.USERS cfg)) (slice_from_1 (Collab.TOKENS cfg))
     = [("mona", "ghp_hubot")].
Proof. vm_compute. repeat split; reflexivity. Qed.

(** * Further properties of the two scripts *)

(** ** Loading the configuration *)

Lemma omap_length_le {A B} (f : A -> option B) (l : list A) :
  (length (omap f l) <= length l)%nat.
Proof.
  induction l as [|x l IH]; [done|]. cbn. destruct (f x); cbn; lia.
Qed.

(** X2.  The lists [TOKENS] and [USERS] hold exactly the values of the
    variables numbered 1 to 20 that are set and not empty: nothing numbered
    above 20 is read, no empty string gets in, and no list is longer than
    20. *)
Theorem collect_reads_one_to_twenty (env : gmap string string) (prefix : string) :
  (length (Collab.collect env prefix) <= 20)%nat
  /\ (forall s,
        s ∈ Collab.collect env prefix
        <-> exists i : nat,
              (1 <= i <= 20)%nat
              /\ env !! (prefix +:+ str_of_nat i) = Some s
              /\ s <> "").
Proof.
  split.
  - unfold Collab.collect.
    etrans; [apply omap_length_le|]. by rewrite length_seq.
  - intros s. unfold Collab.collect. rewrite list_elem_of_omap. split.
    + intros (i & Hi & Hs). apply elem_of_seq in Hi. exists i.
      destruct (env !! (prefix +:+ str_of_nat i)) as [v|]; [|discriminate].
      destruct (nonempty v) eqn:Hv; [|discriminate].
      injection Hs as <-. split; [lia|]. split; [done|]. by intros ->.
    + intros (i & Hi & Hs & Hne). exists i. split; [apply elem_of_seq; lia|].
      by rewrite Hs, (nonempty_true s Hne).
Qed.

(** The requests of a run of the bootstrap: the invites, then those of the
    accept phase. *)
Lemma setup_collaborators_requests w cfg hist token0 :
  Collab.TOKENS cfg !! 0%nat = Some token0 ->
  exists h,
    requests (Collab.setup_collaborators w cfg hist).2
    = map (invite_request cfg (Collab.GitHubClient_init token0))
        (List.filter nonempty (slice_from_1 (Collab.USERS cfg)))
      ++ requests
           (Collab.accept_phase w cfg
              (zip (slice_from_1 (Collab.USERS cfg))
                   (slice_from_1 (Collab.TOKENS cfg))) h).2.
Proof.
  intros Htok.
  destruct (setup_collaborators_shape w cfg hist) as
    [[Hnone _] | (token0' & invite_evs & h & tail & Htok' & Hevs & Hrq & _ & Htail)].
  { by rewrite Hnone in Htok. }
  rewrite Htok in Htok'. injection Htok' as <-. exists h.
  cbv zeta in Hevs. rewrite Hevs. autorewrite with trace. rewrite Hrq.
  destruct Htail as [-> | ->]; autorewrite with trace; by rewrite ?app_nil_r.
Qed.

Lemma omap_cons_eq {A B} (f : A -> option B) x l :
  omap f (x :: l)
  = match f x with Some y => y :: omap f l | None => omap f l end.
Proof. reflexivity. Qed.


Lemma seq_1_20 : seq 1 20 = 1%nat :: seq 2 19.
Proof. reflexivity. Qed.


Lemma load_lists (env : gmap string string) :
  Collab.USERS (Collab.load env) = Collab.collect env "USERNAME"
  /\ Collab.TOKENS (Collab.load env) = Collab.collect env "PAT".
Proof. split; reflexivity. Qed.

Lemma collect_eq (env : gmap string string) prefix :
  Collab.collect env prefix
  = omap (fun i : nat =>
            match env !! (prefix +:+ str_of_nat i) with
            | Some v => if nonempty v then Some v else None
            | None => None
            end) (seq 1 20).
Proof. reflexivity. Qed.




Lemma zip_collect_complete (env : gmap string string) (l : list nat) :
  forallb (fun i : nat =>
             Bool.eqb (is_set env ("USERNAME" +:+ str_of_nat i))
                      (is_set env ("PAT" +:+ str_of_nat i))) l = true ->
  let pick prefix (i : nat) :=
    match env !! (prefix +:+ str_of_nat i) with
    | Some v => if nonempty v then Some v else None
    | None => None
    end in
  zip (omap (pick "USERNAME") l) (omap (pick "PAT") l)
  = omap (fun i => match pick "USERNAME" i, pick "PAT" i with
                   | Some u, Some t => Some (u, t)
                   | _, _ => None
                   end) l
  /\ length (omap (pick "USERNAME") l) = length (omap (pick "PAT") l).
Proof.
  cbv zeta. induction l as [|i rest IH]; [done|].
  cbn [forallb]. intros [Hi Hrest]%andb_true_iff.
  destruct (IH Hrest) as [IHzip IHlen]. apply Bool.eqb_prop in Hi.
  unfold is_set in Hi. cbn [omap list_omap].
  destruct (env !! ("USERNAME" +:+ str_of_nat i)) as [u|];
    destruct (env !! ("PAT" +:+ str_of_nat i)) as [t|];
    try destruct (nonempty u); try destruct (nonempty t);
    try discriminate; cbn; by rewrite ?IHzip, ?IHlen.
Qed.

(** X4.  When every number from 1 to 20 has both a username and a token or
    neither, the two lists have the same length and every pair the accept
    phase iterates over is a pair of the environment: the username
    [USERNAMEi] goes with the token [PATi] of the same number. *)
Theorem accept_pairs_follow_numbering (env : gmap string string) :
  accounts_complete env = true ->
  let cfg := Collab.load env in
  length (Collab.USERS cfg) = length (Collab.TOKENS cfg)
  /\ (forall (k : nat) u t,
        zip (slice_from_1 (Collab.USERS cfg)) (slice_from_1 (Collab.TOKENS cfg))
          !! k = Some (u, t) ->
        exists i : nat,
          (1 <= i <= 20)%nat
          /\ env !! ("USERNAME" +:+ str_of_nat i) = Some u
          /\ env !! ("PAT" +:+ str_of_nat i) = Some t).
Proof.
  intros Hcomplete. cbv zeta.
  destruct (zip_collect_complete env (seq 1 20) Hcomplete) as [Hzip Hlen].
  cbv beta zeta in Hzip, Hlen. clear Hcomplete.
  destruct (load_lists env) as [-> ->]. rewrite !collect_eq.
  split; [exact Hlen|]. clear Hlen.
  intros k u t Hk. apply zip_tail_lookup in Hk as [Hu Ht].
  assert (Hin : (u, t) ∈ omap (fun i : nat =>
                  match
                    match env !! ("USERNAME" +:+ str_of_nat i) with
                    | Some v => if nonempty v then Some v else None
                    | None => None
                    end,
                    match env !! ("PAT" +:+ str_of_nat i) with
                    | Some v => if nonempty v then Some v else None
                    | None => None
                    end
                  with
                  | Some u, Some t => Some (u, t)
                  | _, _ => None
                  end) (seq 1 20)).
  { rewrite <- Hzip. apply list_elem_of_lookup. exists (S k).
    rewrite lookup_zip_with, Hu, Ht. reflexivity. }
  clear Hu Ht Hzip.
  apply list_elem_of_omap in Hin as (i & Hi & Hpair).
  apply elem_of_seq in Hi. exists i. split; [lia|]. clear Hi.
  destruct (env !! ("USERNAME" +:+ str_of_nat i)) as [u'|]; [|discriminate].
  destruct (nonempty u'); [|discriminate].
  destruct (env !! ("PAT" +:+ str_of_nat i)) as [t'|]; [|discriminate].
  destruct (nonempty t'); [|discriminate].
  injection Hpair as <- <-. split; reflexivity.
Qed.

Lemma accept_pairs_follow_numbering_witness :
  exists i : nat,
    (1 <= i <= 20)%nat
    /\ Scenarios.two_accounts !! ("USERNAME" +:+ str_of_nat i) = Some "mona"
    /\ Scenarios.two_accounts !! ("PAT" +:+ str_of_nat i) = Some "ghp_member".
Proof.
  refine (proj2 (accept_pairs_follow_numbering Scenarios.two_accounts _)
            0%nat "mona" "ghp_member" _).
  - vm_compute. reflexivity.
  - vm_compute. reflexivity.
Defined.

(** ** Claims on the credentials of the bootstrap *)





(** ** The dictionary of secrets *)

Lemma collect_tokens_names (env : gmap string string) (l : list nat) :
  let pick (i : nat) :=
    let name := "PAT" +:+ str_of_nat i in
    match env !! name with
    | Some v => if nonempty v then Some (name, v) else None
    | None => None
    end in
  map fst (omap pick l)
    `sublist_of` map (fun i : nat => "PAT" +:+ str_of_nat i) l.
Proof.
  cbv zeta. induction l as [|i rest IH]; [constructor|].
  cbn [omap list_omap map].
  destruct (env !! ("PAT" +:+ str_of_nat i)) as [v|];
    [destruct (nonempty v)|]; cbn [map fst];
    by (apply sublist_skip || apply sublist_cons).
Qed.

(** X5.  When the module-level statements of [auto_secrets.py] do not
    exit, [TOKENS] is a dictionary: its names are distinct; it has at most
    20 entries and at least one; its first entry is [PAT1] with the admin
    token, so the admin token is itself uploaded as a secret; and its
    entries are exactly the variables [PAT1] to [PAT20] that are set and
    not empty. *)
Theorem loaded_tokens_form_a_dictionary (env : gmap string string) hist cfg evs :
  Secrets.load env hist = (Ret cfg, evs) ->
  NoDup (map fst (Secrets.TOKENS cfg))
  /\ (1 <= length (Secrets.TOKENS cfg) <= 20)%nat
  /\ Secrets.TOKENS cfg !! 0%nat = Some ("PAT1", Secrets.ADMIN_TOKEN cfg)
  /\ (forall name value,
        (name, value) ∈ Secrets.TOKENS cfg
        <-> exists i : nat,
              (1 <= i <= 20)%nat
              /\ name = "PAT" +:+ str_of_nat i
              /\ env !! name = Some value
              /\ value <> "").
Proof.
  intros Hload.
  destruct (load_Ret env hist cfg evs Hload) as (_ & Hadmin & Headmin & Htok & Hne).
  rewrite Htok in *. split; [|split; [|split]].
  - eapply sublist_NoDup; [|apply (collect_tokens_names env (seq 1 20))].
    apply (bool_decide_unpack _). vm_compute. exact I.
  - split.
    + destruct (Secrets.collect_tokens env); [done | cbn; lia].
    + unfold Secrets.collect_tokens.
      etrans; [apply omap_length_le|]. by rewrite length_seq.
  - unfold Secrets.collect_tokens.
    rewrite seq_1_20, omap_cons_eq. cbv beta zeta.
    assert (E1 : "PAT" +:+ str_of_nat 1 = "PAT1") by reflexivity.
    rewrite E1. rewrite Headmin in *.
    destruct (env !! "PAT1") as [v|]; cbn [default from_option id] in *;
      [|discriminate].
    by rewrite Hadmin.
  - intros name value. unfold Secrets.collect_tokens.
    rewrite list_elem_of_omap. split.
    + intros (i & Hi & Hs). apply elem_of_seq in Hi. exists i.
      cbv zeta in Hs.
      destruct (env !! ("PAT" +:+ str_of_nat i)) as [v|] eqn:Hv; [|discriminate].
      destruct (nonempty v) eqn:Hnv; [|discriminate].
      injection Hs as <- <-. split; [lia|]. split; [done|]. split; [done|].
      by intros ->.
    + intros (i & Hi & -> & Hv & Hnv). exists i.
      split; [apply elem_of_seq; lia|].
      cbv zeta. by rewrite Hv, (nonempty_true value Hnv).
Qed.

Lemma loaded_tokens_form_a_dictionary_witness :
  NoDup (map fst (Secrets.TOKENS Scenarios.two_secrets))
  /\ Secrets.TOKENS Scenarios.two_secrets !! 0%nat
     = Some ("PAT1", Secrets.ADMIN_TOKEN Scenarios.two_secrets).
Proof.
  destruct (loaded_tokens_form_a_dictionary Scenarios.two_accounts []
              Scenarios.two_secrets [Print (MsgFound "octo/hapus" 2)])
    as (Hnodup & _ & Hfirst & _).
  - vm_compute. reflexivity.
  - by split.
Defined.

(** ** The scopes header *)

Lemma append_assoc (s1 s2 s3 : string) : (s1 +:+ s2) +:+ s3 = s1 +:+ (s2 +:+ s3).
Proof.
  induction s1 as [|c s1 IH]; [reflexivity|].
  change (String c s1 +:+ s2) with (String c (s1 +:+ s2)).
  change (String c (s1 +:+ s2) +:+ s3) with (String c ((s1 +:+ s2) +:+ s3)).
  by rewrite IH.
Qed.

Lemma append_nil_r (s : string) : s +:+ "" = s.
Proof.
  induction s as [|c s IH]; [reflexivity|].
  change (String c s +:+ "") with (String c (s +:+ "")). by rewrite IH.
Qed.

Lemma split_from_not_nil cur s : split_comma_space_from cur s <> [].
Proof.
  revert cur. induction s as [|c rest IH]; intros cur; [done|].
  cbn [split_comma_space_from]. destruct rest as [|c2 rest2]; [done|].
  destruct (Ascii.eqb c "," && Ascii.eqb c2 " ")%bool; [done | apply IH].
Qed.

Lemma concat_cons sep x (l : list string) :
  l <> [] -> String.concat sep (x :: l) = x +:+ sep +:+ String.concat sep l.
Proof. by destruct l. Qed.

Lemma split_from_step cur c c2 rest2 :
  split_comma_space_from cur (String c (String c2 rest2))
  = if (Ascii.eqb c "," && Ascii.eqb c2 " ")%bool
    then cur :: split_comma_space_from "" rest2
    else split_comma_space_from (cur +:+ String c "") (String c2 rest2).
Proof. reflexivity. Qed.

(** Joining the pieces from a position gives back what was read and what
    is left, for the string and for the string behind one more character. *)
Lemma join_split_from s :
  (forall cur, String.concat ", " (split_comma_space_from cur s) = cur +:+ s)
  /\ (forall c cur,
        String.concat ", " (split_comma_space_from cur (String c s))
        = cur +:+ String c s).
Proof.
  induction s as [|c2 rest2 [IH0 IH1]].
  - split; [intros cur; cbn; by rewrite append_nil_r|].
    intros c cur. reflexivity.
  - split.
    + intros cur. apply IH1.
    + intros c cur. rewrite split_from_step.
      destruct (Ascii.eqb c ",") eqn:Hc; destruct (Ascii.eqb c2 " ") eqn:Hc2;
        cbn [andb].
      * apply Ascii.eqb_eq in Hc, Hc2. subst.
        rewrite concat_cons by apply split_from_not_nil. by rewrite IH0.
      * rewrite IH1. by rewrite append_assoc.
      * rewrite IH1. by rewrite append_assoc.
      * rewrite IH1. by rewrite append_assoc.
Qed.

(** A piece of a joined list occurs in the joined string. *)
Lemma concat_occurs sep x (l : list string) :
  x ∈ l -> exists before after, String.concat sep l = before +:+ x +:+ after.
Proof.
  induction l as [|y l IH]; intros Hin; [by apply elem_of_nil in Hin|].
  destruct l as [|z l].
  - apply list_elem_of_singleton in Hin as ->. exists "", "". cbn.
    by rewrite append_nil_r.
  - rewrite concat_cons by done.
    apply elem_of_cons in Hin as [-> | Hin].
    + by exists "", (sep +:+ String.concat sep (z :: l)).
    + destruct (IH Hin) as (before & after & ->).
      exists (y +:+ sep +:+ before), after. by rewrite !append_assoc.
Qed.

(** X6.  Splitting a scopes header on [", "] loses nothing: joining the
    pieces with [", "], as the preflight does to print them, gives back the
    header as it was received, and the list of pieces is never empty. *)
Theorem join_split_comma_space (s : string) :
  String.concat ", " (split_comma_space s) = s
  /\ split_comma_space s <> [].
Proof.
  split; [apply (proj1 (join_split_from s)) | apply split_from_not_nil].
Qed.

(** X7.  The preflight passes only on a header in which the words [repo]
    and [workflow] occur: when [check_permissions] returns true, the
    identity call was answered with status 200 and the header text contains
    both. *)
Theorem check_permissions_true_reads_header w cfg hist :
  (Secrets.check_permissions w cfg hist).1 = Ret true ->
  exists resp,
    host w (hist ++ [Print MsgChecking])
      (identity_request (Secrets.ADMIN_TOKEN cfg)) = Answer resp
    /\ status_code resp = 200
    /\ (exists before after,
          default "" (headers resp !! "X-OAuth-Scopes")
          = before +:+ "repo" +:+ after)
    /\ (exists before after,
          default "" (headers resp !! "X-OAuth-Scopes")
          = before +:+ "workflow" +:+ after).
Proof.
  rewrite check_permissions_eq. cbv zeta.
  destruct (host w _ _) as [resp|]; [|discriminate].
  destruct (Z.eqb_spec (status_code resp) 200) as [Hs|Hs]; [|discriminate].
  destruct (str_in "repo" (granted_scopes resp)) eqn:Hrepo; [|discriminate].
  destruct (str_in "workflow" (granted_scopes resp)) eqn:Hwf; [|discriminate].
  intros _. exists resp. split; [done|]. split; [done|].
  apply str_in_elem_of in Hrepo, Hwf. unfold granted_scopes in *.
  pose proof (proj1 (join_split_from (default "" (headers resp !! "X-OAuth-Scopes")))
                "") as Hjoin.
  destruct (concat_occurs ", " "repo" _ Hrepo) as (b1 & a1 & Hocc1).
  destruct (concat_occurs ", " "workflow" _ Hwf) as (b2 & a2 & Hocc2).
  unfold split_comma_space in Hocc1, Hocc2. rewrite Hjoin in Hocc1, Hocc2.
  split; [by exists b1, a1 | by exists b2, a2].
Qed.

Lemma check_permissions_true_reads_header_witness :
  exists resp,
    host (Scenarios.world_of (Scenarios.scopes_host "repo, workflow"))
      ([] ++ [Print MsgChecking])
      (identity_request (Secrets.ADMIN_TOKEN Scenarios.two_secrets)) = Answer resp
    /\ status_code resp = 200
    /\ (exists before after,
          default "" (headers resp !! "X-OAuth-Scopes")
          = before +:+ "repo" +:+ after)
    /\ (exists before after,
          default "" (headers resp !! "X-OAuth-Scopes")
          = before +:+ "workflow" +:+ after).
Proof.
  apply (check_permissions_true_reads_header
           (Scenarios.world_of (Scenarios.scopes_host "repo, workflow"))
           Scenarios.two_secrets []).
  reflexivity.
Defined.

(** ** Where the requests go and what they carry *)

Lemma bind_requests_Forall {A B} (P : request -> Prop) (m : M A) (k : A -> M B) hist :
  Forall P (requests (m hist).2) ->
  (forall a h, Forall P (requests (k a h).2)) ->
  Forall P (requests (bind m k hist).2).
Proof.
  intros Hm Hk. rewrite bind_events, requests_app. apply Forall_app. split; [done|].
  destruct (m hist).1; [apply Hk | constructor].
Qed.

Lemma try_except_requests_Forall {A} (P : request -> Prop) (body : M A)
    (handler : exn -> M A) hist :
  Forall P (requests (body hist).2) ->
  (forall e h, Forall P (requests (handler e h).2)) ->
  Forall P (requests (try_except body handler hist).2).
Proof.
  intros Hb Hh. unfold try_except.
  destruct (body hist) as [[a|e] evs]; [done|]. cbn [snd] in Hb.
  destruct (is_Exception e); [|done].
  specialize (Hh e (hist ++ evs)). destruct (handler e (hist ++ evs)) as [r evs'].
  cbn [snd] in *. rewrite requests_app. by apply Forall_app.
Qed.

Lemma print_requests_Forall (P : request -> Prop) m hist :
  Forall P (requests (print m hist).2).
Proof. constructor. Qed.

Lemma key_request_admin cfg :
  admin_api_request cfg
    (key_request (Secrets.TARGET_REPO cfg) (Secrets.ADMIN_TOKEN cfg)).
Proof.
  repeat split. by left.
Qed.

Lemma upsert_request_admin cfg name enc kid :
  admin_api_request cfg
    (upsert_request (Secrets.TARGET_REPO cfg) (Secrets.ADMIN_TOKEN cfg) name enc kid).
Proof.
  repeat split. by right.
Qed.

Lemma setup_secrets_loop_requests w cfg entries : forall n failed hist,
  Forall (admin_api_request cfg)
    (requests (Secrets.setup_secrets_loop w cfg entries n failed hist).2).
Proof.
  induction entries as [|[name value] rest IH]; intros n failed hist;
    [constructor|].
  cbn [Secrets.setup_secrets_loop].
  apply bind_requests_Forall; [constructor|]. intros _ h.
  apply bind_requests_Forall.
  - destruct (create_or_update_secret_requests w (Secrets.TARGET_REPO cfg)
                (Secrets.ADMIN_TOKEN cfg) name value h)
      as [-> | (enc & kid & ->)].
    + constructor; [apply key_request_admin | constructor].
    + constructor; [apply key_request_admin|].
      constructor; [apply upsert_request_admin | constructor].
  - intros ok h'. destruct ok;
      (apply bind_requests_Forall; [constructor | intros; apply IH]).
Qed.

(** X8.  Every request of a run of [auto_secrets.py], preflight and
    uploads alike, is a GET or a PUT to [https://api.github.com/] that
    carries the admin token and the v3 accept header, with no timeout.  The
    tokens of the members are uploaded as secrets and never used to
    authenticate. *)
Theorem secrets_requests_carry_admin_token w cfg hist :
  Forall (admin_api_request cfg) (requests (Secrets.run w cfg hist).2).
Proof.
  unfold Secrets.run.
  apply try_except_requests_Forall; [|intros; apply print_requests_Forall].
  apply bind_requests_Forall.
  - rewrite check_permissions_eq. cbv zeta.
    assert (Hid : admin_api_request cfg (identity_request (Secrets.ADMIN_TOKEN cfg))).
    { repeat split. by left. }
    destruct (host w _ _) as [resp|]; [|by repeat constructor].
    destruct (status_code resp =? 200); [|by repeat constructor].
    destruct (str_in "repo" _ && str_in "workflow" _)%bool; by repeat constructor.
  - intros ok h. apply bind_requests_Forall.
    + destruct ok; cbn [negb]; [constructor|].
      apply bind_requests_Forall; [constructor | intros; constructor].
    + intros _ h'. unfold Secrets.setup_secrets.
      apply bind_requests_Forall; [constructor|]. intros _ h1.
      apply bind_requests_Forall; [apply setup_secrets_loop_requests|].
      intros totals h2.
      apply bind_requests_Forall; [constructor|]. intros _ h3.
      apply bind_requests_Forall.
      * destruct totals.2; constructor.
      * intros _ h4. destruct (_ =? _); constructor.
Qed.

Lemma call_requests_Forall (P : request -> Prop) w self endpoint method data hist :
  P (call_request self endpoint method data) ->
  Forall P (requests (Collab.call w self endpoint method data hist).2).
Proof.
  intros HP. rewrite call_eq. cbv zeta. cbn [snd]. autorewrite with trace.
  by repeat constructor.
Qed.

(** The requests of the loop body for [(u, t)]: the GET of the list and
    PATCHes of invitations, all built from the client of [t]. *)
Lemma accept_member_requests_shape w cfg u t hist :
  Forall (fun rq =>
            rq = list_request (Collab.GitHubClient_init t)
            \/ exists id, rq = accept_request w (Collab.GitHubClient_init t) id)
    (requests (Collab.accept_member w cfg u t hist).2).
Proof.
  unfold Collab.accept_member.
  destruct (negb (nonempty u) || negb (nonempty t))%bool; [constructor|].
  cbv zeta. apply bind_requests_Forall; [apply call_requests_Forall; by left|].
  intros invitations h.
  destruct (negb (truthy invitations) || negb (is_list invitations))%bool;
    [constructor|].
  apply bind_requests_Forall.
  - destruct (scan_invitations_requests w cfg (Collab.GitHubClient_init t) u
                (match invitations with VList items => items | _ => [] end) h)
      as [[-> | (invite & _ & _ & ->)] _]; [constructor|].
    constructor; [|constructor]. right. by eexists.
  - intros accepted h'. apply bind_requests_Forall; [|intros; constructor].
    destruct (negb accepted); constructor.
Qed.

(** X9.  Every request of a run of [setup_collaborators.py] goes to
    [https://api.github.com/], with a timeout of ten seconds and the v3
    accept header, and is authorised by one of the configured tokens: no
    request is sent without a credential or with one that was not
    configured. *)
Theorem bootstrap_requests_carry_configured_tokens w cfg hist :
  Forall (configured_api_request cfg)
    (requests (Collab.setup_collaborators w cfg hist).2).
Proof.
  destruct (Collab.TOKENS cfg !! 0%nat) as [token0|] eqn:Htok.
  - destruct (setup_collaborators_requests w cfg hist token0 Htok) as (h & ->).
    apply Forall_app. split.
    + apply Forall_forall. intros rq Hin.
      apply list_elem_of_In, in_map_iff in Hin as (u & <- & _).
      repeat split. exists token0. split; [|reflexivity].
      apply list_elem_of_lookup. by exists 0%nat.
    + apply Forall_forall. intros rq Hin.
      destruct (accept_phase_requests w cfg
                  (zip (slice_from_1 (Collab.USERS cfg))
                       (slice_from_1 (Collab.TOKENS cfg))) h) as [Hreq _].
      destruct (Hreq rq Hin) as (k & u & t & h' & Hk & Hin').
      apply zip_tail_lookup in Hk as [_ Ht].
      assert (Hmem : t ∈ Collab.TOKENS cfg).
      { apply list_elem_of_lookup. by exists (S k). }
      pose proof (accept_member_requests_shape w cfg u t h') as Hshape.
      rewrite Forall_forall in Hshape.
      destruct (Hshape rq Hin') as [-> | [id ->]];
        (split; [by exists t | by repeat split]).
  - destruct (Collab.TOKENS cfg) as [|t0 ts] eqn:Hnil; [|discriminate].
    rewrite (setup_collaborators_no_token w cfg hist Hnil). constructor.
Qed.

(** ** The key data of an upload *)

(** X10.  When the key fetch is answered with status 200, what the body
    holds decides the upload before any PUT is sent.  A body that does not
    parse raises [JSONDecodeError].  Key data that is empty or null fails
    the entry without an exception and without a diagnostic.  Key data that
    is not an object raises [TypeError], an object without ["key"] raises
    [KeyError], and one without ["key_id"] raises [KeyError] after the
    value has been encrypted.  In each case the key fetch is the only
    request. *)
Theorem unusable_key_data_sends_no_put w repo token name value hist resp :
  host w hist (key_request repo token) = Answer resp ->
  status_code resp = 200 ->
  let upload := Secrets.create_or_update_secret w repo token name value hist in
  let fetched := [Http (key_request repo token) (Answer resp)] in
  (json resp = None -> upload = (Raise JSONDecodeError, fetched))
  /\ (forall kd,
        json resp = Some kd -> truthy kd = false ->
        upload = (Ret false, fetched))
  /\ (forall kd,
        json resp = Some kd -> truthy kd = true ->
        (forall fields, kd <> VDict fields) ->
        upload = (Raise TypeError, fetched))
  /\ (forall fields,
        json resp = Some (VDict fields) -> fields <> [] ->
        assoc "key" fields = None ->
        upload = (Raise (KeyError "key"), fetched))
  /\ (forall fields key enc,
        json resp = Some (VDict fields) ->
        assoc "key" fields = Some key ->
        Secrets.encrypt_secret w key value (hist ++ fetched) = (Ret enc, []) ->
        assoc "key_id" fields = None ->
        upload = (Raise (KeyError "key_id"), fetched)).
Proof.
  intros Hh Hs. cbv zeta.
  pose proof (get_public_key_eq w repo token hist) as Hk. cbv zeta in Hk.
  rewrite Hh, Hs in Hk. cbn [Z.eqb Pos.eqb] in Hk.
  unfold Secrets.create_or_update_secret.
  split; [|split; [|split; [|split]]].
  - intros Hj. rewrite Hj in Hk. by rewrite (bind_Raise _ _ _ _ _ Hk).
  - intros kd Hj Ht. rewrite Hj in Hk. rewrite (bind_Ret _ _ _ _ _ Hk), Ht.
    reflexivity.
  - intros kd Hj Ht Hnot. rewrite Hj in Hk. rewrite (bind_Ret _ _ _ _ _ Hk), Ht.
    cbn [negb]. destruct kd as [| | | | |fields]; try reflexivity.
    by destruct (Hnot fields).
  - intros fields Hj Hne Hkey. rewrite Hj in Hk.
    rewrite (bind_Ret _ _ _ _ _ Hk).
    destruct fields as [|f fs]; [done|]. cbn [truthy negb subscript].
    rewrite Hkey. reflexivity.
  - intros fields key enc Hj Hkey Henc Hkid. rewrite Hj in Hk.
    rewrite (bind_Ret _ _ _ _ _ Hk).
    destruct fields as [|f fs]; [done|]. cbn [truthy negb subscript].
    rewrite Hkey, bind_lift_Ret, (bind_Ret _ _ _ _ _ Henc), Hkid.
    reflexivity.
Qed.

Lemma unusable_key_data_sends_no_put_witness :
  Secrets.create_or_update_secret
    (Scenarios.world_of (Scenarios.key_data_host (Some (VDict []))))
    "octo/hapus" "ghp_admin" "PAT1" "ghp_admin" []
  = (Ret false,
     [Http (key_request "octo/hapus" "ghp_admin")
        (Answer (Scenarios.plain 200 "{...}" (Some (VDict []))))])
  /\ Secrets.create_or_update_secret
       (Scenarios.world_of
          (Scenarios.key_data_host (Some (VDict [("key_id", VStr "1")]))))
       "octo/hapus" "ghp_admin" "PAT1" "ghp_admin" []
     = (Raise (KeyError "key"),
        [Http (key_request "octo/hapus" "ghp_admin")
           (Answer (Scenarios.plain 200 "{...}"
                      (Some (VDict [("key_id", VStr "1")]))))]).
Proof.
  split.
  - apply (proj1 (proj2 (unusable_key_data_sends_no_put
                           (Scenarios.world_of
                              (Scenarios.key_data_host (Some (VDict []))))
                           "octo/hapus" "ghp_admin" "PAT1" "ghp_admin" []
                           _ eq_refl eq_refl)) (VDict [])); reflexivity.
  - apply (proj1 (proj2 (proj2 (proj2 (unusable_key_data_sends_no_put
                           (Scenarios.world_of
                              (Scenarios.key_data_host
                                 (Some (VDict [("key_id", VStr "1")]))))
                           "octo/hapus" "ghp_admin" "PAT1" "ghp_admin" []
                           _ eq_refl eq_refl))))
             [("key_id", VStr "1")]); [reflexivity | discriminate | reflexivity].
Defined.

(** X11.  A PUT of an upload is built from the key that the same upload has
    just fetched: the key was answered with status 200, the value sent is
    the base64 text of the secret sealed under the decoded key, the key id
    sent is the id of that key, and the URL names the secret. *)
Theorem upsert_uses_the_fetched_key w repo token name value hist rq :
  rq ∈ requests (Secrets.create_or_update_secret w repo token name value hist).2 ->
  rq_verb rq = PUT ->
  exists resp kd key kid key_bytes sealed,
    host w hist (key_request repo token) = Answer resp
    /\ status_code resp = 200
    /\ json resp = Some kd
    /\ subscript kd "key" = Ret key
    /\ subscript kd "key_id" = Ret kid
    /\ b64decode w key = Ret key_bytes
    /\ sealed_box_encrypt w
         (hist ++ [Http (key_request repo token) (Answer resp)])
         key_bytes value = Ret sealed
    /\ rq = upsert_request repo token name (b64encode w sealed) kid.
Proof.
  unfold Secrets.create_or_update_secret. rewrite bind_events.
  rewrite get_public_key_eq. cbv zeta.
  assert (Hget : forall rp, rq ∈ [key_request repo token] -> rq_verb rq = PUT -> rp)
    by (intros rp ->%list_elem_of_singleton; discriminate).
  destruct (host w hist _) as [resp|] eqn:Hh; [|apply Hget].
  destruct (Z.eqb_spec (status_code resp) 200) as [Hs|Hs]; cbn [fst snd];
    [|apply Hget].
  destruct (json resp) as [kd|] eqn:Hj; [|apply Hget].
  destruct (negb (truthy kd)); [apply Hget|].
  destruct (subscript kd "key") as [key|e] eqn:Hkey; [|apply Hget].
  rewrite bind_lift_Ret. rewrite bind_events.
  unfold Secrets.encrypt_secret at 1 2.
  destruct (b64decode w key) as [key_bytes|e] eqn:Hdec; [|apply Hget].
  destruct (sealed_box_encrypt w _ key_bytes value) as [sealed|e] eqn:Hseal;
    [|apply Hget].
  cbn [fst snd app].
  destruct (subscript kd "key_id") as [kid|e] eqn:Hkid; [|apply Hget].
  rewrite bind_lift_Ret, bind_send.
  fold (upsert_request repo token name (b64encode w sealed) kid).
  intros Hin Hverb.
  assert (Hrq : rq = upsert_request repo token name (b64encode w sealed) kid).
  { destruct (host w _ (upsert_request _ _ _ _ _)); cbn in Hin;
      apply elem_of_cons in Hin as [-> | Hin]; try discriminate;
      by apply list_elem_of_singleton in Hin. }
  exists resp, kd, key, kid, key_bytes, sealed. by repeat split.
Qed.

Lemma upsert_uses_the_fetched_key_witness :
  exists resp kd key kid key_bytes sealed,
    host (Scenarios.world_of (Scenarios.upsert_host 201)) []
      (key_request "octo/hapus" "ghp_admin") = Answer resp
    /\ status_code resp = 200
    /\ json resp = Some kd
    /\ subscript kd "key" = Ret key
    /\ subscript kd "key_id" = Ret kid
    /\ b64decode (Scenarios.world_of (Scenarios.upsert_host 201)) key
       = Ret key_bytes
    /\ sealed_box_encrypt (Scenarios.world_of (Scenarios.upsert_host 201))
         ([] ++ [Http (key_request "octo/hapus" "ghp_admin") (Answer resp)])
         key_bytes "ghp_member" = Ret sealed
    /\ upsert_request "octo/hapus" "ghp_admin" "PAT2"
         (Scenarios.sealed_text
            [Http (key_request "octo/hapus" "ghp_admin")
               (Answer Scenarios.key_response)] "ghp_member")
         (VStr "568250167242549743")
       = upsert_request "octo/hapus" "ghp_admin" "PAT2"
           (b64encode (Scenarios.world_of (Scenarios.upsert_host 201)) sealed)
           kid.
Proof.
  apply (upsert_uses_the_fetched_key
           (Scenarios.world_of (Scenarios.upsert_host 201))
           "octo/hapus" "ghp_admin" "PAT2" "ghp_member" []).
  - vm_compute. repeat constructor.
  - reflexivity.
Defined.

(** ** The totals of a batch *)

(** The locals of the loop when it returns: every entry went to exactly
    one of them. *)
Lemma setup_secrets_loop_totals w cfg entries : forall n failed hist n' failed' evs,
  Secrets.setup_secrets_loop w cfg entries n failed hist = (Ret (n', failed'), evs) ->
  n' + Z.of_nat (length failed')
  = n + Z.of_nat (length failed) + Z.of_nat (length entries)
  /\ n <= n'
  /\ exists added,
       failed' = failed ++ added /\ added `sublist_of` map fst entries.
Proof.
  induction entries as [|[name value] rest IH];
    intros n failed hist n' failed' evs Hrun.
  - cbn in Hrun. injection Hrun as <- <- _. cbn. split; [lia|]. split; [lia|].
    exists []. by rewrite app_nil_r.
  - destruct (Secrets.create_or_update_secret w (Secrets.TARGET_REPO cfg)
                (Secrets.ADMIN_TOKEN cfg) name value
                (hist ++ [Print (MsgAdding name)])) as [[ok|e] uevs] eqn:Hup.
    + rewrite (provision_step _ _ _ _ _ _ _ _ _ _ Hup) in Hrun. cbv zeta in Hrun.
      match type of Hrun with
      | context [Secrets.setup_secrets_loop w cfg rest ?a ?b ?c] =>
          destruct (Secrets.setup_secrets_loop w cfg rest a b c)
            as [[[n1 f1]|e] revs] eqn:Hrest; [|discriminate]
      end.
      cbn [fst snd] in Hrun. injection Hrun as <- <- _.
      apply IH in Hrest as (Hsum & Hle & added & -> & Hsub).
      destruct ok.
      * split; [cbn [length]; lia|]. split; [lia|].
        exists added. split; [done|]. by apply sublist_cons.
      * split; [rewrite !length_app in *; cbn [length] in *; lia|].
        split; [lia|].
        exists (name :: added). rewrite <- app_assoc. split; [done|].
        by apply sublist_skip.
    + by rewrite (provision_raise _ _ _ _ _ _ _ _ _ _ Hup) in Hrun.
Qed.

(** X12.  When the loop of [setup_secrets] returns, the report is
    consistent: the count of successes and the number of failed names add up
    to the number of secrets, the failed names are names of the batch in
    their order, the list of failed names is printed exactly when there is
    one, and the run ends with "all added" exactly when no name failed. *)
Theorem setup_secrets_report_is_consistent w cfg hist count failed evs :
  let banner := Print (MsgSecretsBanner (Secrets.TARGET_REPO cfg)
                         (length (Secrets.TOKENS cfg))) in
  Secrets.setup_secrets_loop w cfg (Secrets.TOKENS cfg) 0 [] (hist ++ [banner])
  = (Ret (count, failed), evs) ->
  count + Z.of_nat (length failed) = Z.of_nat (length (Secrets.TOKENS cfg))
  /\ 0 <= count
  /\ failed `sublist_of` map fst (Secrets.TOKENS cfg)
  /\ Secrets.setup_secrets w cfg hist
     = (Ret tt,
        banner :: evs
          ++ Print (MsgSummary count (length (Secrets.TOKENS cfg)))
          :: match failed with
             | [] => [Print MsgAllAdded]
             | _ => [Print (MsgFailedNames failed); Print MsgSomeFailed]
             end).
Proof.
  intros banner Hloop.
  destruct (setup_secrets_loop_totals _ _ _ _ _ _ _ _ _ Hloop)
    as (Hsum & Hle & added & Hadded & Hsub).
  cbn in Hsum, Hadded. subst added.
  split; [lia|]. split; [done|]. split; [done|].
  unfold Secrets.setup_secrets. rewrite bind_print. fold banner.
  rewrite (bind_Ret _ _ _ _ _ Hloop). cbn [fst snd]. rewrite bind_print.
  cbn [fst snd].
  destruct failed as [|f fs].
  - rewrite bind_ret. cbn [length] in Hsum.
    assert ((count =? Z.of_nat (length (Secrets.TOKENS cfg))) = true) as ->
      by (apply Z.eqb_eq; lia).
    reflexivity.
  - rewrite bind_print. cbn [length] in Hsum.
    assert ((count =? Z.of_nat (length (Secrets.TOKENS cfg))) = false) as ->
      by (apply Z.eqb_neq; lia).
    reflexivity.
Qed.

Lemma setup_secrets_report_is_consistent_witness :
  exists evs,
    Secrets.setup_secrets (Scenarios.world_of Scenarios.first_key_404_host)
      Scenarios.two_secrets []
    = (Ret tt,
       Print (MsgSecretsBanner "octo/hapus" 2) :: evs
         ++ [Print (MsgSummary 1 2); Print (MsgFailedNames ["PAT1"]);
             Print MsgSomeFailed]).
Proof.
  eexists.
  apply (setup_secrets_report_is_consistent
           (Scenarios.world_of Scenarios.first_key_404_host)
           Scenarios.two_secrets [] 1 ["PAT1"]).
  reflexivity.
Defined.

(** ** How a run can end *)

Lemma raises_within_bind {A B} (S : exn -> Prop) (m : M A) (k : A -> M B) :
  raises_within S m -> (forall a, raises_within S (k a)) ->
  raises_within S (bind m k).
Proof.
  intros Hm Hk hist e. unfold bind.
  destruct (m hist) as [[a|e'] evs] eqn:Hrun.
  - destruct (k a (hist ++ evs)) as [r evs'] eqn:Hk'. cbn [fst].
    intros ->. apply (Hk a (hist ++ evs)). by rewrite Hk'.
  - cbn [fst]. intros [= <-]. apply (Hm hist). by rewrite Hrun.
Qed.

Lemma raises_within_emit (S : exn -> Prop) ev : raises_within S (emit ev).
Proof. intros hist e. discriminate. Qed.

Lemma raises_within_ret {A} (S : exn -> Prop) (a : A) : raises_within S (ret a).
Proof. intros hist e. discriminate. Qed.

Lemma raises_within_lift {A} (S : exn -> Prop) (r : result A) :
  (forall e, r = Raise e -> S e) -> raises_within S (lift r).
Proof. intros Hr hist e. cbn. apply Hr. Qed.

Lemma raises_within_call (S : exn -> Prop) w self endpoint method data :
  raises_within S (Collab.call w self endpoint method data).
Proof. intros hist e. by rewrite call_eq. Qed.

Lemma raises_within_send (S : exn -> Prop) w rq :
  S RequestException -> raises_within S (send w rq).
Proof.
  intros HS hist e. unfold send. destruct (host w hist rq); cbn; [done|].
  by intros [= <-].
Qed.

Lemma get_raises v k d e : get v k d = Raise e -> e = AttributeError.
Proof. destruct v; cbn; congruence. Qed.

Lemma scan_invitations_raises w cfg client u items :
  raises_within (fun e => e = AttributeError)
    (Collab.scan_invitations w cfg client u items).
Proof.
  induction items as [|invite rest IH]; [apply raises_within_ret|].
  cbn [Collab.scan_invitations].
  apply raises_within_bind;
    [apply raises_within_lift; intros ?; apply get_raises|].
  intros repository.
  apply raises_within_bind;
    [apply raises_within_lift; intros ?; apply get_raises|].
  intros repo_name. destruct (eq_str repo_name (Collab.TARGET_REPO cfg)); [|exact IH].
  apply raises_within_bind;
    [apply raises_within_lift; intros ?; apply get_raises|].
  intros invite_id.
  apply raises_within_bind; [apply raises_within_call|].
  intros result. destruct (is_not_None result);
    (apply raises_within_bind; [apply raises_within_emit | intros; apply raises_within_ret]).
Qed.

Lemma accept_member_raises w cfg u t :
  raises_within (fun e => e = AttributeError) (Collab.accept_member w cfg u t).
Proof.
  unfold Collab.accept_member.
  destruct (negb (nonempty u) || negb (nonempty t))%bool; [apply raises_within_ret|].
  cbv zeta. apply raises_within_bind; [apply raises_within_call|].
  intros invitations.
  destruct (negb (truthy invitations) || negb (is_list invitations))%bool;
    [apply raises_within_emit|].
  apply raises_within_bind; [apply scan_invitations_raises|].
  intros accepted. apply raises_within_bind; [|intros; apply raises_within_emit].
  destruct (negb accepted); [apply raises_within_emit | apply raises_within_ret].
Qed.

Lemma accept_phase_raises w cfg members :
  raises_within (fun e => e = AttributeError) (Collab.accept_phase w cfg members).
Proof.
  induction members as [|[u t] rest IH]; [apply raises_within_ret|].
  cbn [Collab.accept_phase].
  apply raises_within_bind; [apply accept_member_raises | intros; exact IH].
Qed.

(** X13.  A run of the collaborator bootstrap ends in one of three ways:
    it completes; it stops with [IndexError] before any request, which
    happens exactly when no token is configured; or it stops in the accept
    phase with [AttributeError], raised by an entry of an invitation list
    that is not an object.  No failure of a request ends the run. *)
Theorem bootstrap_ends_three_ways w cfg hist :
  let outcome := (Collab.setup_collaborators w cfg hist).1 in
  (outcome = Ret tt \/ outcome = Raise IndexError \/ outcome = Raise AttributeError)
  /\ (outcome = Raise IndexError <-> Collab.TOKENS cfg = []).
Proof.
  cbv zeta.
  destruct (Collab.TOKENS cfg) as [|token0 others] eqn:Htok.
  - rewrite (setup_collaborators_no_token w cfg hist Htok). split; [auto|].
    by split.
  - assert (Hcases :
      (Collab.setup_collaborators w cfg hist).1 = Ret tt
      \/ (Collab.setup_collaborators w cfg hist).1 = Raise AttributeError).
    { unfold Collab.setup_collaborators. rewrite bind_print, Htok. cbn [fst].
      change ((token0 :: others) !! 0%nat) with (Some token0). cbv iota.
      rewrite bind_lift_Ret, bind_print. cbn [fst].
      match goal with |- context [bind ?m ?k ?h] =>
        destruct (invite_phase_eq w cfg (Collab.GitHubClient_init token0)
                    (slice_from_1 (Collab.USERS cfg)) h) as (ievs & Hinv & _)
      end.
      rewrite (bind_Ret _ _ _ _ _ Hinv). cbn [fst].
      rewrite bind_print. cbn [fst]. unfold sleep. rewrite bind_emit.
      cbn [fst]. rewrite bind_print. cbn [fst].
      match goal with |- context [bind ?m ?k ?h] =>
        pose proof (accept_phase_raises w cfg
                      (zip (slice_from_1 (Collab.USERS cfg))
                           (slice_from_1 (token0 :: others))) h) as Hraise;
        destruct (m h) as [[[]|e] aevs] eqn:Hacc
      end.
      - left. rewrite (bind_Ret _ _ _ _ _ Hacc). reflexivity.
      - right. rewrite (bind_Raise _ _ _ _ _ Hacc). cbn [fst]. f_equal.
        by apply Hraise. }
    split; [tauto|]. split; [|discriminate].
    intros Hidx. destruct Hcases as [H | H]; rewrite H in Hidx; discriminate.
Qed.

Lemma raises_within_weaken {A} (S S' : exn -> Prop) (m : M A) :
  (forall e, S e -> S' e) -> raises_within S m -> raises_within S' m.
Proof. intros Hw Hm hist e He. by apply Hw, (Hm hist). Qed.

Lemma subscript_raises v k e : subscript v k = Raise e -> is_Exception e = true.
Proof.
  destruct v as [| | | | |fields]; cbn; try by intros [= <-].
  destruct (assoc k fields); [discriminate | by intros [= <-]].
Qed.

Lemma create_or_update_secret_raises w repo token name value :
  library_raises_exceptions w ->
  raises_within (fun e => is_Exception e = true)
    (Secrets.create_or_update_secret w repo token name value).
Proof.
  intros [Hdec Hseal]. unfold Secrets.create_or_update_secret.
  apply raises_within_bind.
  - unfold Secrets.get_public_key. apply raises_within_bind;
      [by apply raises_within_send|].
    intros resp. destruct (status_code resp =? 200).
    + apply raises_within_lift. destruct (json resp); [discriminate|].
      by intros e [= <-].
    + apply raises_within_bind; [apply raises_within_emit|]. intros _.
      apply raises_within_bind; [apply raises_within_emit|]. intros _.
      apply raises_within_ret.
  - intros kd. destruct (negb (truthy kd)); [apply raises_within_ret|].
    apply raises_within_bind;
      [apply raises_within_lift; intros ?; apply subscript_raises|].
    intros key. apply raises_within_bind.
    + intros hist e. unfold Secrets.encrypt_secret.
      destruct (b64decode w key) as [key_bytes|e'] eqn:Hd; cbn [fst].
      * destruct (sealed_box_encrypt w hist key_bytes value) as [sealed|e'']
          eqn:Hs; cbn [fst]; [discriminate|].
        intros [= <-]. by apply (Hseal _ _ _ _ Hs).
      * intros [= <-]. by apply (Hdec _ _ Hd).
    + intros enc. apply raises_within_bind;
        [apply raises_within_lift; intros ?; apply subscript_raises|].
      intros kid. apply raises_within_bind; [by apply raises_within_send|].
      intros resp. apply raises_within_ret.
Qed.

Lemma setup_secrets_loop_raises w cfg entries :
  library_raises_exceptions w ->
  forall n failed,
    raises_within (fun e => is_Exception e = true)
      (Secrets.setup_secrets_loop w cfg entries n failed).
Proof.
  intros Hlib. induction entries as [|[name value] rest IH]; intros n failed;
    [apply raises_within_ret|].
  cbn [Secrets.setup_secrets_loop].
  apply raises_within_bind; [apply raises_within_emit|]. intros _.
  apply raises_within_bind; [by apply create_or_update_secret_raises|].
  intros ok. destruct ok;
    (apply raises_within_bind; [apply raises_within_emit | intros _; apply IH]).
Qed.

Lemma setup_secrets_raises w cfg :
  library_raises_exceptions w ->
  raises_within (fun e => is_Exception e = true) (Secrets.setup_secrets w cfg).
Proof.
  intros Hlib. unfold Secrets.setup_secrets.
  apply raises_within_bind; [apply raises_within_emit|]. intros _.
  apply raises_within_bind; [by apply setup_secrets_loop_raises|]. intros totals.
  apply raises_within_bind; [apply raises_within_emit|]. intros _.
  apply raises_within_bind.
  - destruct totals.2; [apply raises_within_ret | apply raises_within_emit].
  - intros _. destruct (_ =? _); apply raises_within_emit.
Qed.

Lemma check_permissions_raises w cfg :
  raises_within (fun e => is_Exception e = true) (Secrets.check_permissions w cfg).
Proof.
  intros hist e. rewrite check_permissions_eq. cbv zeta.
  destruct (host w _ _) as [resp|]; [|by intros [= <-]].
  destruct (status_code resp =? 200); [|discriminate].
  by destruct (str_in "repo" _ && str_in "workflow" _)%bool.
Qed.

(** X14.  A run of [auto_secrets.py] ends in one of two ways: it returns,
    or it exits with status 1.  No exception of a request, of the parsing
    or of the encryption leaves the program: the handler of the [__main__]
    block catches them all, so that the run returns, as after a success,
    also when an upload raised. *)
Theorem secrets_run_ends_two_ways w (env : gmap string string) hist :
  library_raises_exceptions w ->
  (Secrets.main w env hist).1 = Ret tt
  \/ (Secrets.main w env hist).1 = Raise (SystemExit 1).
Proof.
  intros Hlib.
  assert (Hbody : forall cfg,
            raises_within (fun e => is_Exception e = true \/ e = SystemExit 1)
              (ok <- Secrets.check_permissions w cfg ;;
               (if negb ok
                then print MsgAborted ;;; raise (SystemExit 1)
                else ret tt) ;;;
               Secrets.setup_secrets w cfg)).
  { intros cfg. apply raises_within_bind.
    - eapply raises_within_weaken; [|apply check_permissions_raises]. auto.
    - intros ok. apply raises_within_bind.
      + destruct ok; cbn [negb]; [apply raises_within_ret|].
        apply raises_within_bind; [apply raises_within_emit|]. intros _.
        intros h e [= <-]. by right.
      + intros _. eapply raises_within_weaken;
          [|by apply setup_secrets_raises]. auto. }
  assert (Hrun : forall cfg h,
            (Secrets.run w cfg h).1 = Ret tt
            \/ (Secrets.run w cfg h).1 = Raise (SystemExit 1)).
  { intros cfg h. unfold Secrets.run, try_except.
    specialize (Hbody cfg h).
    match goal with |- context [match ?b with _ => _ end] =>
      destruct b as [[[]|e] evs] end; [by left|].
    cbn [fst] in Hbody.
    destruct (is_Exception e) eqn:He; [by left|].
    right. destruct (Hbody e eq_refl) as [He' | ->]; [congruence | reflexivity]. }
  unfold Secrets.main, bind.
  destruct (Secrets.load env hist) as [[cfg|e] evs] eqn:Hload.
  - specialize (Hrun cfg (hist ++ evs)).
    destruct (Secrets.run w cfg (hist ++ evs)) as [r evs']. exact Hrun.
  - right. cbn [fst]. f_equal.
    unfold Secrets.load in Hload. cbv zeta in Hload.
    destruct (negb (nonempty _)).
    + rewrite bind_print in Hload. by injection Hload as <- _.
    + destruct (Secrets.collect_tokens env); rewrite bind_print in Hload;
        [by injection Hload as <- _ | discriminate].
Qed.

(** The library of the scenarios raises nothing but [Exception]s. *)
Lemma world_of_raises_exceptions h :
  library_raises_exceptions (Scenarios.world_of h).
Proof.
  split.
  - intros v e H. cbn in H.
    destruct v as [| | |s| |]; try (by injection H as <-).
    destruct (Scenarios.base64_decode s); [discriminate | by injection H as <-].
  - intros hist key_bytes plaintext e H. cbn in H.
    unfold Scenarios.stand_in_seal in H.
    destruct (_ =? _)%nat; [discriminate | by injection H as <-].
Qed.

Lemma secrets_run_ends_two_ways_witness :
  (Secrets.main (Scenarios.world_of Scenarios.granted_then_down_host)
     Scenarios.two_accounts []).1 = Ret tt
  \/ (Secrets.main (Scenarios.world_of Scenarios.granted_then_down_host)
        Scenarios.two_accounts []).1 = Raise (SystemExit 1).
Proof.
  apply secrets_run_ends_two_ways. apply world_of_raises_exceptions.
Defined.

(** ** Claims on the preflight of a run *)

(** With a first token, a run of the bootstrap completes or stops in the
    accept phase on an entry it cannot read. *)
Lemma setup_collaborators_outcome w cfg hist token0 :
  Collab.TOKENS cfg !! 0%nat = Some token0 ->
  (Collab.setup_collaborators w cfg hist).1 = Ret tt
  \/ (Collab.setup_collaborators w cfg hist).1 = Raise AttributeError.
Proof.
  intros Htok. unfold Collab.setup_collaborators.
  rewrite bind_print, Htok. cbn [fst].
  rewrite bind_lift_Ret, bind_print. cbn [fst].
  match goal with |- context [bind ?m ?k ?h] =>
    destruct (invite_phase_eq w cfg (Collab.GitHubClient_init token0)
                (slice_from_1 (Collab.USERS cfg)) h) as (ievs & Hinv & _)
  end.
  rewrite (bind_Ret _ _ _ _ _ Hinv). cbn [fst].
  rewrite bind_print. cbn [fst]. unfold sleep. rewrite bind_emit.
  cbn [fst]. rewrite bind_print. cbn [fst].
  match goal with |- context [bind ?m ?k ?h] =>
    pose proof (accept_phase_raises w cfg
                  (zip (slice_from_1 (Collab.USERS cfg))
                       (slice_from_1 (Collab.TOKENS cfg))) h) as Hraise;
    destruct (m h) as [[[]|e] aevs] eqn:Hacc
  end.
  - left. rewrite (bind_Ret _ _ _ _ _ Hacc). reflexivity.
  - right. rewrite (bind_Raise _ _ _ _ _ Hacc). cbn [fst]. f_equal.
    by apply Hraise.
Qed.

(** No request of the bootstrap goes to the identity endpoint, the one the
    preflight calls. *)
Lemma setup_collaborators_urls w cfg hist :
  Forall (fun rq => rq_url rq <> "https://api.github.com/user")
    (requests (Collab.setup_collaborators w cfg hist).2).
Proof.
  destruct (Collab.TOKENS cfg !! 0%nat) as [token0|] eqn:Htok.
  - destruct (setup_collaborators_requests w cfg hist token0 Htok) as (h & ->).
    apply Forall_app. split; apply Forall_forall; intros rq Hin.
    + apply list_elem_of_In, in_map_iff in Hin as (u & <- & _).
      intros H. cbv [invite_request call_request rq_url String.eqb Ascii.eqb
                     Bool.eqb String.append] in H.
      discriminate H.
    + destruct (accept_phase_requests w cfg
                  (zip (slice_from_1 (Collab.USERS cfg))
                       (slice_from_1 (Collab.TOKENS cfg))) h) as [Hreq _].
      destruct (Hreq rq Hin) as (k & u & t & h' & _ & Hin').
      pose proof (accept_member_requests_shape w cfg u t h') as Hshape.
      rewrite Forall_forall in Hshape.
      destruct (Hshape rq Hin') as [-> | (id & ->)]; intros H;
        cbv [list_request accept_request call_request rq_url String.eqb
             Ascii.eqb Bool.eqb String.append] in H;
        discriminate H.
  - assert (Hnone : Collab.TOKENS cfg = [])
      by (destruct (Collab.TOKENS cfg); [done | discriminate]).
    rewrite (setup_collaborators_no_token w cfg hist Hnone). constructor.
Qed.

(** C2, as the code has it.  The run of [auto_secrets.py] ends with
    [exit(1)] before any request when the admin token or every token is
    missing, and ends with [exit(1)] after the identity call of the
    preflight, its only request, when the preflight returns false.
    [setup_collaborators.py] has no preflight: its run never calls the
    identity endpoint and never ends with [exit(1)]; it stops before any
    request, with an [IndexError], when no token at all is configured, and
    with a token configured it sends the invite of every member username,
    whatever the host answers. *)
Theorem secrets_run_is_gated :
  (forall w env hist,
     nonempty (default "" (env !! "PAT1")) = false ->
     Secrets.main w env hist = (Raise (SystemExit 1), [Print MsgNoAdminToken]))
  /\ (forall w env hist,
        Secrets.collect_tokens env = [] ->
        (Secrets.main w env hist).1 = Raise (SystemExit 1)
        /\ requests (Secrets.main w env hist).2 = [])
  /\ (forall w env hist cfg evs0,
        Secrets.load env hist = (Ret cfg, evs0) ->
        (Secrets.check_permissions w cfg (hist ++ evs0)).1 = Ret false ->
        (Secrets.main w env hist).1 = Raise (SystemExit 1)
        /\ requests (Secrets.main w env hist).2
           = [identity_request (Secrets.ADMIN_TOKEN cfg)])
  /\ (forall w env hist,
        Collab.TOKENS (Collab.load env) = [] ->
        (Collab.main w env hist).1 = Raise IndexError
        /\ requests (Collab.main w env hist).2 = [])
  /\ (forall w env hist first_token,
        Collab.TOKENS (Collab.load env) !! 0%nat = Some first_token ->
        let cfg := Collab.load env in
        ((Collab.main w env hist).1 = Ret tt
         \/ (Collab.main w env hist).1 = Raise AttributeError)
        /\ exists h,
             requests (Collab.main w env hist).2
             = map (invite_request cfg (Collab.GitHubClient_init first_token))
                 (List.filter nonempty (slice_from_1 (Collab.USERS cfg)))
               ++ requests
                    (Collab.accept_phase w cfg
                       (zip (slice_from_1 (Collab.USERS cfg))
                            (slice_from_1 (Collab.TOKENS cfg))) h).2)
  /\ (forall w env hist,
        Forall (fun rq => rq_url rq <> "https://api.github.com/user")
          (requests (Collab.main w env hist).2)).
Proof.
  split; [|split; [|split; [|split; [|split]]]].
  - intros w env hist Hadmin. unfold Secrets.main, Secrets.load. cbv zeta.
    rewrite Hadmin. cbn [negb].
    rewrite (bind_Raise _ _ _ (SystemExit 1) [Print MsgNoAdminToken]);
      [reflexivity|].
    by rewrite bind_print.
  - intros w env hist Htok. unfold Secrets.main, Secrets.load. cbv zeta.
    rewrite Htok.
    destruct (nonempty (default "" (env !! "PAT1"))); cbn [negb].
    + by rewrite (bind_Raise _ _ _ (SystemExit 1) [Print MsgNoTokens]);
        [|rewrite bind_print].
    + by rewrite (bind_Raise _ _ _ (SystemExit 1) [Print MsgNoAdminToken]);
        [|rewrite bind_print].
  - intros w env hist cfg evs0 Hload Hcheck. unfold Secrets.main.
    rewrite (bind_Ret _ _ _ _ _ Hload), (run_preflight_false _ _ _ Hcheck).
    cbn [fst snd]. split; [reflexivity|].
    apply load_Ret in Hload as (Hq & _). autorewrite with trace.
    rewrite Hq, (check_permissions_false_requests _ _ _ Hcheck). reflexivity.
  - intros w env hist Htok. unfold Collab.main.
    by rewrite (setup_collaborators_no_token _ _ _ Htok).
  - intros w env hist first_token Htok. cbv zeta. unfold Collab.main. split.
    + exact (setup_collaborators_outcome w _ hist first_token Htok).
    + exact (setup_collaborators_requests w _ hist first_token Htok).
  - intros w env hist. apply setup_collaborators_urls.
Qed.

Lemma secrets_run_is_gated_witness :
  Secrets.main (Scenarios.world_of Scenarios.no_content_host) ∅ []
  = (Raise (SystemExit 1), [Print MsgNoAdminToken])
  /\ requests (Secrets.main (Scenarios.world_of Scenarios.no_content_host) ∅ []).2
     = []
  /\ ((Secrets.main (Scenarios.world_of Scenarios.unauthorized_host)
         Scenarios.two_accounts []).1 = Raise (SystemExit 1)
      /\ requests (Secrets.main (Scenarios.world_of Scenarios.unauthorized_host)
                     Scenarios.two_accounts []).2
         = [identity_request "ghp_admin"])
  /\ requests (Collab.main (Scenarios.world_of Scenarios.no_content_host) ∅ []).2
     = []
  /\ (let w := Scenarios.world_of Scenarios.unauthorized_host in
      let cfg := Collab.load Scenarios.two_accounts in
      exists h,
        requests (Collab.main w Scenarios.two_accounts []).2
        = map (invite_request cfg (Collab.GitHubClient_init "ghp_admin"))
            (List.filter nonempty (slice_from_1 (Collab.USERS cfg)))
          ++ requests
               (Collab.accept_phase w cfg
                  (zip (slice_from_1 (Collab.USERS cfg))
                       (slice_from_1 (Collab.TOKENS cfg))) h).2).
Proof.
  destruct secrets_run_is_gated
    as (Hadmin & Htokens & Hpre & Hcollab & Hruns & _).
  split; [|split; [|split; [|split]]].
  - apply Hadmin. reflexivity.
  - apply Htokens. vm_compute. reflexivity.
  - apply (Hpre (Scenarios.world_of Scenarios.unauthorized_host)
             Scenarios.two_accounts [] Scenarios.two_secrets
             [Print (MsgFound "octo/hapus" 2)]).
    + vm_compute. reflexivity.
    + reflexivity.
  - apply Hcollab. vm_compute. reflexivity.
  - refine (proj2 (Hruns (Scenarios.world_of Scenarios.unauthorized_host)
                     Scenarios.two_accounts [] "ghp_admin" _)).
    vm_compute. reflexivity.
Defined.

(** C2 fails for the collaborator bootstrap: on a host where the preflight
    returns false, the run of [setup_collaborators.py] sends its invitation
    and lists the member's invitations, and never calls the identity
    endpoint. *)
Lemma collaborator_bootstrap_runs_without_preflight :
  (Secrets.check_permissions (Scenarios.world_of Scenarios.unauthorized_host)
     Scenarios.two_secrets []).1 = Ret false
  /\ (Collab.main (Scenarios.world_of Scenarios.unauthorized_host)
        Scenarios.two_accounts []).1 = Ret tt
  /\ map (fun rq => (rq_verb rq, rq_url rq))
       (requests (Collab.main (Scenarios.world_of Scenarios.unauthorized_host)
                    Scenarios.two_accounts []).2)
     = [(PUT, "https://api.github.com/repos/octo/hapus/collaborators/mona");
        (GET, "https://api.github.com/user/repository_invitations")].
Proof. split; [reflexivity|]. split; vm_compute; reflexivity. Qed.

(** ** The admin credential and the target of the bootstrap *)











Example owner_missing_invites :
  map rq_url
    (List.filter is_put
       (requests (Collab.main (Scenarios.world_of Scenarios.no_content_host)
                    Scenarios.owner_missing []).2))
  = ["https://api.github.com/repos//hapus/collaborators/mona"].
Proof. vm_compute. reflexivity. Qed.

(** ** Every member gets its turn *)

(** The GETs of the loop body: the list fetch, once, unless the pair is
    skipped. *)
Lemma accept_member_gets w cfg u t hist :
  List.filter is_get (requests (Collab.accept_member w cfg u t hist).2)
  = if (nonempty u && nonempty t)%bool
    then [list_request (Collab.GitHubClient_init t)] else [].
Proof.
  unfold Collab.accept_member. rewrite <- negb_andb.
  destruct (nonempty u && nonempty t)%bool; cbn [negb]; [|reflexivity].
  cbv zeta. rewrite bind_call. cbv beta zeta. cbn [snd].
  fold (list_request (Collab.GitHubClient_init t)).
  autorewrite with trace. cbn [app List.filter is_get rq_verb list_request
                               call_request].
  change (is_get (list_request (Collab.GitHubClient_init t))) with true.
  cbv iota. f_equal.
  match goal with |- context [if ?c then print _ else _] => destruct c end;
    [reflexivity|].
  rewrite bind_events. autorewrite with trace. rewrite List.filter_app.
  match goal with |- context [Collab.scan_invitations w cfg ?c u ?items ?h] =>
    destruct (scan_invitations_requests w cfg c u items h)
      as [[Hnone | (invite & _ & _ & Hone)] _];
    cbv zeta in *; [rewrite Hnone | rewrite Hone];
    destruct (Collab.scan_invitations w cfg c u items h).1 as [accepted|e]
  end; cbn [List.filter app]; try reflexivity.
  all: destruct accepted; cbn [negb]; rewrite ?bind_ret, ?bind_print;
    reflexivity.
Qed.

(** X15.  The members do not block one another.  In every run the accept
    phase fetches the invitation lists of the pairs it does not skip in
    order, once each, each with the token of its own pair: the fetches of a
    run are the first ones of that list.  Only an entry the scan cannot read
    stops the phase, with [AttributeError]; no failure of a fetch or of a
    PATCH does.  And a phase that returns has fetched the list of every pair
    it does not skip, whatever the host answered to the others. *)
Theorem accept_phase_visits_every_member w cfg members hist :
  let run := Collab.accept_phase w cfg members hist in
  let fetches := map (fun p => list_request (Collab.GitHubClient_init p.2))
                   (attempted members) in
  List.filter is_get (requests run.2) `prefix_of` fetches
  /\ (forall e, run.1 = Raise e -> e = AttributeError)
  /\ (run.1 = Ret tt -> List.filter is_get (requests run.2) = fetches).
Proof.
  cbv zeta. split; [|split].
  - revert hist. induction members as [|[u t] rest IH]; intros hist; [done|].
    cbn [Collab.accept_phase]. rewrite bind_events, requests_app, List.filter_app.
    rewrite accept_member_gets.
    assert (Hatt : map (fun p => list_request (Collab.GitHubClient_init p.2))
                     (attempted ((u, t) :: rest))
                   = (if (nonempty u && nonempty t)%bool
                      then [list_request (Collab.GitHubClient_init t)] else [])
                     ++ map (fun p => list_request (Collab.GitHubClient_init p.2))
                          (attempted rest)).
    { unfold attempted. cbn [List.filter fst snd].
      by destruct (nonempty u && nonempty t)%bool. }
    rewrite Hatt. apply prefix_app.
    destruct (Collab.accept_member w cfg u t hist).1 as [[]|e];
      [apply IH | apply prefix_nil].
  - apply accept_phase_raises.
  - revert hist. induction members as [|[u t] rest IH]; intros hist; [done|].
    cbn [Collab.accept_phase].
    pose proof (accept_member_gets w cfg u t hist) as Hg.
    destruct (Collab.accept_member w cfg u t hist) as [[[]|e] mevs] eqn:Hm.
    + rewrite (bind_Ret _ _ _ _ _ Hm). cbn [fst snd]. intros Hret.
      rewrite requests_app, List.filter_app, (IH _ Hret).
      cbn [snd] in Hg. rewrite Hg. unfold attempted. cbn [List.filter fst snd].
      by destruct (nonempty u && nonempty t)%bool.
    + rewrite (bind_Raise _ _ _ _ _ Hm). discriminate.
Qed.

Lemma accept_phase_visits_every_member_witness :
  let run := Collab.accept_phase (Scenarios.world_of Scenarios.down_host)
               Scenarios.collaborators
               [("mona", "ghp_member"); ("hubot", "ghp_hubot")] [] in
  run.1 = Ret tt
  /\ List.filter is_get (requests run.2)
     = map (fun p => list_request (Collab.GitHubClient_init p.2))
         (attempted [("mona", "ghp_member"); ("hubot", "ghp_hubot")]).
Proof.
  intros run. split; [reflexivity|].
  apply (accept_phase_visits_every_member
           (Scenarios.world_of Scenarios.down_host) Scenarios.collaborators
           [("mona", "ghp_member"); ("hubot", "ghp_hubot")] []).
  reflexivity.
Defined.

(** ** Listings the scan cannot read *)

(** X16.  An entry of the invitation list that is not an object, or whose
    repository is present and not an object, ends the run when the scan
    reaches it: the loop body raises [AttributeError] right after the list
    fetch, nothing is PATCHed even when the invitation to the target comes
    later in the list, and no later member is visited. *)
Theorem unreadable_entry_ends_accept_phase w cfg u t rest hist before bad after :
  u <> "" -> t <> "" ->
  let client := Collab.GitHubClient_init t in
  let listing := host w hist (list_request client) in
  (call_outcome listing).1 = VList (before ++ bad :: after) ->
  Forall (fun invite => well_formed_invite invite = true) before ->
  Forall (fun invite => names_repo (Collab.TARGET_REPO cfg) invite = false) before ->
  well_formed_invite bad = false ->
  Collab.accept_phase w cfg ((u, t) :: rest) hist
  = (Raise AttributeError,
     Http (list_request client) listing :: (call_outcome listing).2).
Proof.
  intros Hu Ht client listing Hitems Hwf Hno Hbad.
  cbn [Collab.accept_phase].
  assert (Hm : Collab.accept_member w cfg u t hist
               = (Raise AttributeError,
                  Http (list_request client) listing :: (call_outcome listing).2)).
  { unfold Collab.accept_member.
    rewrite (nonempty_true u Hu), (nonempty_true t Ht). cbn [negb orb].
    cbv zeta. rewrite bind_call. cbv beta zeta.
    fold client. fold (list_request client). fold listing. rewrite Hitems.
    assert ((negb (truthy (VList (before ++ bad :: after)))
             || negb (is_list (VList (before ++ bad :: after))))%bool = false)
      as -> by (by destruct before).
    cbv iota.
    match goal with
    | |- context [bind (Collab.scan_invitations w cfg client u _) _ ?h] =>
      pose proof (scan_invitations_malformed w cfg client u bad after h Hbad)
        as Hscan;
      rewrite <- (scan_invitations_first w cfg client u before bad after h
                    Hwf Hno) in Hscan
    end.
    rewrite (bind_Raise _ _ _ _ _ Hscan). cbn [fst snd]. by rewrite app_nil_r. }
  by rewrite (bind_Raise _ _ _ _ _ Hm).
Qed.

Lemma unreadable_entry_ends_accept_phase_witness :
  Collab.accept_phase (Scenarios.world_of Scenarios.null_repository_host)
    Scenarios.collaborators [("mona", "ghp_member"); ("hubot", "ghp_hubot")] []
  = (Raise AttributeError,
     [Http (list_request (Collab.GitHubClient_init "ghp_member"))
        (Scenarios.null_repository_host []
           (list_request (Collab.GitHubClient_init "ghp_member")))]).
Proof.
  apply (unreadable_entry_ends_accept_phase
           (Scenarios.world_of Scenarios.null_repository_host)
           Scenarios.collaborators "mona" "ghp_member"
           [("hubot", "ghp_hubot")] [] []
           (VDict [("id", VInt 7); ("repository", VNone)])
           [Scenarios.invitation 42 "octo/hapus"]);
    try discriminate; try reflexivity; constructor.
Defined.

(** X17.  The accept endpoint is named after the [id] of the entry as
    Python prints it: an integer id gives its decimal digits, a text id
    gives the text, and an entry without an [id] is still PATCHed, at the
    endpoint [/user/repository_invitations/None]. *)
Theorem accept_endpoint_follows_id w cfg client u fields rest hist :
  names_repo (Collab.TARGET_REPO cfg) (VDict fields) = true ->
  exists rq,
    requests (Collab.scan_invitations w cfg client u (VDict fields :: rest) hist).2
    = [rq]
    /\ rq_verb rq = PATCH
    /\ rq_json rq = None
    /\ (forall n, assoc "id" fields = Some (VInt n) ->
          rq_url rq
          = "https://api.github.com/user/repository_invitations/" +:+ str_of_int n)
    /\ (forall id, assoc "id" fields = Some (VStr id) ->
          rq_url rq
          = "https://api.github.com/user/repository_invitations/" +:+ id)
    /\ (assoc "id" fields = None ->
        rq_url rq = "https://api.github.com/user/repository_invitations/None").
Proof.
  intros Hyes. rewrite (scan_invitations_hit w cfg client u _ rest hist Hyes).
  cbv zeta. cbn [snd]. autorewrite with trace.
  exists (accept_request w client (invite_id (VDict fields))).
  split; [reflexivity|]. split; [reflexivity|]. split; [reflexivity|].
  cbn [invite_id]. split; [|split].
  - by intros n ->.
  - by intros id ->.
  - by intros ->.
Qed.

Lemma accept_endpoint_follows_id_witness :
  exists rq,
    requests (Collab.scan_invitations
                (Scenarios.world_of Scenarios.no_content_host)
                Scenarios.collaborators (Collab.GitHubClient_init "ghp_member")
                "mona"
                [VDict [("repository", VDict [("full_name", VStr "octo/hapus")])]]
                []).2
    = [rq]
    /\ rq_url rq = "https://api.github.com/user/repository_invitations/None".
Proof.
  destruct (accept_endpoint_follows_id
              (Scenarios.world_of Scenarios.no_content_host)
              Scenarios.collaborators (Collab.GitHubClient_init "ghp_member")
              "mona"
              [("repository", VDict [("full_name", VStr "octo/hapus")])] [] []
              eq_refl) as (rq & Hrq & _ & _ & _ & _ & Hnone).
  exists rq. split; [exact Hrq | by apply Hnone].
Defined.

(** ** How many requests a run sends *)

Lemma bind_requests_length {A B} (m : M A) (k : A -> M B) hist (a b : nat) :
  (length (requests (m hist).2) <= a)%nat ->
  (forall x h, (length (requests (k x h).2) <= b)%nat) ->
  (length (requests (bind m k hist).2) <= a + b)%nat.
Proof.
  intros Hm Hk. rewrite bind_events, requests_app, length_app.
  destruct (m hist).1 as [x|e]; [|cbn; lia].
  specialize (Hk x (hist ++ (m hist).2)). lia.
Qed.

Lemma setup_secrets_loop_budget w cfg entries : forall n failed hist,
  (length (requests (Secrets.setup_secrets_loop w cfg entries n failed hist).2)
   <= 2 * length entries)%nat.
Proof.
  induction entries as [|[name value] rest IH]; intros n failed hist; [cbn; lia|].
  cbn [Secrets.setup_secrets_loop length].
  replace (2 * S (length rest))%nat with (0 + (2 + (0 + 2 * length rest)))%nat
    by lia.
  apply bind_requests_length; [cbn; lia|]. intros _ h.
  apply bind_requests_length.
  - destruct (create_or_update_secret_requests w (Secrets.TARGET_REPO cfg)
                (Secrets.ADMIN_TOKEN cfg) name value h)
      as [-> | (enc & kid & ->)]; cbn; lia.
  - intros ok h'. destruct ok;
      (apply bind_requests_length; [cbn; lia | intros; apply IH]).
Qed.

Lemma accept_member_budget w cfg u t hist :
  (length (requests (Collab.accept_member w cfg u t hist).2) <= 2)%nat.
Proof.
  unfold Collab.accept_member.
  destruct (negb (nonempty u) || negb (nonempty t))%bool; [cbn; lia|].
  cbv zeta. change 2%nat with (1 + 1)%nat.
  apply bind_requests_length.
  - rewrite call_eq. cbv zeta. cbn [snd]. autorewrite with trace. cbn. lia.
  - intros invitations h.
    destruct (negb (truthy invitations) || negb (is_list invitations))%bool;
      [cbn; lia|].
    change 1%nat with (1 + (0 + 0))%nat. apply bind_requests_length.
    + destruct (scan_invitations_requests w cfg (Collab.GitHubClient_init t) u
                  (match invitations with VList items => items | _ => [] end) h)
        as [[-> | (invite & _ & _ & ->)] _]; cbn; lia.
    + intros accepted h'. apply bind_requests_length; [|intros; cbn; lia].
      destruct (negb accepted); cbn; lia.
Qed.

Lemma accept_phase_budget w cfg members : forall hist,
  (length (requests (Collab.accept_phase w cfg members hist).2)
   <= 2 * length members)%nat.
Proof.
  induction members as [|[u t] rest IH]; intros hist; [cbn; lia|].
  cbn [Collab.accept_phase length].
  replace (2 * S (length rest))%nat with (2 + 2 * length rest)%nat by lia.
  apply bind_requests_length; [apply accept_member_budget | intros; apply IH].
Qed.

(** The requests of the loop body for a pair. *)
Lemma accept_member_requests_exact w cfg u t hist :
  member_requests w t (requests (Collab.accept_member w cfg u t hist).2).
Proof.
  unfold Collab.accept_member, member_requests.
  destruct (negb (nonempty u) || negb (nonempty t))%bool; [by left|].
  cbv zeta. rewrite bind_call. cbv beta zeta. cbn [snd].
  fold (list_request (Collab.GitHubClient_init t)).
  autorewrite with trace. cbn [app].
  match goal with |- context [if ?c then print _ else _] => destruct c end;
    [right; by left|].
  rewrite bind_events. autorewrite with trace.
  match goal with |- context [Collab.scan_invitations w cfg ?c u ?items ?h] =>
    destruct (scan_invitations_requests w cfg c u items h)
      as [[Hnone | (invite & _ & _ & Hone)] _];
    cbv zeta in *; [rewrite Hnone | rewrite Hone];
    destruct (Collab.scan_invitations w cfg c u items h).1 as [accepted|e]
  end; cbn [app].
  - right. left. destruct accepted; cbn [negb];
      rewrite ?bind_ret, ?bind_print; reflexivity.
  - right. by left.
  - right. right. exists (invite_id invite). destruct accepted; cbn [negb];
      rewrite ?bind_ret, ?bind_print; reflexivity.
  - right. right. by exists (invite_id invite).
Qed.

(** The requests of the provisioning loop come in groups, one for every
    entry it reaches, in order. *)
Lemma setup_secrets_loop_groups w cfg entries : forall n failed hist,
  exists groups,
    requests (Secrets.setup_secrets_loop w cfg entries n failed hist).2
    = concat groups
    /\ Forall2 (fun (entry : string * string) rqs =>
                  upload_requests (Secrets.TARGET_REPO cfg)
                    (Secrets.ADMIN_TOKEN cfg) entry.1 rqs)
         (take (length groups) entries) groups.
Proof.
  induction entries as [|[name value] rest IH]; intros n failed hist.
  - exists []. split; [reflexivity | constructor].
  - pose proof (create_or_update_secret_requests w (Secrets.TARGET_REPO cfg)
                  (Secrets.ADMIN_TOKEN cfg) name value
                  (hist ++ [Print (MsgAdding name)])) as Hq.
    cbv zeta in Hq.
    destruct (Secrets.create_or_update_secret w (Secrets.TARGET_REPO cfg)
                (Secrets.ADMIN_TOKEN cfg) name value
                (hist ++ [Print (MsgAdding name)])) as [[ok|e] uevs] eqn:Hup;
      cbn [snd] in Hq.
    + rewrite (provision_step _ _ _ _ _ _ _ _ _ _ Hup). cbv zeta. cbn [snd].
      match goal with
      | |- context [Secrets.setup_secrets_loop w cfg rest ?n' ?f' ?h'] =>
          destruct (IH n' f' h') as (groups & Hreq & Hall)
      end.
      exists (requests uevs :: groups). split.
      * change (Print (MsgAdding name) :: uevs ++ ?x :: ?revs)
          with ([Print (MsgAdding name)] ++ uevs ++ [x] ++ revs).
        rewrite !requests_app, Hreq. by destruct ok.
      * cbn [length take]. by constructor.
    + rewrite (provision_raise _ _ _ _ _ _ _ _ _ _ Hup). cbn [snd].
      exists [requests uevs]. split.
      * autorewrite with trace. cbn [concat]. by rewrite app_nil_r.
      * cbn [length take]. constructor; [exact Hq | constructor].
Qed.

(** And so do those of the accept phase, one group for every pair it
    reaches. *)
Lemma accept_phase_groups w cfg members : forall hist,
  exists groups,
    requests (Collab.accept_phase w cfg members hist).2 = concat groups
    /\ Forall2 (fun (p : string * string) rqs => member_requests w p.2 rqs)
         (take (length groups) members) groups.
Proof.
  induction members as [|[u t] rest IH]; intros hist.
  - exists []. split; [reflexivity | constructor].
  - cbn [Collab.accept_phase]. rewrite bind_events, requests_app.
    pose proof (accept_member_requests_exact w cfg u t hist) as Hq.
    destruct (Collab.accept_member w cfg u t hist).1 as [[]|e].
    + destruct (IH (hist ++ (Collab.accept_member w cfg u t hist).2))
        as (groups & Hreq & Hall).
      exists (requests (Collab.accept_member w cfg u t hist).2 :: groups).
      split; [by rewrite Hreq|]. cbn [length take]. by constructor.
    + exists [requests (Collab.accept_member w cfg u t hist).2].
      split; [cbn [concat]; by autorewrite with trace|].
      cbn [length take]. constructor; [exact Hq | constructor].
Qed.

(** X18.  No request is ever repeated to make up for a failure.  In every
    run the requests of the provisioning loop are, entry after entry in the
    order of the dictionary and as far as the loop gets, one key fetch,
    alone or followed by one PUT to the secret of that entry; and those of
    the accept phase are, pair after pair, at most one list fetch, alone or
    followed by one PATCH.  So a run of [auto_secrets.py] sends at most one
    identity call and two requests per secret, and a run of the
    collaborator bootstrap sends at most one invite per username after the
    first and two requests per pair of username and token. *)
Theorem runs_stay_within_request_budget w :
  (forall cfg entries n failed hist,
     exists groups,
       requests (Secrets.setup_secrets_loop w cfg entries n failed hist).2
       = concat groups
       /\ Forall2 (fun (entry : string * string) rqs =>
                     upload_requests (Secrets.TARGET_REPO cfg)
                       (Secrets.ADMIN_TOKEN cfg) entry.1 rqs)
            (take (length groups) entries) groups)
  /\ (forall cfg members hist,
        exists groups,
          requests (Collab.accept_phase w cfg members hist).2 = concat groups
          /\ Forall2 (fun (p : string * string) rqs => member_requests w p.2 rqs)
               (take (length groups) members) groups)
  /\ (forall cfg hist,
        (length (requests (Secrets.run w cfg hist).2)
         <= 1 + 2 * length (Secrets.TOKENS cfg))%nat)
  /\ (forall cfg hist,
        (length (requests (Collab.setup_collaborators w cfg hist).2)
         <= length (slice_from_1 (Collab.USERS cfg))
            + 2 * length (zip (slice_from_1 (Collab.USERS cfg))
                              (slice_from_1 (Collab.TOKENS cfg))))%nat).
Proof.
  split; [intros; apply setup_secrets_loop_groups|].
  split; [intros; apply accept_phase_groups|].
  split.
  - intros cfg hist. unfold Secrets.run, try_except.
    match goal with |- context [match ?body hist with _ => _ end] =>
      assert (Hbody : (length (requests (body hist).2)
                       <= 1 + (0 + 2 * length (Secrets.TOKENS cfg)))%nat)
    end.
    { apply bind_requests_length.
      - rewrite check_permissions_eq. cbv zeta.
        destruct (host w _ _) as [resp|]; [|cbn; lia].
        destruct (status_code resp =? 200); [|cbn; lia].
        destruct (str_in "repo" _ && str_in "workflow" _)%bool; cbn; lia.
      - intros ok h. apply bind_requests_length.
        + destruct ok; cbn [negb]; [cbn; lia|].
          change 0%nat with (0 + 0)%nat.
          apply bind_requests_length; [cbn; lia | intros; cbn; lia].
        + intros _ h'. unfold Secrets.setup_secrets.
          replace (2 * length (Secrets.TOKENS cfg))%nat
            with (0 + (2 * length (Secrets.TOKENS cfg) + (0 + (0 + 0))))%nat
            by lia.
          apply bind_requests_length; [cbn; lia|]. intros _ h1.
          apply bind_requests_length; [apply setup_secrets_loop_budget|].
          intros totals h2.
          apply bind_requests_length; [cbn; lia|]. intros _ h3.
          apply bind_requests_length.
          * destruct totals.2; cbn; lia.
          * intros _ h4. destruct (_ =? _); cbn; lia. }
    match goal with |- context [match ?body hist with _ => _ end] =>
      destruct (body hist) as [[[]|e] evs]
    end; cbn [snd] in *; [lia|].
    destruct (is_Exception e); cbn [snd]; [|lia].
    unfold print, emit. cbn [snd]. autorewrite with trace. rewrite app_nil_r. lia.
  - intros cfg hist.
    destruct (Collab.TOKENS cfg !! 0%nat) as [token0|] eqn:Htok.
    + destruct (setup_collaborators_requests w cfg hist token0 Htok) as (h & ->).
      rewrite length_app, length_map.
      pose proof (accept_phase_budget w cfg
                    (zip (slice_from_1 (Collab.USERS cfg))
                         (slice_from_1 (Collab.TOKENS cfg))) h).
      pose proof (List.filter_length_le nonempty (slice_from_1 (Collab.USERS cfg))).
      lia.
    + destruct (Collab.TOKENS cfg) as [|t0 ts] eqn:Hnil; [|discriminate].
      rewrite (setup_collaborators_no_token w cfg hist Hnil). cbn. lia.
Qed.

(** ** The order of the uploads *)

(** X19.  The secrets are uploaded in the order of the dictionary and each
    at most once: the PUTs of the loop, in the order they are sent, go to
    the endpoints of a sublist of the names of the batch.  No name outside
    the batch is written and no name is written twice. *)
Theorem uploads_follow_the_dictionary w cfg entries : forall n failed hist,
  exists uploaded,
    uploaded `sublist_of` map fst entries
    /\ map rq_url
         (List.filter is_put
            (requests (Secrets.setup_secrets_loop w cfg entries n failed hist).2))
       = map (secret_url (Secrets.TARGET_REPO cfg)) uploaded.
Proof.
  induction entries as [|[name value] rest IH]; intros n failed hist.
  - exists []. by split.
  - cbn [Secrets.setup_secrets_loop]. rewrite bind_print. cbn [snd].
    autorewrite with trace. rewrite bind_events, requests_app, List.filter_app,
      map_app.
    set (h := hist ++ [Print (MsgAdding name)]).
    assert (Hrest : exists uploaded,
              uploaded `sublist_of` map fst rest
              /\ map rq_url
                   (List.filter is_put
                      (requests
                         match (Secrets.create_or_update_secret w
                                  (Secrets.TARGET_REPO cfg) (Secrets.ADMIN_TOKEN cfg)
                                  name value h).1 with
                         | Ret ok =>
                             ((if ok : bool
                               then print MsgOk ;;;
                                    Secrets.setup_secrets_loop w cfg rest (n + 1) failed
                               else print MsgFail ;;;
                                    Secrets.setup_secrets_loop w cfg rest n
                                      (failed ++ [name]))
                                (h ++ (Secrets.create_or_update_secret w
                                         (Secrets.TARGET_REPO cfg)
                                         (Secrets.ADMIN_TOKEN cfg) name value h).2)).2
                         | Raise _ => []
                         end))
                 = map (secret_url (Secrets.TARGET_REPO cfg)) uploaded).
    { destruct (Secrets.create_or_update_secret w _ _ name value h).1 as [ok|e];
        [|exists []; split; [apply sublist_nil_l | reflexivity]].
      destruct ok; rewrite bind_print; cbn [snd]; autorewrite with trace;
        apply IH. }
    destruct Hrest as (uploaded & Hsub & ->).
    destruct (create_or_update_secret_requests w (Secrets.TARGET_REPO cfg)
                (Secrets.ADMIN_TOKEN cfg) name value h)
      as [-> | (enc & kid & ->)].
    + exists uploaded. split; [by apply sublist_cons | reflexivity].
    + exists (name :: uploaded). split; [by apply sublist_skip | reflexivity].
Qed.

(** ** A preflight that cannot reach the host *)

(** X20.  When the identity call of the preflight fails in transport, the
    run of [auto_secrets.py] does not exit with status 1 as it does for a
    refused token: the exception is caught by the handler of the
    [__main__] block, the error is printed, no secret is attempted, and
    the run returns. *)
Theorem preflight_transport_failure_returns w cfg hist :
  host w (hist ++ [Print MsgChecking])
    (identity_request (Secrets.ADMIN_TOKEN cfg)) = Failure ->
  Secrets.run w cfg hist
  = (Ret tt,
     [Print MsgChecking;
      Http (identity_request (Secrets.ADMIN_TOKEN cfg)) Failure;
      Print (MsgError RequestException)]).
Proof.
  intros Hh. unfold Secrets.run, try_except.
  pose proof (check_permissions_eq w cfg hist) as Hc. cbv zeta in Hc.
  rewrite Hh in Hc. by rewrite (bind_Raise _ _ _ _ _ Hc).
Qed.

Lemma preflight_transport_failure_returns_witness :
  Secrets.run (Scenarios.world_of Scenarios.down_host) Scenarios.two_secrets []
  = (Ret tt,
     [Print MsgChecking;
      Http (identity_request "ghp_admin") Failure;
      Print (MsgError RequestException)]).
Proof.
  apply (preflight_transport_failure_returns
           (Scenarios.world_of Scenarios.down_host) Scenarios.two_secrets []).
  reflexivity.
Defined.
